(** * PN532 NFC reader driver: frame transport, MIFARE Classic access, detection loop

    A shallow embedding of
      - esphome/components/pn532/pn532.cpp
      - esphome/components/pn532/pn532_mifare_classic.cpp
    and the properties of the specification that concern them.

    Conventions.
      - [uint8_t] values are integers of [Z]; every place where the C++ code
        narrows to [uint8_t] is written out with [u8].
      - A [std::vector<uint8_t>] is a [list Z].  Indexing, erasing and
        range-constructing outside the bounds of a vector is undefined
        behaviour in C++; the embedding makes it observable as the outcome
        [OutOfRange].
      - The byte transport ([read_data], [write_data]) is pure virtual in the
        driver.  It is a type class here; the frames handed to [write_data]
        are recorded in order, so that what the driver puts on the wire can be
        stated. *)

From Stdlib Require Import ZArith List Bool Lia.
Import ListNotations.
Local Open Scope Z_scope.

(** ** Machine integers and vectors *)

Definition u8 (x : Z) : Z := x mod 256.
Definition u32 (x : Z) : Z := x mod 4294967296.

Inductive outcome (A : Type) : Type :=
| Ret (a : A)
| OutOfRange.
Arguments Ret {A} a.
Arguments OutOfRange {A}.

Definition size (v : list Z) : Z := Z.of_nat (length v).

(** [v.empty()] *)
Definition empty (v : list Z) : bool := size v =? 0.

(** [v[i]] *)
Definition at_ (v : list Z) (i : Z) : outcome Z :=
  if (0 <=? i) && (i <? size v) then Ret (nth (Z.to_nat i) v 0) else OutOfRange.

(** [v.erase(v.begin() + first, v.begin() + last)] *)
Definition erase (v : list Z) (first last : Z) : outcome (list Z) :=
  if (0 <=? first) && (first <=? last) && (last <=? size v)
  then Ret (firstn (Z.to_nat first) v ++ skipn (Z.to_nat last) v)
  else OutOfRange.

(** [std::vector<uint8_t>(v.begin() + first, v.begin() + last)] *)
Definition range (v : list Z) (first last : Z) : outcome (list Z) :=
  if (0 <=? first) && (first <=? last) && (last <=? size v)
  then Ret (firstn (Z.to_nat (last - first)) (skipn (Z.to_nat first) v))
  else OutOfRange.

(** [v.insert(v.begin() + pos, x)], for [pos] within the vector *)
Definition insert (v : list Z) (pos : Z) (x : Z) : list Z :=
  firstn (Z.to_nat pos) v ++ x :: skipn (Z.to_nat pos) v.

(** [v.resize(n, 0)] *)
Definition resize (n : Z) (v : list Z) : list Z :=
  firstn (Z.to_nat n) v ++ repeat 0 (Z.to_nat n - length v).

(** ** The byte transport *)

(** [write_data(bytes)] and [read_data(data, len)] of the concrete bus
    (I2C, SPI, UART).  [dev_read] receives the caller's vector and returns
    the success flag together with the vector as the call leaves it. *)
Class Transport (D : Type) : Type := {
  dev_write : list Z -> D -> D;
  dev_read : list Z -> Z -> D -> bool * list Z * D
}.

Record bus (D : Type) : Type := mkBus {
  device : D;
  written : list (list Z)
}.
Arguments mkBus {D} _ _.
Arguments device {D} _.
Arguments written {D} _.

(** Computations of the driver thread a state and may end in [OutOfRange];
    the state is then the one in which the fault happened.  The frame and
    tag layers run on the bus, the detection loop on the whole component. *)
Definition M (S A : Type) : Type := S -> outcome A * S.

Definition ret {S A} (a : A) : M S A := fun s => (Ret a, s).

Definition bind {S A B} (c : M S A) (k : A -> M S B) : M S B :=
  fun s => match c s with
           | (Ret a, s') => k a s'
           | (OutOfRange, s') => (OutOfRange, s')
           end.

Definition lift {S A} (o : outcome A) : M S A := fun s => (o, s).

Declare Scope pn532_scope.
Delimit Scope pn532_scope with pn532.
Notation "x <- c ;; k" := (bind c (fun x => k))
  (at level 61, c at next level, right associativity) : pn532_scope.
Notation "' pat <- c ;; k" := (bind c (fun x => match x with pat => k end))
  (at level 61, pat pattern, c at next level, right associativity) : pn532_scope.
Notation "c ;; k" := (bind c (fun _ => k))
  (at level 61, right associativity) : pn532_scope.
Local Open Scope pn532_scope.

Definition write_data {D} `{Transport D} (data : list Z) : M (bus D) unit :=
  fun b => (Ret tt, mkBus (dev_write data (device b)) (written b ++ [data])).

Definition read_data {D} `{Transport D} (data : list Z) (len : Z)
  : M (bus D) (bool * list Z) :=
  fun b => let '(ok, data', d') := dev_read data len (device b) in
           (Ret (ok, data'), mkBus d' (written b)).

(** A scripted transport: every [read_data] consumes the next entry
    of a script.  [None] is a failed read, which leaves the caller's vector
    alone; [Some bytes] is a successful read that delivers exactly the
    requested [len + 1] bytes (a leading status byte and [len] bytes of the
    frame), cut or zero-filled from [bytes]. *)
Definition script : Type := list (option (list Z)).

#[export] Instance scripted : Transport script := {
  dev_write := fun _ d => d;
  dev_read := fun data len d =>
    match d with
    | [] => (false, data, [])
    | None :: d' => (false, data, d')
    | Some bytes :: d' => (true, resize (len + 1) bytes, d')
    end
}.

(** ** Frame transport (pn532.cpp) *)

(** The vector [write_data] that [write_command_] assembles. *)
Definition command_frame (data : list Z) : list Z :=
  let real_length := u8 (size data + 1) in
  let checksum := fold_left (fun checksum dat => u8 (checksum + dat)) data 0xD4 in
  [0x00; 0x00; 0xFF; real_length; u8 (Z.lnot real_length + 1); 0xD4]
    ++ data ++ [u8 (Z.lnot checksum + 1); 0x00].

Section FrameTransport.
Context {D : Type} `{Transport D}.

Definition read_ack_ : M (bus D) bool :=
  '(ok, data) <- read_data [] 6 ;;
  if negb ok then ret false else
  d1 <- lift (at_ data 1) ;;
  if negb (d1 =? 0x00) then ret false else
  d2 <- lift (at_ data 2) ;;
  if negb (d2 =? 0x00) then ret false else
  d3 <- lift (at_ data 3) ;;
  if negb (d3 =? 0xFF) then ret false else
  d4 <- lift (at_ data 4) ;;
  if negb (d4 =? 0x00) then ret false else
  d5 <- lift (at_ data 5) ;;
  if negb (d5 =? 0xFF) then ret false else
  d6 <- lift (at_ data 6) ;;
  ret (d6 =? 0x00).

Definition write_command_ (data : list Z) : M (bus D) bool :=
  write_data (command_frame data) ;;
  read_ack_.

(** The condition
    [data[1] != 0x00 && data[2] != 0x00 && data[3] != 0xFF]
    of [read_response_] and [read_response_length_], with the
    short-circuit evaluation of [&&]. *)
Definition invalid_preamble (data : list Z) : M (bus D) bool :=
  d1 <- lift (at_ data 1) ;;
  if d1 =? 0x00 then ret false else
  d2 <- lift (at_ data 2) ;;
  if d2 =? 0x00 then ret false else
  d3 <- lift (at_ data 3) ;;
  ret (negb (d3 =? 0xFF)).

Definition read_response_length_ : M (bus D) Z :=
  '(ok, data) <- read_data [] 6 ;;
  if negb ok then ret 0 else
  bad <- invalid_preamble data ;;
  if bad then ret 0 else
  d4 <- lift (at_ data 4) ;;
  d5 <- lift (at_ data 5) ;;
  valid_header <-
    (if negb (u8 (d4 + d5) =? 0) then ret false else
     d6 <- lift (at_ data 6) ;;
     ret (d6 =? 0xD5)) ;;
  if negb valid_header then ret 0 else
  write_data [0x00; 0x00; 0xFF; 0xFF; 0x00; 0x00] ;;
  full_len <- lift (at_ data 4) ;;
  let len := u8 (full_len - 1) in
  let len := if full_len =? 0 then 0 else len in
  ret len.

(** [checksum] after the loop [for (int i = 0; i < len + 1; i++)] has run
    its remaining [n] iterations from index [i]. *)
Fixpoint checksum_loop (data : list Z) (n : nat) (i : Z) (checksum : Z) : outcome Z :=
  match n with
  | O => Ret checksum
  | S n' =>
      match at_ data i with
      | Ret dat => checksum_loop data n' (i + 1) (u8 (checksum + dat))
      | OutOfRange => OutOfRange
      end
  end.

(** [read_response_(command, data)]: the result is the returned flag and
    the vector [data] as the call leaves it. *)
Definition read_response_ (command : Z) (data : list Z) : M (bus D) (bool * list Z) :=
  len <- read_response_length_ ;;
  if len =? 0 then ret (false, data) else
  '(ok, data) <- read_data data (6 + len + 2) ;;
  if negb ok then ret (false, data) else
  bad <- invalid_preamble data ;;
  if bad then ret (false, data) else
  d4 <- lift (at_ data 4) ;;
  d5 <- lift (at_ data 5) ;;
  valid_header <-
    (if negb (u8 (d4 + d5) =? 0) then ret false else
     d6 <- lift (at_ data 6) ;;
     if negb (d6 =? 0xD5) then ret false else
     d7 <- lift (at_ data 7) ;;
     ret (d7 =? command + 1)) ;;
  if negb valid_header then ret (false, data) else
  data <- lift (erase data 0 6) ;;
  checksum <- lift (checksum_loop data (Z.to_nat (len + 1)) 0 0) ;;
  let checksum := u8 (Z.lnot checksum + 1) in
  dcs <- lift (at_ data (len + 1)) ;;
  if negb (dcs =? checksum) then ret (false, data) else
  post <- lift (at_ data (len + 2)) ;;
  if negb (post =? 0x00) then ret (false, data) else
  data <- lift (erase data 0 2) ;;
  data <- lift (erase data (size data - 2) (size data)) ;;
  ret (true, data).

End FrameTransport.

(** ** What the driver takes from pn532.h and from the nfc component

    Neither header is part of the sources.  The command codes, the key
    tables, the tag-type codes, the TLV locator and the NDEF encoder are
    therefore parameters of the embedding. *)

Class Declarations : Type := {
  PN532_COMMAND_INLISTPASSIVETARGET : Z;
  PN532_COMMAND_INDATAEXCHANGE : Z;
  PN532_COMMAND_RFCONFIGURATION : Z;
  MIFARE_CMD_AUTH_A : Z;
  MIFARE_CMD_AUTH_B : Z;
  MIFARE_CMD_READ : Z;
  MIFARE_CMD_WRITE : Z;
  NDEF_KEY : list Z;
  DEFAULT_KEY : list Z;
  TAG_TYPE_MIFARE_CLASSIC : Z;
  TAG_TYPE_2 : Z;
  TAG_TYPE_UNKNOWN : Z;
  (** [nfc::guess_tag_type(uid_length)] *)
  guess_tag_type : Z -> Z;
  (** [nfc::decode_mifare_classic_tlv(data, message_length, message_start_index)]:
      [Some (message_length, message_start_index)] when it returns true *)
  decode_mifare_classic_tlv : list Z -> option (Z * Z);
  (** [encode()] of the message that [erase_tag_] builds with
      [add_empty_record()] *)
  empty_record_message : list Z
}.

Module nfc.

(** Modelled from the spec: [nfc::MIFARE_CLASSIC_BLOCK_SIZE] is not in the
    sources; a block is exactly 16 bytes. *)
Definition MIFARE_CLASSIC_BLOCK_SIZE : Z := 16.

(** Modelled from the spec: [nfc::BLOCK_SIZE], the name under which
    pn532.cpp uses the block size, is not in the sources. *)
Definition BLOCK_SIZE : Z := 16.

(** Modelled from the spec: [nfc::mifare_classic_is_first_block] is not in
    the sources; the first block of a sector is a block whose number is
    0 mod 4. *)
Definition mifare_classic_is_first_block (block_num : Z) : bool :=
  block_num mod 4 =? 0.

(** Modelled from the spec: [nfc::mifare_classic_is_trailer_block] is not
    in the sources; a trailer block is a block whose number is 3 mod 4. *)
Definition mifare_classic_is_trailer_block (block_num : Z) : bool :=
  block_num mod 4 =? 3.

(** Modelled from the spec: [nfc::get_mifare_classic_buffer_size] is not in
    the sources; the buffer size is
    ceil((tlv_header_len + message_length + 1) / 16) * 16, where the TLV
    header takes 2 bytes for a length below 255 and 4 bytes otherwise. *)
Definition get_mifare_classic_buffer_size (message_length : Z) : Z :=
  let buffer_size :=
    message_length + (if message_length <? 255 then 2 else 4) + 1 in
  (buffer_size + 15) / 16 * 16.

(** Modelled from the spec: [nfc::get_buffer_size], the name under which
    pn532.cpp asks for the same size, is not in the sources. *)
Definition get_buffer_size (message_length : Z) : Z :=
  get_mifare_classic_buffer_size message_length.

(** Modelled from the spec: the tag classes of the nfc component
    ([nfc::MIFARE_CLASSIC], [nfc::ERROR], and the class of a tag built
    from its UID alone) are not in the sources. *)
Inductive tag_type : Type := UNKNOWN | MIFARE_CLASSIC | ERROR.

(** Modelled from the spec: [nfc::NfcTag] is not in the sources.  A tag
    has a UID and a class; it carries a payload when it is constructed
    from a buffer. *)
Record NfcTag : Type := mkTag {
  get_uid : list Z;
  get_tag_type : tag_type;
  get_ndef_message : option (list Z)
}.

(** Modelled from the spec: [NfcTag::has_ndef_message] is not in the
    sources; payload fields are present only on tags that carry one. *)
Definition has_ndef_message (tag : NfcTag) : bool :=
  match get_ndef_message tag with Some _ => true | None => false end.

End nfc.

(** ** MIFARE Classic sector access and tag operations *)

(** [current_block++; if (nfc::mifare_classic_is_trailer_block(current_block))
    current_block++;] at the end of the body of every block loop;
    [current_block] is a [uint8_t]. *)
Definition next_block (current_block : Z) : Z :=
  let current_block := u8 (current_block + 1) in
  if nfc.mifare_classic_is_trailer_block current_block
  then u8 (current_block + 1)
  else current_block.

(** Lines 455-465 of pn532.cpp: [encoded] when the block loop of
    [write_tag_] starts. *)
Definition write_tag_buffer (encoded : list Z) : list Z :=
  if size encoded <? 255 then
    let encoded := insert encoded 0 0x03 in
    let encoded := insert encoded 1 (u8 (size encoded)) in
    encoded ++ [0xFE]
  else
    let encoded := insert encoded 0 0x03 in
    let encoded := insert encoded 1 0xFF in
    let encoded := insert encoded 2 (u8 (Z.land (Z.shiftr (size encoded) 8) 0xFF)) in
    let encoded := insert encoded 2 (u8 (Z.land (size encoded) 0xFF)) in
    encoded ++ [0xFE].

(** Lines 214-229 of pn532_mifare_classic.cpp: [encoded] when the block loop
    of [write_mifare_classic_tag_] starts. *)
Definition write_mifare_classic_tag_buffer (encoded : list Z) : list Z :=
  let message_length := u32 (size encoded) in
  let buffer_length := nfc.get_mifare_classic_buffer_size message_length in
  let encoded := insert encoded 0 0x03 in
  let encoded :=
    if message_length <? 255 then
      insert encoded 1 (u8 message_length)
    else
      let encoded := insert encoded 1 0xFF in
      let encoded := insert encoded 2 (u8 (Z.land (Z.shiftr message_length 8) 0xFF)) in
      insert encoded 3 (u8 (Z.land message_length 0xFF)) in
  let encoded := encoded ++ [0xFE] in
  resize buffer_length encoded.

Section TagOperations.
Context {D : Type} `{Transport D} `{Declarations}.

(** pn532_mifare_classic.cpp, the overload that fills [data] *)
Definition read_mifare_classic_block_ (block_num : Z) (data : list Z)
  : M (bus D) (bool * list Z) :=
  ok <- write_command_ [PN532_COMMAND_INDATAEXCHANGE; 0x01; MIFARE_CMD_READ; block_num] ;;
  if negb ok then ret (false, data) else
  '(ok, data) <- read_response_ PN532_COMMAND_INDATAEXCHANGE data ;;
  if negb ok then ret (false, data) else
  d0 <- lift (at_ data 0) ;;
  if negb (d0 =? 0x00) then ret (false, data) else
  data <- lift (erase data 0 1) ;;
  ret (true, data).

(** Modelled from the spec: the overload
    [std::vector<uint8_t> read_mifare_classic_block_(uint8_t)] that
    [read_tag_] of pn532.cpp calls is not in the sources.  It returns the
    block contents, and its callers take an empty vector for a failure. *)
Definition read_mifare_classic_block_vec (block_num : Z) : M (bus D) (list Z) :=
  '(ok, data) <- read_mifare_classic_block_ block_num [] ;;
  ret (if ok then data else []).

Definition auth_mifare_classic_block_ (uid : list Z) (block_num key_num : Z)
    (key : list Z) : M (bus D) bool :=
  let data := [PN532_COMMAND_INDATAEXCHANGE; 0x01; key_num; block_num] in
  let data := data ++ firstn 6 key in
  let data := data ++ uid in
  ok <- write_command_ data ;;
  if negb ok then ret false else
  '(ok, response) <- read_response_ PN532_COMMAND_INDATAEXCHANGE [] ;;
  if negb ok then ret false else
  r0 <- lift (at_ response 0) ;;
  if negb (r0 =? 0x00) then ret false else
  ret true.

Definition write_mifare_classic_block_ (block_num : Z) (write_data : list Z)
  : M (bus D) bool :=
  let data := [PN532_COMMAND_INDATAEXCHANGE; 0x01; MIFARE_CMD_WRITE; block_num] in
  let data := data ++ write_data in
  ok <- write_command_ data ;;
  if negb ok then ret false else
  '(ok, response) <- read_response_ PN532_COMMAND_INDATAEXCHANGE [] ;;
  if negb ok then ret false else
  ret true.

(** The loop [while (index < buffer_size)] of [read_mifare_classic_tag_].
    Every iteration adds 16 to [index], so [fuel] iterations are enough
    whenever [buffer_size - index <= fuel]
    (see [read_mifare_classic_loop_fuel]). *)
Fixpoint read_mifare_classic_loop (fuel : nat) (uid : list Z)
    (buffer_size index current_block : Z) (buffer : list Z) : M (bus D) (list Z) :=
  match fuel with
  | O => ret buffer
  | S fuel =>
      if negb (index <? buffer_size) then ret buffer else
      (if nfc.mifare_classic_is_first_block current_block
       then _ <- auth_mifare_classic_block_ uid current_block MIFARE_CMD_AUTH_A NDEF_KEY ;;
            ret tt
       else ret tt) ;;
      '(ok, block_data) <- read_mifare_classic_block_ current_block [] ;;
      let buffer := if ok then buffer ++ block_data else buffer in
      let index := index + nfc.MIFARE_CLASSIC_BLOCK_SIZE in
      let current_block := next_block current_block in
      read_mifare_classic_loop fuel uid buffer_size index current_block buffer
  end.

Definition read_mifare_classic_tag_ (uid : list Z) : M (bus D) nfc.NfcTag :=
  let current_block := 4 in
  authenticated <-
    auth_mifare_classic_block_ uid current_block MIFARE_CMD_AUTH_A NDEF_KEY ;;
  if negb authenticated then ret (nfc.mkTag uid nfc.MIFARE_CLASSIC None) else
  '(ok, data) <- read_mifare_classic_block_ current_block [] ;;
  if negb ok then
    match decode_mifare_classic_tlv data with
    | None => ret (nfc.mkTag uid nfc.ERROR None)
    | Some (message_length, message_start_index) =>
        let buffer_size := nfc.get_mifare_classic_buffer_size message_length in
        buffer <- read_mifare_classic_loop (Z.to_nat buffer_size) uid
                    buffer_size 0 current_block [] ;;
        buffer <- lift (erase buffer 0 message_start_index) ;;
        ret (nfc.mkTag uid nfc.MIFARE_CLASSIC (Some buffer))
    end
  else ret (nfc.mkTag uid nfc.MIFARE_CLASSIC None).

(** The loop [while (index < buffer_size)] of [read_tag_] (pn532.cpp). *)
Fixpoint read_tag_loop (fuel : nat) (uid : list Z)
    (buffer_size index current_block : Z) (buffer : list Z) : M (bus D) (list Z) :=
  match fuel with
  | O => ret buffer
  | S fuel =>
      if negb (index <? buffer_size) then ret buffer else
      (if nfc.mifare_classic_is_first_block current_block
       then _ <- auth_mifare_classic_block_ uid current_block MIFARE_CMD_AUTH_A NDEF_KEY ;;
            ret tt
       else ret tt) ;;
      data <- read_mifare_classic_block_vec current_block ;;
      let buffer := if negb (empty data) then buffer ++ data else buffer in
      let index := index + nfc.BLOCK_SIZE in
      let current_block := next_block current_block in
      read_tag_loop fuel uid buffer_size index current_block buffer
  end.

Definition read_tag_ (uid : list Z) : M (bus D) nfc.NfcTag :=
  let type := guess_tag_type (size uid) in
  if type =? TAG_TYPE_MIFARE_CLASSIC then
    let current_block := 4 in
    authenticated <-
      auth_mifare_classic_block_ uid current_block MIFARE_CMD_AUTH_A NDEF_KEY ;;
    if negb authenticated then ret (nfc.mkTag uid nfc.MIFARE_CLASSIC None) else
    data <- read_mifare_classic_block_vec current_block ;;
    if negb (empty data) then
      match decode_mifare_classic_tlv data with
      | None => ret (nfc.mkTag uid nfc.ERROR None)
      | Some (message_length, message_start_index) =>
          let buffer_size := nfc.get_buffer_size message_length in
          buffer <- read_tag_loop (Z.to_nat buffer_size) uid
                      buffer_size 0 current_block [] ;;
          buffer <- lift (erase buffer 0 message_start_index) ;;
          ret (nfc.mkTag uid nfc.MIFARE_CLASSIC (Some buffer))
      end
    else ret (nfc.mkTag uid nfc.MIFARE_CLASSIC None)
  else if type =? TAG_TYPE_2 then ret (nfc.mkTag uid nfc.UNKNOWN None)
  else if type =? TAG_TYPE_UNKNOWN then ret (nfc.mkTag uid nfc.UNKNOWN None)
  else ret (nfc.mkTag uid nfc.UNKNOWN None).


(** The loop [while (index < buffer_length)] of
    [write_mifare_classic_tag_]. *)
Fixpoint write_mifare_classic_loop (fuel : nat) (uid encoded : list Z)
    (buffer_length index current_block : Z) : M (bus D) bool :=
  match fuel with
  | O => ret true
  | S fuel =>
      if negb (index <? buffer_length) then ret true else
      authenticated <-
        (if nfc.mifare_classic_is_first_block current_block
         then auth_mifare_classic_block_ uid current_block MIFARE_CMD_AUTH_A NDEF_KEY
         else ret true) ;;
      if negb authenticated then ret false else
      data <- lift (range encoded index (index + nfc.MIFARE_CLASSIC_BLOCK_SIZE)) ;;
      ok <- write_mifare_classic_block_ current_block data ;;
      if negb ok then ret false else
      let index := index + nfc.MIFARE_CLASSIC_BLOCK_SIZE in
      let current_block := next_block current_block in
      write_mifare_classic_loop fuel uid encoded buffer_length index current_block
  end.

(** [message] stands for [message->encode()]. *)
Definition write_mifare_classic_tag_ (uid message : list Z) : M (bus D) bool :=
  let message_length := u32 (size message) in
  let buffer_length := nfc.get_mifare_classic_buffer_size message_length in
  let encoded := write_mifare_classic_tag_buffer message in
  write_mifare_classic_loop (Z.to_nat buffer_length) uid encoded buffer_length 0 4.

(** The loop [while (index < encoded.size())] of [write_tag_] (pn532.cpp). *)
Fixpoint write_tag_loop (fuel : nat) (uid encoded : list Z)
    (index current_block : Z) : M (bus D) bool :=
  match fuel with
  | O => ret true
  | S fuel =>
      if negb (index <? size encoded) then ret true else
      authenticated <-
        (if nfc.mifare_classic_is_first_block current_block
         then auth_mifare_classic_block_ uid current_block MIFARE_CMD_AUTH_A NDEF_KEY
         else ret true) ;;
      if negb authenticated then ret false else
      data <- lift (range encoded index (index + nfc.BLOCK_SIZE)) ;;
      ok <- write_mifare_classic_block_ current_block data ;;
      if negb ok then ret false else
      let index := index + nfc.BLOCK_SIZE in
      let current_block := next_block current_block in
      write_tag_loop fuel uid encoded index current_block
  end.

Definition write_tag_ (uid message : list Z) : M (bus D) bool :=
  let encoded := write_tag_buffer message in
  write_tag_loop (Z.to_nat (size encoded)) uid encoded 0 4.

(** [body] for every element of [l] in order, the way the [for] loops of
    the format functions run; [acc] is the state the body updates. *)
Fixpoint for_each {A S : Type} (l : list A) (acc : S) (body : A -> S -> M (bus D) S)
  : M (bus D) S :=
  match l with
  | [] => ret acc
  | x :: l' => acc <- body x acc ;; for_each l' acc body
  end.

Definition blank_buffer : list Z := repeat 0x00 16.
Definition trailer_buffer : list Z :=
  [0xFF; 0xFF; 0xFF; 0xFF; 0xFF; 0xFF; 0xFF; 0x07; 0x80; 0x69; 0xFF; 0xFF; 0xFF; 0xFF; 0xFF; 0xFF].

(** [if (!write_mifare_classic_block_(block, buffer)) error = true;] *)
Definition write_or_flag (block_num : Z) (buffer : list Z) (error : bool) : M (bus D) bool :=
  ok <- write_mifare_classic_block_ block_num buffer ;;
  ret (if negb ok then true else error).

Definition format_mifare_classic_mifare_ (uid : list Z) : M (bus D) bool :=
  error <- for_each (map Z.of_nat (seq 0 16)) false (fun idx error =>
    authenticated <-
      auth_mifare_classic_block_ uid (4 * idx + 3) MIFARE_CMD_AUTH_B DEFAULT_KEY ;;
    if negb authenticated then ret error else
    error <-
      (if idx =? 0 then
         write_or_flag (4 * idx + 1) blank_buffer error
       else
         error <- write_or_flag (4 * idx) blank_buffer error ;;
         write_or_flag (4 * idx + 1) blank_buffer error) ;;
    error <- write_or_flag (4 * idx + 2) blank_buffer error ;;
    write_or_flag (4 * idx + 3) trailer_buffer error) ;;
  ret (negb error).

Definition empty_ndef_message : list Z :=
  [0x03; 0x03; 0xD0; 0x00; 0x00; 0xFE; 0x00; 0x00; 0x00; 0x00; 0x00; 0x00; 0x00; 0x00; 0x00; 0x00].
Definition sector_buffer_0 : list Z := repeat 0x00 16.
Definition sector_buffer_1 : list Z :=
  [0x14; 0x01; 0x03; 0xE1; 0x03; 0xE1; 0x03; 0xE1; 0x03; 0xE1; 0x03; 0xE1; 0x03; 0xE1; 0x03; 0xE1].
Definition sector_buffer_2 : list Z :=
  [0x03; 0xE1; 0x03; 0xE1; 0x03; 0xE1; 0x03; 0xE1; 0x03; 0xE1; 0x03; 0xE1; 0x03; 0xE1; 0x03; 0xE1].
Definition sector_buffer_3 : list Z :=
  [0xA0; 0xA1; 0xA2; 0xA3; 0xA4; 0xA5; 0x78; 0x77; 0x88; 0xC1; 0xFF; 0xFF; 0xFF; 0xFF; 0xFF; 0xFF].
Definition sector_buffer_4 : list Z :=
  [0xD3; 0xF7; 0xD3; 0xF7; 0xD3; 0xF7; 0x7F; 0x07; 0x88; 0x40; 0xFF; 0xFF; 0xFF; 0xFF; 0xFF; 0xFF].

Definition format_mifare_classic_ndef_ (uid : list Z) : M (bus D) bool :=
  authenticated <- auth_mifare_classic_block_ uid 0 MIFARE_CMD_AUTH_B DEFAULT_KEY ;;
  if negb authenticated then ret false else
  ok <- write_mifare_classic_block_ 1 sector_buffer_1 ;;
  if negb ok then ret false else
  ok <- write_mifare_classic_block_ 2 sector_buffer_2 ;;
  if negb ok then ret false else
  ok <- write_mifare_classic_block_ 3 sector_buffer_3 ;;
  if negb ok then ret false else
  for_each (map (fun k => 4 + 4 * Z.of_nat k) (seq 0 15)) tt (fun i _ =>
    authenticated <- auth_mifare_classic_block_ uid i MIFARE_CMD_AUTH_B DEFAULT_KEY ;;
    if negb authenticated then ret tt else
    (if i =? 4
     then write_mifare_classic_block_ i empty_ndef_message
     else write_mifare_classic_block_ i sector_buffer_0) ;;
    write_mifare_classic_block_ (i + 1) sector_buffer_0 ;;
    write_mifare_classic_block_ (i + 2) sector_buffer_0 ;;
    write_mifare_classic_block_ (i + 3) sector_buffer_4 ;;
    ret tt) ;;
  ret true.

Definition clean_tag_ (uid : list Z) : M (bus D) bool :=
  let type := guess_tag_type (size uid) in
  if type =? TAG_TYPE_MIFARE_CLASSIC then format_mifare_classic_mifare_ uid
  else ret false.

Definition erase_tag_ (uid : list Z) : M (bus D) bool :=
  write_tag_ uid empty_record_message.

Definition format_tag_ (uid : list Z) : M (bus D) bool :=
  let type := guess_tag_type (size uid) in
  if type =? TAG_TYPE_MIFARE_CLASSIC then format_mifare_classic_ndef_ uid
  else ret false.

Definition turn_off_rf_ : M (bus D) unit :=
  _ <- write_command_ [PN532_COMMAND_RFCONFIGURATION; 0x01; 0x00] ;;
  ret tt.

End TagOperations.

(** ** The component and its detection loop (pn532.cpp) *)

Inductive task : Type := READ | CLEAN | FORMAT | ERASE | WRITE.

(** A binary sensor bound to a UID; [published] lists the states handed to
    [publish_state], oldest first. *)
Record PN532BinarySensor : Type := mkSensor {
  uid_ : list Z;
  found_ : bool;
  published : list bool
}.

(** The loop [for (uint8_t i = 0; i < data.size(); i++)
    if (data[i] != this->uid_[i]) return false;] for vectors of one size:
    [true] when the loop runs to its end. *)
Fixpoint process_loop (data uid : list Z) : bool :=
  match data, uid with
  | x :: data', y :: uid' => if negb (x =? y) then false else process_loop data' uid'
  | _, _ => true
  end.

Definition PN532BinarySensor_process (sensor : PN532BinarySensor) (data : list Z)
  : bool * PN532BinarySensor :=
  if negb (size data =? size (uid_ sensor)) then (false, sensor) else
  if negb (process_loop data (uid_ sensor)) then (false, sensor) else
  (true, mkSensor (uid_ sensor) true (published sensor ++ [true])).

(** A trigger; [fired] lists the tags it was triggered with, oldest first. *)
Record PN532Trigger : Type := mkTrigger {
  fired : list nfc.NfcTag
}.

Definition PN532Trigger_process (trigger : PN532Trigger) (tag : nfc.NfcTag) : PN532Trigger :=
  mkTrigger (fired trigger ++ [tag]).

Record PN532 (D : Type) : Type := mkPN532 {
  link : bus D;
  requested_read_ : bool;
  current_uid_ : list Z;
  next_task_ : task;
  next_task_continuous_ : bool;
  next_task_message_to_write_ : option (list Z);
  binary_sensors_ : list PN532BinarySensor;
  triggers_ : list PN532Trigger
}.
Arguments mkPN532 {D} _ _ _ _ _ _ _ _.
Arguments link {D} _.
Arguments requested_read_ {D} _.
Arguments current_uid_ {D} _.
Arguments next_task_ {D} _.
Arguments next_task_continuous_ {D} _.
Arguments next_task_message_to_write_ {D} _.
Arguments binary_sensors_ {D} _.
Arguments triggers_ {D} _.

(** The loop [for (uint8_t i = 0; i < nfcid.size(); i++)
    same_uid |= nfcid[i] == this->current_uid_[i];] for vectors of one
    size. *)
Fixpoint same_uid_loop (nfcid current_uid : list Z) (same_uid : bool) : bool :=
  match nfcid, current_uid with
  | x :: nfcid', y :: current_uid' =>
      same_uid_loop nfcid' current_uid' (same_uid || (x =? y))
  | _, _ => same_uid
  end.

(** The loop [for (auto *bin_sens : this->binary_sensors_)
    if (bin_sens->process(nfcid)) report = false;] *)
Fixpoint process_sensors (sensors : list PN532BinarySensor) (nfcid : list Z) (report : bool)
  : bool * list PN532BinarySensor :=
  match sensors with
  | [] => (report, [])
  | bin_sens :: sensors' =>
      let '(hit, bin_sens) := PN532BinarySensor_process bin_sens nfcid in
      let report := if hit then false else report in
      let '(report, sensors') := process_sensors sensors' nfcid report in
      (report, bin_sens :: sensors')
  end.

Section DetectionLoop.
Context {D : Type} `{Transport D} `{Declarations}.

(** A computation on the bus, run on the component's bus. *)
Definition on_link {A} (c : M (bus D) A) : M (PN532 D) A :=
  fun this =>
    let '(r, b) := c (link this) in
    (r, mkPN532 b (requested_read_ this) (current_uid_ this) (next_task_ this)
          (next_task_continuous_ this) (next_task_message_to_write_ this)
          (binary_sensors_ this) (triggers_ this)).

Definition get {A} (field : PN532 D -> A) : M (PN532 D) A :=
  fun this => (Ret (field this), this).

Definition set_requested_read_ (v : bool) : M (PN532 D) unit :=
  fun this =>
    (Ret tt, mkPN532 (link this) v (current_uid_ this) (next_task_ this)
               (next_task_continuous_ this) (next_task_message_to_write_ this)
               (binary_sensors_ this) (triggers_ this)).

Definition set_current_uid_ (v : list Z) : M (PN532 D) unit :=
  fun this =>
    (Ret tt, mkPN532 (link this) (requested_read_ this) v (next_task_ this)
               (next_task_continuous_ this) (next_task_message_to_write_ this)
               (binary_sensors_ this) (triggers_ this)).

Definition set_next_task_ (v : task) : M (PN532 D) unit :=
  fun this =>
    (Ret tt, mkPN532 (link this) (requested_read_ this) (current_uid_ this) v
               (next_task_continuous_ this) (next_task_message_to_write_ this)
               (binary_sensors_ this) (triggers_ this)).

Definition set_binary_sensors_ (v : list PN532BinarySensor) : M (PN532 D) unit :=
  fun this =>
    (Ret tt, mkPN532 (link this) (requested_read_ this) (current_uid_ this)
               (next_task_ this) (next_task_continuous_ this)
               (next_task_message_to_write_ this) v (triggers_ this)).

Definition set_triggers_ (v : list PN532Trigger) : M (PN532 D) unit :=
  fun this =>
    (Ret tt, mkPN532 (link this) (requested_read_ this) (current_uid_ this)
               (next_task_ this) (next_task_continuous_ this)
               (next_task_message_to_write_ this) (binary_sensors_ this) v).

(** The branches on [next_task_]; the result is [true] when the branch
    leaves [loop] with [return]. *)
Definition run_task (nfcid : list Z) (tag : nfc.NfcTag) : M (PN532 D) bool :=
  next_task <- get next_task_ ;;
  match next_task with
  | READ =>
      triggers <- get triggers_ ;;
      set_triggers_ (map (fun trigger => PN532Trigger_process trigger tag) triggers) ;;
      ret false
  | CLEAN => _ <- on_link (clean_tag_ nfcid) ;; ret false
  | FORMAT => _ <- on_link (format_tag_ nfcid) ;; ret false
  | ERASE => _ <- on_link (erase_tag_ nfcid) ;; ret false
  | WRITE =>
      message <- get next_task_message_to_write_ ;;
      match message with
      | None => ret false
      | Some message =>
          formatted <-
            (if nfc.has_ndef_message tag then ret true
             else on_link (format_tag_ nfcid)) ;;
          if negb formatted then on_link turn_off_rf_ ;; ret true else
          _ <- on_link (write_tag_ nfcid message) ;;
          ret false
      end
  end.

Definition loop : M (PN532 D) unit :=
  requested_read <- get requested_read_ ;;
  if negb requested_read then ret tt else
  '(success, read) <- on_link (read_response_ PN532_COMMAND_INLISTPASSIVETARGET []) ;;
  set_requested_read_ false ;;
  if negb success then
    set_current_uid_ [] ;; on_link turn_off_rf_
  else
  num_targets <- lift (at_ read 0) ;;
  if negb (num_targets =? 1) then
    set_current_uid_ [] ;; on_link turn_off_rf_
  else
  nfcid_length <- lift (at_ read 5) ;;
  nfcid <- lift (range read 6 (6 + nfcid_length)) ;;
  if size read <? 6 + nfcid_length then ret tt else
  sensors <- get binary_sensors_ ;;
  let '(report, sensors) := process_sensors sensors nfcid true in
  set_binary_sensors_ sensors ;;
  current_uid <- get current_uid_ ;;
  if (size nfcid =? size current_uid) && same_uid_loop nfcid current_uid false
  then ret tt else
  set_current_uid_ nfcid ;;
  tag <- on_link (read_tag_ nfcid) ;;
  returned <- run_task nfcid tag ;;
  if returned then ret tt else
  next_task_continuous <- get next_task_continuous_ ;;
  (if negb next_task_continuous then set_next_task_ READ else ret tt) ;;
  on_link turn_off_rf_.

End DetectionLoop.

(** ** An instance of the declarations *)

(** Modelled from the spec: the TLV locator.  Type 0x03 marks an NDEF
    message; the length is one byte below 255 and otherwise 0xFF followed
    by a 2-byte big-endian length; the payload starts behind the header. *)
Definition tlv_locate (data : list Z) : option (Z * Z) :=
  match data with
  | type :: len :: rest =>
      if negb (type =? 0x03) then None else
      if len =? 0xFF then
        match rest with
        | hi :: lo :: _ => Some (hi * 256 + lo, 4)
        | _ => None
        end
      else Some (len, 2)
  | _ => None
  end.

(** The codes of the PN532 user manual and of the MIFARE Classic command
    set, the NFC-forum keys, the TLV locator of the specification, and a
    classification that takes the tags with a 4-byte UID for MIFARE
    Classic.  The statements that are evaluated on concrete reads use this
    instance; all others hold for every instance. *)
Definition pn532_h : Declarations := {|
  PN532_COMMAND_INLISTPASSIVETARGET := 0x4A;
  PN532_COMMAND_INDATAEXCHANGE := 0x40;
  PN532_COMMAND_RFCONFIGURATION := 0x32;
  MIFARE_CMD_AUTH_A := 0x60;
  MIFARE_CMD_AUTH_B := 0x61;
  MIFARE_CMD_READ := 0x30;
  MIFARE_CMD_WRITE := 0xA0;
  NDEF_KEY := [0xD3; 0xF7; 0xD3; 0xF7; 0xD3; 0xF7];
  DEFAULT_KEY := [0xFF; 0xFF; 0xFF; 0xFF; 0xFF; 0xFF];
  TAG_TYPE_MIFARE_CLASSIC := 0;
  TAG_TYPE_2 := 2;
  TAG_TYPE_UNKNOWN := 99;
  guess_tag_type := fun uid_length => if uid_length =? 4 then 0 else 2;
  decode_mifare_classic_tlv := tlv_locate;
  empty_record_message := [0xD0; 0x00; 0x00]
|}.

(** Modelled from the spec: the frame a PN532 sends.  It has the layout of
    a command frame with the direction byte 0xD5 (device to host). *)
Definition response_frame (data : list Z) : list Z :=
  let length := u8 (size data + 1) in
  let checksum := fold_left (fun checksum dat => u8 (checksum + dat)) data 0xD5 in
  [0x00; 0x00; 0xFF; length; u8 (Z.lnot length + 1); 0xD5]
    ++ data ++ [u8 (Z.lnot checksum + 1); 0x00].

(** The bytes [read_data] delivers for a frame on the wire: a status byte
    and the frame. *)
Definition delivered (frame : list Z) : option (list Z) := Some (0x01 :: frame).

(** The acknowledgement frame. *)
Definition ack_frame : list Z := [0x00; 0x00; 0xFF; 0x00; 0xFF; 0x00].

(** The reads of one command exchange that the device answers with
    [response]: the acknowledgement, the response for the length probe, and
    the response again after the retransmit request. *)
Definition exchange (response : list Z) : script :=
  [delivered ack_frame; delivered (response_frame response);
   delivered (response_frame response)].

(** [frame] with the byte at position [k] replaced by [v]. *)
Definition mutate (frame : list Z) (k : nat) (v : Z) : list Z :=
  firstn k frame ++ v :: skipn (S k) frame.

(** ** The statements of the specification, as definitions *)

Definition byte_sum (data : list Z) : Z := fold_right Z.add 0 data.

(** The frame invariants of the data model, for the frame built around the
    payload [data]. *)
Definition frame_invariants (data frame : list Z) : Prop :=
  exists len lcs dcs,
    frame = [0x00; 0x00; 0xFF; len; lcs; 0xD4] ++ data ++ [dcs; 0x00]
    /\ len = size data + 1
    /\ (len + lcs) mod 256 = 0
    /\ (0xD4 + byte_sum data + dcs) mod 256 = 0.

(** The TLV envelope of the data model around an encoded message: type
    0x03, the length in one byte below 255 and else as 0xFF and two
    big-endian bytes, the message, and the terminator 0xFE. *)
Definition tlv_envelope (message : list Z) : list Z :=
  let n := size message in
  (if n <? 255 then [0x03; n] else [0x03; 0xFF; n / 256 mod 256; n mod 256])
    ++ message ++ [0xFE].

(** The block that a frame on the wire reads or writes: the frame carries
    an InDataExchange command whose MIFARE command is a block read or a
    block write. *)
Definition io_block `{Declarations} (frame : list Z) : option Z :=
  match frame with
  | _ :: _ :: _ :: _ :: _ :: _ :: command :: _ :: mifare_cmd :: block_num :: _ :: _ :: _ =>
      if (command =? PN532_COMMAND_INDATAEXCHANGE)
         && ((mifare_cmd =? MIFARE_CMD_READ) || (mifare_cmd =? MIFARE_CMD_WRITE))
      then Some block_num
      else None
  | _ => None
  end.

Definition spares_trailers `{Declarations} (frame : list Z) : Prop :=
  forall block_num, io_block frame = Some block_num -> block_num mod 4 <> 3.

(** Every frame that the computation [c] hands to [write_data] satisfies
    [P], from whatever state of the bus it starts and whether or not it
    ends in a fault. *)
Definition emits {D A : Type} (P : list Z -> Prop) (c : M (bus D) A) : Prop :=
  forall b, exists frames,
    written (snd (c b)) = written b ++ frames /\ Forall P frames.

(** A frame on the wire, field by field. *)
Definition wire_frame (len lcs tfi dcs post : Z) (data : list Z) : list Z :=
  [0x00; 0x00; 0xFF; len; lcs; tfi] ++ data ++ [dcs; post].

(** The positions of the length, length checksum, data checksum and
    postamble in a frame that carries [data]. *)
Definition LEN_field : nat := 3.
Definition LCS_field : nat := 4.
Definition DCS_field (data : list Z) : nat := 6 + length data.
Definition postamble_field (data : list Z) : nat := 7 + length data.

(** The retransmit request that [read_response_length_] writes. *)
Definition nack_frame : list Z := [0x00; 0x00; 0xFF; 0xFF; 0x00; 0x00].

(** ** Scenarios *)

(** The response of InListPassiveTarget to one MIFARE Classic tag with the
    UID 04 01 02 03: one target, target number 1, SENS_RES 00 04, SEL_RES
    08, and the UID with its length.  The first byte is the command echo. *)
Definition one_target_response : list Z :=
  [0x4B; 0x01; 0x01; 0x00; 0x04; 0x08; 0x04; 0x04; 0x01; 0x02; 0x03].

(** A bus on the scripted transport on which nothing has been written yet. *)
Definition fresh_bus (reads : script) : bus script := mkBus reads [].

Definition uid_04010203 : list Z := [0x04; 0x01; 0x02; 0x03].

(** The component between [update] and [loop]: a read has been requested,
    the task is READ, one trigger is registered. *)
Definition awaiting (reads : script) (current_uid : list Z) : PN532 script :=
  mkPN532 (fresh_bus reads) true current_uid READ false None [] [mkTrigger []].

(** The response of InDataExchange with the status byte [status], followed
    by the bytes [contents]. *)
Definition data_exchange_response (status : Z) (contents : list Z) : list Z :=
  0x41 :: status :: contents.

(** A command that the device does not acknowledge: the read of the
    acknowledgement fails. *)
Definition no_ack : script := [None].

(** An authentication that the tag accepts, and a read of a block with the
    contents that [format_mifare_classic_ndef_] writes to block 4. *)
Definition authenticated : script := exchange (data_exchange_response 0x00 []).
Definition block_4_read : script :=
  exchange (data_exchange_response 0x00 empty_ndef_message).

(** A frame from the device that announces one target with a 4-byte UID
    and carries [uid_bytes] behind the length. *)
Definition target_frame (uid_bytes : list Z) : list Z :=
  response_frame ([0x4B; 0x01; 0x01; 0x00; 0x04; 0x08; 0x04] ++ uid_bytes).

(** ** Further functions of pn532.cpp *)

Section Requests.
Context {D : Type}.

(** [PN532::clean_tag], [erase_tag], [format_tag] and [write_tag]: the
    requests that arm the next task. *)
Definition clean_tag (continuous : bool) : M (PN532 D) unit :=
  fun this =>
    (Ret tt, mkPN532 (link this) (requested_read_ this) (current_uid_ this) CLEAN
               continuous (next_task_message_to_write_ this)
               (binary_sensors_ this) (triggers_ this)).

Definition erase_tag (continuous : bool) : M (PN532 D) unit :=
  fun this =>
    (Ret tt, mkPN532 (link this) (requested_read_ this) (current_uid_ this) ERASE
               continuous (next_task_message_to_write_ this)
               (binary_sensors_ this) (triggers_ this)).

Definition format_tag (continuous : bool) : M (PN532 D) unit :=
  fun this =>
    (Ret tt, mkPN532 (link this) (requested_read_ this) (current_uid_ this) FORMAT
               continuous (next_task_message_to_write_ this)
               (binary_sensors_ this) (triggers_ this)).

Definition write_tag (message : list Z) (continuous : bool) : M (PN532 D) unit :=
  fun this =>
    (Ret tt, mkPN532 (link this) (requested_read_ this) (current_uid_ this) WRITE
               continuous (Some message)
               (binary_sensors_ this) (triggers_ this)).

End Requests.

(** A request as a value, to speak about sequences of requests. *)
Inductive request : Type :=
| CleanTag (continuous : bool)
| EraseTag (continuous : bool)
| FormatTag (continuous : bool)
| WriteTag (message : list Z) (continuous : bool).

Definition request_task (r : request) : task :=
  match r with
  | CleanTag _ => CLEAN
  | EraseTag _ => ERASE
  | FormatTag _ => FORMAT
  | WriteTag _ _ => WRITE
  end.

Definition request_continuous (r : request) : bool :=
  match r with
  | CleanTag c | EraseTag c | FormatTag c | WriteTag _ c => c
  end.

Definition issue {D : Type} (r : request) : M (PN532 D) unit :=
  match r with
  | CleanTag c => clean_tag c
  | EraseTag c => erase_tag c
  | FormatTag c => format_tag c
  | WriteTag m c => write_tag m c
  end.

(** The component after the requests [rs], issued in order. *)
Definition issue_all {D : Type} (rs : list request) (this : PN532 D) : PN532 D :=
  fold_left (fun this r => snd (issue r this)) rs this.

(** The component with the state it inherits from its base classes:
    the warning indicator, the failed mark and the error code. *)
Inductive error_code : Type := NONE | WAKEUP_FAILED | SAM_COMMAND_FAILED.

Record Component (D : Type) : Type := mkComponent {
  pn532 : PN532 D;
  status_warning : bool;
  failed : bool;
  error_code_ : error_code
}.
Arguments mkComponent {D} _ _ _ _.
Arguments pn532 {D} _.
Arguments status_warning {D} _.
Arguments failed {D} _.
Arguments error_code_ {D} _.

(** [std::min(255u, update_interval / 50)] narrowed to [uint8_t];
    [update_interval] is a [uint32_t]. *)
Definition sam_timeout (update_interval : Z) : Z :=
  u8 (Z.min 255 (u32 update_interval / 50)).

Section Lifecycle.
Context {D : Type} `{Transport D} `{Declarations}.

(** Declared in pn532.h, which is not part of the sources: the two
    command codes that only [setup] uses, what a binary sensor does at
    the end of a scan, and the update interval of the component. *)
Variable PN532_COMMAND_VERSION_DATA : Z.
Variable PN532_COMMAND_SAMCONFIGURATION : Z.
Variable on_scan_end : PN532BinarySensor -> PN532BinarySensor.
Variable update_interval_ : Z.

(** A computation on the PN532 part of the component. *)
Definition on_pn532 {A} (c : M (PN532 D) A) : M (Component D) A :=
  fun this =>
    let '(r, p) := c (pn532 this) in
    (r, mkComponent p (status_warning this) (failed this) (error_code_ this)).

(** Modelled from the spec: [status_set_warning], [status_clear_warning]
    and [mark_failed] of the component base class are not in the
    sources; they set and clear a transient warning indicator and set a
    persistent failed state. *)
Definition status_set_warning : M (Component D) unit :=
  fun this => (Ret tt, mkComponent (pn532 this) true (failed this) (error_code_ this)).

Definition status_clear_warning : M (Component D) unit :=
  fun this => (Ret tt, mkComponent (pn532 this) false (failed this) (error_code_ this)).

Definition mark_failed : M (Component D) unit :=
  fun this => (Ret tt, mkComponent (pn532 this) (status_warning this) true
                         (error_code_ this)).

Definition set_error_code_ (v : error_code) : M (Component D) unit :=
  fun this => (Ret tt, mkComponent (pn532 this) (status_warning this) (failed this) v).

Definition update : M (Component D) unit :=
  sensors <- on_pn532 (get binary_sensors_) ;;
  on_pn532 (set_binary_sensors_ (map on_scan_end sensors)) ;;
  ok <- on_pn532 (on_link (write_command_ [PN532_COMMAND_INLISTPASSIVETARGET; 0x01; 0x00])) ;;
  if negb ok then status_set_warning else
  status_clear_warning ;;
  on_pn532 (set_requested_read_ true).

(** [setup].  Of the log statements only the one that indexes
    [version_data] is part of the embedding. *)
Definition setup : M (Component D) unit :=
  ok <- on_pn532 (on_link (write_command_ [PN532_COMMAND_VERSION_DATA])) ;;
  if negb ok then mark_failed else
  '(ok, version_data) <-
    on_pn532 (on_link (read_response_ PN532_COMMAND_VERSION_DATA [])) ;;
  if negb ok then mark_failed else
  _ <- lift (at_ version_data 0) ;;
  _ <- lift (at_ version_data 1) ;;
  _ <- lift (at_ version_data 2) ;;
  ok <- on_pn532 (on_link (write_command_
                             [PN532_COMMAND_SAMCONFIGURATION; 0x01; 0x14; 0x01])) ;;
  if negb ok then mark_failed else
  '(ok, wakeup_result) <-
    on_pn532 (on_link (read_response_ PN532_COMMAND_SAMCONFIGURATION [])) ;;
  if negb ok then set_error_code_ WAKEUP_FAILED ;; mark_failed else
  ok <- on_pn532 (on_link (write_command_
                             [PN532_COMMAND_SAMCONFIGURATION; 0x01;
                              sam_timeout update_interval_; 0x01])) ;;
  if negb ok then set_error_code_ SAM_COMMAND_FAILED ;; mark_failed else
  '(ok, sam_result) <-
    on_pn532 (on_link (read_response_ PN532_COMMAND_SAMCONFIGURATION [])) ;;
  if negb ok then set_error_code_ SAM_COMMAND_FAILED ;; mark_failed else
  on_pn532 (on_link turn_off_rf_).

End Lifecycle.

(** ** Devices *)

(** A transport on which no read ever succeeds. *)
Definition unresponsive (D : Type) `{Transport D} : Prop :=
  forall data len d, fst (fst (dev_read data len d)) = false.

(** A bus with nothing on it: every read fails and leaves the caller's
    vector alone. *)
#[export] Instance dead_bus : Transport unit := {
  dev_write := fun _ d => d;
  dev_read := fun data _ d => (false, data, d)
}.

(** The device in state [d] acknowledges [command] and answers it with the
    frame of [response], to the length probe and again after the
    retransmit request; [d'] is its state afterwards. *)
Definition answers {D : Type} `{Transport D} (command response : list Z) (d d' : D)
  : Prop :=
  exists s0 s1 s2 d1 d2,
    dev_read [] 6 (dev_write (command_frame command) d) = (true, s0 :: ack_frame, d1)
    /\ dev_read [] 6 d1 = (true, s1 :: firstn 6 (response_frame response), d2)
    /\ forall data0,
         dev_read data0 (6 + size response + 2) (dev_write nack_frame d2)
         = (true, s2 :: response_frame response, d').

(** The block that a frame on the wire writes. *)
Definition written_block `{Declarations} (frame : list Z) : option Z :=
  match frame with
  | _ :: _ :: _ :: _ :: _ :: _ :: command :: _ :: mifare_cmd :: block_num :: _ :: _ :: _ =>
      if (command =? PN532_COMMAND_INDATAEXCHANGE) && (mifare_cmd =? MIFARE_CMD_WRITE)
      then Some block_num
      else None
  | _ => None
  end.

(** A computation that writes nothing. *)
Definition silent {D A : Type} (c : M (bus D) A) : Prop :=
  forall b, written (snd (c b)) = written b.

(** [r] relates every state to the state in which the computation [c]
    leaves it. *)
Definition keeps {S A : Type} (r : S -> S -> Prop) (c : M S A) : Prop :=
  forall s, r s (snd (c s)).

(** The pending read request is as it was. *)
Definition same_request {D : Type} (before after : PN532 D) : Prop :=
  requested_read_ after = requested_read_ before.

(** The frames of a successful [setup], in the order in which they are
    written. *)
Definition setup_frames `{Declarations}
    (PN532_COMMAND_VERSION_DATA PN532_COMMAND_SAMCONFIGURATION update_interval_ : Z)
  : list (list Z) :=
  [command_frame [PN532_COMMAND_VERSION_DATA];
   nack_frame;
   command_frame [PN532_COMMAND_SAMCONFIGURATION; 0x01; 0x14; 0x01];
   nack_frame;
   command_frame [PN532_COMMAND_SAMCONFIGURATION; 0x01;
                  Z.min 255 (u32 update_interval_ / 50); 0x01];
   nack_frame;
   command_frame [PN532_COMMAND_RFCONFIGURATION; 0x01; 0x00]].

(** What [loop] leaves alone in the component: the continuous flag and the
    message to write; the number of sensors and their UIDs; the number of
    triggers; and the task, which is either kept or set to READ, and kept
    when the continuous flag is set. *)
Definition loop_frame {D : Type} (before after : PN532 D) : Prop :=
  next_task_continuous_ after = next_task_continuous_ before
  /\ next_task_message_to_write_ after = next_task_message_to_write_ before
  /\ map uid_ (binary_sensors_ after) = map uid_ (binary_sensors_ before)
  /\ length (triggers_ after) = length (triggers_ before)
  /\ (next_task_ after = next_task_ before
      \/ (next_task_ after = READ /\ next_task_continuous_ before = false)).

(** ** Further scenarios *)

(** The reads of a cycle in which the tag with the UID 04 01 02 03 is in
    the field: the response for the length probe and again after the
    retransmit request, and then [rest]. *)
Definition detected (rest : script) : script :=
  [delivered (response_frame one_target_response);
   delivered (response_frame one_target_response)] ++ rest.

(** The component between [update] and [loop] with the task [next_task]
    armed for the next tag; no sensor and no trigger is registered. *)
Definition armed (next_task : task) (message : option (list Z)) (reads : script)
    (current_uid : list Z) : PN532 script :=
  mkPN532 (fresh_bus reads) true current_uid next_task false message [] [].

(** The component before [setup] and between two cycles. *)
Definition installed (reads : script) : Component script :=
  mkComponent (mkPN532 (fresh_bus reads) false [] READ false None [] [])
    false false NONE.

(** The response of GetFirmwareVersion: the command echo, then IC, version,
    revision and the supported protocols. *)
Definition version_response : list Z := [0x03; 0x32; 0x01; 0x06; 0x07].

(** The response of SAMConfiguration: the command echo alone. *)
Definition sam_response : list Z := [0x15].

(** * Properties *)

Ltac mod_lia :=
  unfold u8, u32, Z.lnot in *; Z.to_euclidean_division_equations; lia.

(** ** Vectors *)

Lemma size_nonneg (v : list Z) : 0 <= size v.
Proof. unfold size. lia. Qed.

Lemma size_cons (x : Z) (v : list Z) : size (x :: v) = size v + 1.
Proof. unfold size. simpl length. lia. Qed.

Lemma size_app (v w : list Z) : size (v ++ w) = size v + size w.
Proof. unfold size. rewrite length_app. lia. Qed.

Lemma size_nil : size [] = 0.
Proof. reflexivity. Qed.

Lemma size_repeat (x : Z) (n : nat) : size (repeat x n) = Z.of_nat n.
Proof. unfold size. now rewrite repeat_length. Qed.

(** ** Frame construction *)

Lemma checksum_fold (data : list Z) (c : Z) :
  fold_left (fun checksum dat => u8 (checksum + dat)) data (u8 c)
  = u8 (c + byte_sum data).
Proof.
  revert c. induction data as [|dat data IH]; intros c; simpl.
  - f_equal. lia.
  - replace (u8 (u8 c + dat)) with (u8 (c + dat)) by mod_lia.
    rewrite IH. f_equal. lia.
Qed.

Lemma command_frame_checksum (data : list Z) :
  fold_left (fun checksum dat => u8 (checksum + dat)) data 0xD4
  = u8 (0xD4 + byte_sum data).
Proof. exact (checksum_fold data 0xD4). Qed.

(** The invariants that hold for payloads of every length: the length
    field is the payload length plus 1 narrowed to a byte, and both
    checksums cancel. *)
Lemma command_frame_layout (data : list Z) :
  exists len lcs dcs,
    command_frame data = [0x00; 0x00; 0xFF; len; lcs; 0xD4] ++ data ++ [dcs; 0x00]
    /\ len = (size data + 1) mod 256
    /\ (len + lcs) mod 256 = 0
    /\ (0xD4 + byte_sum data + dcs) mod 256 = 0.
Proof.
  unfold command_frame. rewrite command_frame_checksum.
  eexists _, _, _. split; [reflexivity|].
  unfold Z.lnot. repeat split; mod_lia.
Qed.

(** C6, as amended: for every command payload of at most 254 bytes the
    frame built by [write_command_] satisfies the frame invariants: it
    starts with 0x00 0x00 0xFF, its length field is the payload length plus
    1, length and length checksum add up to 0 mod 256, the direction byte
    0xD4, the payload bytes and the data checksum add up to 0 mod 256, and
    it ends with the postamble 0x00. *)
Theorem command_frame_invariants (data : list Z) :
  size data < 255 ->
  frame_invariants data (command_frame data).
Proof.
  intros Hsize.
  destruct (command_frame_layout data) as (len & lcs & dcs & Hf & Hlen & Hl & Hd).
  exists len, lcs, dcs. repeat split; try assumption.
  pose proof (size_nonneg data). subst len. mod_lia.
Qed.

Lemma command_frame_invariants_witness :
  frame_invariants [0x4A; 0x01; 0x00] (command_frame [0x4A; 0x01; 0x00]).
Proof. apply command_frame_invariants. vm_compute. reflexivity. Defined.

(** C6, counterexample: a payload of 255 bytes gets the length field 0,
    not 256. *)
Lemma command_frame_length_field_wraps :
  ~ frame_invariants (repeat 0x00 255) (command_frame (repeat 0x00 255)).
Proof.
  intros (len & lcs & dcs & Hf & Hlen & _).
  rewrite size_repeat in Hlen.
  assert (Hn : nth 3 (command_frame (repeat 0x00 255)) 0 = 0) by (vm_compute; reflexivity).
  rewrite Hf in Hn. simpl in Hn. lia.
Qed.

(** ** The TLV header of a written message *)

Lemma land_255 (x : Z) : Z.land x 0xFF = x mod 256.
Proof. change 0xFF with (Z.ones 8). now rewrite Z.land_ones by lia. Qed.

Lemma shiftr_8 (x : Z) : Z.shiftr x 8 = x / 256.
Proof. now rewrite Z.shiftr_div_pow2 by lia. Qed.

Lemma insert_0 (v : list Z) (x : Z) : insert v 0 x = x :: v.
Proof. reflexivity. Qed.

Lemma insert_1 (v : list Z) (a x : Z) : insert (a :: v) 1 x = a :: x :: v.
Proof. reflexivity. Qed.

Lemma insert_2 (v : list Z) (a b x : Z) : insert (a :: b :: v) 2 x = a :: b :: x :: v.
Proof. reflexivity. Qed.

Lemma insert_3 (v : list Z) (a b c x : Z) :
  insert (a :: b :: c :: v) 3 x = a :: b :: c :: x :: v.
Proof. reflexivity. Qed.

(** What [write_tag_] of pn532.cpp puts in front of the message: the size
    is taken after the bytes in front of it are inserted, and the low
    length byte goes in front of the high one. *)
Lemma write_tag_buffer_eq (message : list Z) :
  write_tag_buffer message =
  (if size message <? 255
   then [0x03; (size message + 1) mod 256]
   else [0x03; 0xFF; (size message + 3) mod 256; (size message + 2) / 256 mod 256])
    ++ message ++ [0xFE].
Proof.
  unfold write_tag_buffer. destruct (size message <? 255).
  - rewrite insert_0, insert_1, size_cons. reflexivity.
  - rewrite insert_0, insert_1, insert_2, insert_2.
    rewrite !size_cons, !land_255, shiftr_8. unfold u8.
    rewrite !Zmod_mod.
    replace (size message + 1 + 1 + 1) with (size message + 3) by lia.
    replace (size message + 1 + 1) with (size message + 2) by lia.
    reflexivity.
Qed.

(** No message at all gets the envelope of the data model from
    [write_tag_]. *)
Lemma write_tag_buffer_never_envelope (message : list Z) :
  write_tag_buffer message <> tlv_envelope message.
Proof.
  rewrite write_tag_buffer_eq. unfold tlv_envelope.
  pose proof (size_nonneg message) as Hn.
  destruct (size message <? 255) eqn:Hlt; intros Heq.
  - apply Z.ltb_lt in Hlt. simpl in Heq. inversion Heq. mod_lia.
  - apply Z.ltb_ge in Hlt. simpl in Heq. inversion Heq. mod_lia.
Qed.

Lemma resize_pad (n : Z) (v : list Z) :
  size v <= n ->
  resize n v = v ++ repeat 0 (Z.to_nat n - length v).
Proof.
  intros Hle. unfold resize. rewrite firstn_all2; [reflexivity|].
  unfold size in Hle. lia.
Qed.

(** [write_mifare_classic_tag_], the sibling of [write_tag_], does build
    the envelope of the data model, and fills the last block with zeros. *)
Lemma write_mifare_classic_tag_buffer_envelope (message : list Z) :
  size message < 4294967296 ->
  exists pad,
    write_mifare_classic_tag_buffer message = tlv_envelope message ++ repeat 0 pad.
Proof.
  intros Hsize. pose proof (size_nonneg message) as Hn.
  unfold write_mifare_classic_tag_buffer, tlv_envelope.
  replace (u32 (size message)) with (size message) by mod_lia.
  unfold nfc.get_mifare_classic_buffer_size.
  rewrite insert_0.
  destruct (size message <? 255) eqn:Hlt.
  - apply Z.ltb_lt in Hlt. rewrite insert_1.
    replace (u8 (size message)) with (size message) by mod_lia.
    eexists. rewrite resize_pad.
    + simpl. rewrite <- !app_assoc. reflexivity.
    + rewrite size_app, !size_cons, size_nil. mod_lia.
  - apply Z.ltb_ge in Hlt. rewrite insert_1, insert_2, insert_3.
    rewrite !land_255, shiftr_8. unfold u8. rewrite !Zmod_mod.
    eexists. rewrite resize_pad.
    + simpl. rewrite <- !app_assoc. reflexivity.
    + rewrite size_app, !size_cons, size_nil. mod_lia.
Qed.

(** C1: [write_tag_] of pn532.cpp, evaluated.  For the 3-byte encoding of
    an empty record it sends the length byte 4 where the envelope of the
    data model has 3; for an encoded length of 300 it sends 0xFF 0x2F 0x01
    where the envelope has 0xFF 0x01 0x2C.  [write_mifare_classic_tag_]
    sends the envelope in both cases. *)
Theorem write_tag_tlv_header :
  write_tag_buffer [0xD0; 0x00; 0x00] = [0x03; 0x04; 0xD0; 0x00; 0x00; 0xFE]
  /\ tlv_envelope [0xD0; 0x00; 0x00] = [0x03; 0x03; 0xD0; 0x00; 0x00; 0xFE]
  /\ firstn 6 (write_mifare_classic_tag_buffer [0xD0; 0x00; 0x00])
     = [0x03; 0x03; 0xD0; 0x00; 0x00; 0xFE]
  /\ firstn 4 (write_tag_buffer (repeat 0x00 300)) = [0x03; 0xFF; 0x2F; 0x01]
  /\ firstn 4 (tlv_envelope (repeat 0x00 300)) = [0x03; 0xFF; 0x01; 0x2C]
  /\ firstn 4 (write_mifare_classic_tag_buffer (repeat 0x00 300))
     = [0x03; 0xFF; 0x01; 0x2C].
Proof. repeat split; vm_compute; reflexivity. Qed.

(** ** Frames on the wire *)

Section Emits.
Context {D : Type} `{Transport D}.
Variable P : list Z -> Prop.

Lemma emits_ret {A} (a : A) : emits (D := D) P (ret a).
Proof. intros b. exists []. simpl. now rewrite app_nil_r. Qed.

Lemma emits_lift {A} (o : outcome A) : emits (D := D) P (lift o).
Proof. intros b. exists []. simpl. now rewrite app_nil_r. Qed.

Lemma emits_bind {A B} (c : M (bus D) A) (k : A -> M (bus D) B) :
  emits P c -> (forall a, emits P (k a)) -> emits P (bind c k).
Proof.
  intros Hc Hk b. unfold bind.
  destruct (Hc b) as (f1 & E1 & F1).
  destruct (c b) as [[a|] b1]; simpl in E1.
  - destruct (Hk a b1) as (f2 & E2 & F2).
    exists (f1 ++ f2). split.
    + now rewrite E2, E1, app_assoc.
    + now apply Forall_app.
  - exists f1. now split.
Qed.

Lemma emits_read_data (data : list Z) (len : Z) : emits P (read_data data len).
Proof.
  intros b. exists []. unfold read_data.
  destruct (dev_read data len (device b)) as [[ok data'] d'].
  simpl. now rewrite app_nil_r.
Qed.

Lemma emits_write_data (frame : list Z) : P frame -> emits P (write_data frame).
Proof. intros Hf b. exists [frame]. simpl. split; [reflexivity|]. now constructor. Qed.

End Emits.

Ltac emits_step :=
  lazymatch goal with
  | |- emits _ (bind _ _) => apply emits_bind; [| intros ?]
  | |- emits _ (ret _) => apply emits_ret
  | |- emits _ (lift _) => apply emits_lift
  | |- emits _ (read_data _ _) => apply emits_read_data
  | |- emits _ (write_data _) => apply emits_write_data
  | |- emits _ (if ?c then _ else _) => destruct c
  | |- emits _ (match ?x with (_, _) => _ end) => destruct x
  | |- emits _ (match ?x with Some _ => _ | None => _ end) => destruct x
  end.

Section WireLayers.
Context {D : Type} `{Transport D} `{Declarations}.
Variable P : list Z -> Prop.
Hypothesis P_nack : P [0x00; 0x00; 0xFF; 0xFF; 0x00; 0x00].

Lemma emits_read_ack_ : emits P read_ack_.
Proof. unfold read_ack_. repeat emits_step. Qed.

Lemma emits_write_command_ (data : list Z) :
  P (command_frame data) -> emits P (write_command_ data).
Proof.
  intros Hd. unfold write_command_. emits_step.
  - now apply emits_write_data.
  - apply emits_read_ack_.
Qed.

Lemma emits_invalid_preamble (data : list Z) : emits (D := D) P (invalid_preamble data).
Proof. unfold invalid_preamble. repeat emits_step. Qed.

Lemma emits_read_response_length_ : emits P read_response_length_.
Proof.
  unfold read_response_length_.
  repeat (first [apply emits_invalid_preamble | emits_step]); assumption.
Qed.

Lemma emits_read_response_ (command : Z) (data : list Z) :
  emits P (read_response_ command data).
Proof.
  unfold read_response_.
  repeat (first [apply emits_invalid_preamble | apply emits_read_response_length_
                | emits_step]).
Qed.

Lemma emits_read_mifare_classic_block_ (block_num : Z) (data : list Z) :
  P (command_frame [PN532_COMMAND_INDATAEXCHANGE; 0x01; MIFARE_CMD_READ; block_num]) ->
  emits P (read_mifare_classic_block_ block_num data).
Proof.
  intros Hp. unfold read_mifare_classic_block_.
  repeat (first [apply emits_read_response_ | now apply emits_write_command_
                | emits_step]).
Qed.

Lemma emits_read_mifare_classic_block_vec (block_num : Z) :
  P (command_frame [PN532_COMMAND_INDATAEXCHANGE; 0x01; MIFARE_CMD_READ; block_num]) ->
  emits P (read_mifare_classic_block_vec block_num).
Proof.
  intros Hp. unfold read_mifare_classic_block_vec.
  repeat (first [now apply emits_read_mifare_classic_block_ | emits_step]).
Qed.

Lemma emits_auth_mifare_classic_block_ (uid : list Z) (block_num key_num : Z)
    (key : list Z) :
  P (command_frame ([PN532_COMMAND_INDATAEXCHANGE; 0x01; key_num; block_num]
                      ++ firstn 6 key ++ uid)) ->
  emits P (auth_mifare_classic_block_ uid block_num key_num key).
Proof.
  intros Hp. unfold auth_mifare_classic_block_. cbv zeta.
  rewrite <- app_assoc.
  repeat (first [apply emits_read_response_ | now apply emits_write_command_
                | emits_step]).
Qed.

Lemma emits_write_mifare_classic_block_ (block_num : Z) (data : list Z) :
  P (command_frame ([PN532_COMMAND_INDATAEXCHANGE; 0x01; MIFARE_CMD_WRITE; block_num]
                      ++ data)) ->
  emits P (write_mifare_classic_block_ block_num data).
Proof.
  intros Hp. unfold write_mifare_classic_block_. cbv zeta.
  repeat (first [apply emits_read_response_ | now apply emits_write_command_
                | emits_step]).
Qed.

End WireLayers.

(** ** Block addresses *)

Lemma next_block_not_trailer (current_block : Z) : next_block current_block mod 4 <> 3.
Proof.
  unfold next_block, nfc.mifare_classic_is_trailer_block.
  destruct (u8 (current_block + 1) mod 4 =? 3) eqn:E.
  - apply Z.eqb_eq in E. mod_lia.
  - apply Z.eqb_neq in E. exact E.
Qed.

Lemma first_block_not_trailer (block_num : Z) :
  nfc.mifare_classic_is_first_block block_num = true -> block_num mod 4 <> 3.
Proof. unfold nfc.mifare_classic_is_first_block. intros E%Z.eqb_eq. lia. Qed.

Section BlockLoops.
Context {D : Type} `{Transport D} `{Declarations}.

Lemma spares_nack : spares_trailers [0x00; 0x00; 0xFF; 0xFF; 0x00; 0x00].
Proof. intros block_num E. discriminate E. Qed.

Lemma spares_block_command (command one mifare_cmd block_num : Z) (rest : list Z) :
  block_num mod 4 <> 3 ->
  spares_trailers (command_frame ([command; one; mifare_cmd; block_num] ++ rest)).
Proof.
  intros Hb blk. unfold command_frame. simpl.
  destruct rest as [|r rest]; simpl.
  - destruct (_ && _); [|discriminate]. now intros [= <-].
  - destruct rest; simpl; (destruct (_ && _); [|discriminate]); now intros [= <-].
Qed.

Lemma spares_block_command_0 (command one mifare_cmd block_num : Z) :
  block_num mod 4 <> 3 ->
  spares_trailers (command_frame [command; one; mifare_cmd; block_num]).
Proof. intros Hb. now apply (spares_block_command _ _ _ _ []). Qed.

Lemma emits_auth (uid : list Z) (block_num key_num : Z) (key : list Z) :
  block_num mod 4 <> 3 ->
  emits spares_trailers (auth_mifare_classic_block_ uid block_num key_num key).
Proof.
  intros Hb. apply emits_auth_mifare_classic_block_.
  - apply spares_nack.
  - now apply spares_block_command.
Qed.

Lemma emits_read_block (block_num : Z) (data : list Z) :
  block_num mod 4 <> 3 ->
  emits spares_trailers (read_mifare_classic_block_ block_num data).
Proof.
  intros Hb. apply emits_read_mifare_classic_block_.
  - apply spares_nack.
  - now apply spares_block_command_0.
Qed.

Lemma emits_read_block_vec (block_num : Z) :
  block_num mod 4 <> 3 ->
  emits spares_trailers (read_mifare_classic_block_vec block_num).
Proof.
  intros Hb. apply emits_read_mifare_classic_block_vec.
  - apply spares_nack.
  - now apply spares_block_command_0.
Qed.

Lemma emits_write_block (block_num : Z) (data : list Z) :
  block_num mod 4 <> 3 ->
  emits spares_trailers (write_mifare_classic_block_ block_num data).
Proof.
  intros Hb. apply emits_write_mifare_classic_block_.
  - apply spares_nack.
  - now apply spares_block_command.
Qed.

Lemma emits_read_mifare_classic_loop (fuel : nat) (uid : list Z)
    (buffer_size index current_block : Z) (buffer : list Z) :
  current_block mod 4 <> 3 ->
  emits spares_trailers
    (read_mifare_classic_loop fuel uid buffer_size index current_block buffer).
Proof.
  revert index current_block buffer.
  induction fuel as [|fuel IH]; intros index current_block buffer Hb; simpl.
  - apply emits_ret.
  - destruct (negb (index <? buffer_size)); [apply emits_ret|].
    apply emits_bind.
    + destruct (nfc.mifare_classic_is_first_block current_block).
      * apply emits_bind; [now apply emits_auth | intros; apply emits_ret].
      * apply emits_ret.
    + intros _. apply emits_bind; [now apply emits_read_block|].
      intros [ok block_data]. apply IH, next_block_not_trailer.
Qed.

Lemma emits_read_tag_loop (fuel : nat) (uid : list Z)
    (buffer_size index current_block : Z) (buffer : list Z) :
  current_block mod 4 <> 3 ->
  emits spares_trailers (read_tag_loop fuel uid buffer_size index current_block buffer).
Proof.
  revert index current_block buffer.
  induction fuel as [|fuel IH]; intros index current_block buffer Hb; simpl.
  - apply emits_ret.
  - destruct (negb (index <? buffer_size)); [apply emits_ret|].
    apply emits_bind.
    + destruct (nfc.mifare_classic_is_first_block current_block).
      * apply emits_bind; [now apply emits_auth | intros; apply emits_ret].
      * apply emits_ret.
    + intros _. apply emits_bind; [now apply emits_read_block_vec|].
      intros data. apply IH, next_block_not_trailer.
Qed.

Lemma emits_write_mifare_classic_loop (fuel : nat) (uid encoded : list Z)
    (buffer_length index current_block : Z) :
  current_block mod 4 <> 3 ->
  emits spares_trailers
    (write_mifare_classic_loop fuel uid encoded buffer_length index current_block).
Proof.
  revert index current_block.
  induction fuel as [|fuel IH]; intros index current_block Hb; simpl.
  - apply emits_ret.
  - destruct (negb (index <? buffer_length)); [apply emits_ret|].
    apply emits_bind.
    + destruct (nfc.mifare_classic_is_first_block current_block).
      * now apply emits_auth.
      * apply emits_ret.
    + intros authenticated. destruct (negb authenticated); [apply emits_ret|].
      apply emits_bind; [apply emits_lift|]. intros data.
      apply emits_bind; [now apply emits_write_block|]. intros ok.
      destruct (negb ok); [apply emits_ret|].
      apply IH, next_block_not_trailer.
Qed.

Lemma emits_write_tag_loop (fuel : nat) (uid encoded : list Z)
    (index current_block : Z) :
  current_block mod 4 <> 3 ->
  emits spares_trailers (write_tag_loop fuel uid encoded index current_block).
Proof.
  revert index current_block.
  induction fuel as [|fuel IH]; intros index current_block Hb; simpl.
  - apply emits_ret.
  - destruct (negb (index <? size encoded)); [apply emits_ret|].
    apply emits_bind.
    + destruct (nfc.mifare_classic_is_first_block current_block).
      * now apply emits_auth.
      * apply emits_ret.
    + intros authenticated. destruct (negb authenticated); [apply emits_ret|].
      apply emits_bind; [apply emits_lift|]. intros data.
      apply emits_bind; [now apply emits_write_block|]. intros ok.
      destruct (negb ok); [apply emits_ret|].
      apply IH, next_block_not_trailer.
Qed.

Lemma block_4_not_trailer : 4 mod 4 <> 3.
Proof. discriminate. Qed.

Lemma emits_read_mifare_classic_tag_ (uid : list Z) :
  emits spares_trailers (read_mifare_classic_tag_ uid).
Proof.
  unfold read_mifare_classic_tag_. cbv zeta.
  apply emits_bind; [apply emits_auth, block_4_not_trailer|]. intros authenticated.
  destruct (negb authenticated); [apply emits_ret|].
  apply emits_bind; [apply emits_read_block, block_4_not_trailer|]. intros [ok data].
  destruct (negb ok); [|apply emits_ret].
  destruct (decode_mifare_classic_tlv data) as [[message_length message_start_index]|];
    [|apply emits_ret].
  apply emits_bind; [apply emits_read_mifare_classic_loop, block_4_not_trailer|].
  intros buffer. apply emits_bind; [apply emits_lift|]. intros. apply emits_ret.
Qed.

Lemma emits_read_tag_ (uid : list Z) : emits spares_trailers (read_tag_ uid).
Proof.
  unfold read_tag_. cbv zeta.
  destruct (_ =? TAG_TYPE_MIFARE_CLASSIC).
  - apply emits_bind; [apply emits_auth, block_4_not_trailer|]. intros authenticated.
    destruct (negb authenticated); [apply emits_ret|].
    apply emits_bind; [apply emits_read_block_vec, block_4_not_trailer|]. intros data.
    destruct (negb (empty data)); [|apply emits_ret].
    destruct (decode_mifare_classic_tlv data) as [[message_length message_start_index]|];
      [|apply emits_ret].
    apply emits_bind; [apply emits_read_tag_loop, block_4_not_trailer|].
    intros buffer. apply emits_bind; [apply emits_lift|]. intros. apply emits_ret.
  - repeat emits_step.
Qed.

Lemma emits_write_mifare_classic_tag_ (uid message : list Z) :
  emits spares_trailers (write_mifare_classic_tag_ uid message).
Proof. apply emits_write_mifare_classic_loop, block_4_not_trailer. Qed.

Lemma emits_write_tag_ (uid message : list Z) :
  emits spares_trailers (write_tag_ uid message).
Proof. apply emits_write_tag_loop, block_4_not_trailer. Qed.

(** C7: the advance rule of the block loops never yields a trailer
    block; from block 4 it yields 4, 5, 6, 8, 9, 10, 12; and every block
    read or block write that the multi-block read and write operations
    put on the wire, from any state of the bus, addresses a block whose
    number is not 3 mod 4. *)
Theorem block_advance_skips_trailers :
  (forall current_block, next_block current_block mod 4 <> 3)
  /\ map (fun n => Nat.iter n next_block 4) (seq 0 7) = [4; 5; 6; 8; 9; 10; 12]
  /\ (forall uid message,
        emits (D := D) spares_trailers (write_mifare_classic_tag_ uid message))
  /\ (forall uid, emits (D := D) spares_trailers (read_tag_ uid))
  /\ (forall uid, emits (D := D) spares_trailers (read_mifare_classic_tag_ uid))
  /\ (forall uid message, emits (D := D) spares_trailers (write_tag_ uid message)).
Proof.
  split; [exact next_block_not_trailer|].
  split; [reflexivity|].
  split; [exact emits_write_mifare_classic_tag_|].
  split; [exact emits_read_tag_|].
  split; [exact emits_read_mifare_classic_tag_ | exact emits_write_tag_].
Qed.

End BlockLoops.

(** ** Running computations *)

Lemma bind_run {S A B} (c : M S A) (k : A -> M S B) (s s' : S) (a : A) :
  c s = (Ret a, s') -> bind c k s = k a s'.
Proof. intros E. unfold bind. now rewrite E. Qed.

Lemma bind_fault {S A B} (c : M S A) (k : A -> M S B) (s s' : S) :
  c s = (OutOfRange, s') -> bind c k s = (OutOfRange, s').
Proof. intros E. unfold bind. now rewrite E. Qed.

Lemma at_in_range (v : list Z) (i : Z) :
  0 <= i < size v -> at_ v i = Ret (nth (Z.to_nat i) v 0).
Proof.
  intros Hi. unfold at_.
  replace (0 <=? i) with true by (symmetry; apply Z.leb_le; lia).
  replace (i <? size v) with true by (symmetry; apply Z.ltb_lt; lia).
  reflexivity.
Qed.

Lemma at_middle (l1 l2 : list Z) (x i : Z) :
  i = size l1 -> at_ (l1 ++ x :: l2) i = Ret x.
Proof.
  intros ->. pose proof (size_nonneg l1). pose proof (size_nonneg l2).
  rewrite at_in_range by (rewrite size_app, size_cons; lia).
  unfold size. rewrite Nat2Z.id, nth_middle. reflexivity.
Qed.

Lemma at_out_of_range (v : list Z) (i : Z) : size v <= i -> at_ v i = OutOfRange.
Proof.
  intros Hi. unfold at_.
  replace (i <? size v) with false by (symmetry; apply Z.ltb_ge; lia).
  now rewrite andb_false_r.
Qed.

Lemma erase_front (l1 l2 : list Z) (n : Z) :
  n = size l1 -> erase (l1 ++ l2) 0 n = Ret l2.
Proof.
  intros ->. pose proof (size_nonneg l1). pose proof (size_nonneg l2).
  unfold erase. rewrite size_app.
  replace (0 <=? 0) with true by reflexivity.
  replace (0 <=? size l1) with true by (symmetry; apply Z.leb_le; lia).
  replace (size l1 <=? size l1 + size l2) with true by (symmetry; apply Z.leb_le; lia).
  simpl. unfold size. rewrite Nat2Z.id, skipn_app, skipn_all, Nat.sub_diag. reflexivity.
Qed.

Lemma erase_back (l1 l2 : list Z) (n : Z) :
  n = size l1 -> erase (l1 ++ l2) n (size (l1 ++ l2)) = Ret l1.
Proof.
  intros ->. pose proof (size_nonneg l1). pose proof (size_nonneg l2).
  unfold erase. rewrite size_app.
  replace (0 <=? size l1) with true by (symmetry; apply Z.leb_le; lia).
  replace (size l1 <=? size l1 + size l2) with true by (symmetry; apply Z.leb_le; lia).
  replace (size l1 + size l2 <=? size l1 + size l2) with true
    by (symmetry; apply Z.leb_le; lia).
  simpl. rewrite <- size_app. unfold size. rewrite !Nat2Z.id.
  rewrite skipn_all, app_nil_r, firstn_app, firstn_all, Nat.sub_diag.
  simpl. now rewrite app_nil_r.
Qed.

Lemma erase_out_of_range (v : list Z) (first last : Z) :
  size v < last -> erase v first last = OutOfRange.
Proof.
  intros Hl. unfold erase.
  replace (last <=? size v) with false by (symmetry; apply Z.leb_gt; lia).
  now rewrite andb_false_r.
Qed.

Lemma checksum_loop_sum (l1 l2 l3 : list Z) (checksum : Z) :
  checksum_loop (l1 ++ l2 ++ l3) (length l2) (size l1) checksum
  = Ret (fold_left (fun checksum dat => u8 (checksum + dat)) l2 checksum).
Proof.
  revert l1 checksum. induction l2 as [|x l2 IH]; intros l1 checksum; simpl.
  - reflexivity.
  - rewrite at_middle by reflexivity.
    replace (l1 ++ x :: l2 ++ l3) with ((l1 ++ [x]) ++ l2 ++ l3)
      by now rewrite <- app_assoc.
    replace (size l1 + 1) with (size (l1 ++ [x]))
      by (rewrite size_app, size_cons, size_nil; lia).
    apply IH.
Qed.

(** ** The response parser on a frame from the device *)

Lemma at_0 (x : Z) (v : list Z) : at_ (x :: v) 0 = Ret x.
Proof. exact (at_middle [] v x 0 eq_refl). Qed.
Lemma at_1 (a x : Z) (v : list Z) : at_ (a :: x :: v) 1 = Ret x.
Proof. exact (at_middle [a] v x 1 eq_refl). Qed.
Lemma at_2 (a b x : Z) (v : list Z) : at_ (a :: b :: x :: v) 2 = Ret x.
Proof. exact (at_middle [a; b] v x 2 eq_refl). Qed.
Lemma at_3 (a b c x : Z) (v : list Z) : at_ (a :: b :: c :: x :: v) 3 = Ret x.
Proof. exact (at_middle [a; b; c] v x 3 eq_refl). Qed.
Lemma at_4 (a b c d x : Z) (v : list Z) : at_ (a :: b :: c :: d :: x :: v) 4 = Ret x.
Proof. exact (at_middle [a; b; c; d] v x 4 eq_refl). Qed.
Lemma at_5 (a b c d e x : Z) (v : list Z) :
  at_ (a :: b :: c :: d :: e :: x :: v) 5 = Ret x.
Proof. exact (at_middle [a; b; c; d; e] v x 5 eq_refl). Qed.
Lemma at_6 (a b c d e f x : Z) (v : list Z) :
  at_ (a :: b :: c :: d :: e :: f :: x :: v) 6 = Ret x.
Proof. exact (at_middle [a; b; c; d; e; f] v x 6 eq_refl). Qed.
Lemma at_7 (a b c d e f g x : Z) (v : list Z) :
  at_ (a :: b :: c :: d :: e :: f :: g :: x :: v) 7 = Ret x.
Proof. exact (at_middle [a; b; c; d; e; f; g] v x 7 eq_refl). Qed.

Lemma erase_1 (a : Z) (v : list Z) : erase (a :: v) 0 1 = Ret v.
Proof. exact (erase_front [a] v 1 eq_refl). Qed.
Lemma erase_2 (a b : Z) (v : list Z) : erase (a :: b :: v) 0 2 = Ret v.
Proof. exact (erase_front [a; b] v 2 eq_refl). Qed.
Lemma erase_6 (a b c d e f : Z) (v : list Z) :
  erase (a :: b :: c :: d :: e :: f :: v) 0 6 = Ret v.
Proof. exact (erase_front [a; b; c; d; e; f] v 6 eq_refl). Qed.

Lemma at_tail_0 (l : list Z) (x y i : Z) :
  i = size l -> at_ (l ++ [x; y]) i = Ret x.
Proof. intros ->. now apply at_middle. Qed.

Lemma at_tail_1 (l : list Z) (x y i : Z) :
  i = size l + 1 -> at_ (l ++ [x; y]) i = Ret y.
Proof.
  intros ->. replace (l ++ [x; y]) with ((l ++ [x]) ++ [y])
    by (now rewrite <- app_assoc).
  apply at_middle. rewrite size_app, size_cons, size_nil. lia.
Qed.

Lemma checksum_loop_prefix (l2 l3 : list Z) (checksum : Z) :
  checksum_loop (l2 ++ l3) (length l2) 0 checksum
  = Ret (fold_left (fun checksum dat => u8 (checksum + dat)) l2 checksum).
Proof. exact (checksum_loop_sum [] l2 l3 checksum). Qed.

Ltac at_known :=
  rewrite ?at_0, ?at_1, ?at_2, ?at_3, ?at_4, ?at_5, ?at_6, ?at_7.

Section ResponseParser.
Context {D : Type} `{Transport D}.

Lemma read_data_run (data : list Z) (len : Z) (b : bus D) ok data' d' :
  dev_read data len (device b) = (ok, data', d') ->
  read_data data len b = (Ret (ok, data'), mkBus d' (written b)).
Proof. intros E. unfold read_data. now rewrite E. Qed.

Lemma probe_on_frame (len lcs tfi dcs post s0 : Z) (data : list Z) (b : bus D) (d1 : D) :
  dev_read [] 6 (device b)
    = (true, s0 :: firstn 6 (wire_frame len lcs tfi dcs post data), d1) ->
  read_response_length_ b =
    if (u8 (len + lcs) =? 0) && (tfi =? 0xD5)
    then (Ret (if len =? 0 then 0 else u8 (len - 1)),
          mkBus (dev_write nack_frame d1) (written b ++ [nack_frame]))
    else (Ret 0, mkBus d1 (written b)).
Proof.
  intros Hprobe. unfold read_response_length_.
  erewrite bind_run by (apply read_data_run, Hprobe).
  cbn [negb]. cbv beta iota. unfold wire_frame. cbn [firstn app].
  unfold invalid_preamble. at_known.
  cbn [bind lift ret Z.eqb Pos.eqb negb].
  destruct (u8 (len + lcs) =? 0);
    cbn [bind lift ret Z.eqb Pos.eqb negb andb write_data device written];
    [|reflexivity].
  destruct (tfi =? 0xD5);
    cbn [bind lift ret Z.eqb Pos.eqb negb andb write_data device written];
    reflexivity.
Qed.

(** A frame whose length and length checksum do not cancel, or whose
    direction byte is not 0xD5, is refused by the length probe already. *)
Lemma read_response_bad_header (command len lcs tfi dcs post s0 : Z)
    (data data0 : list Z) (b : bus D) (d1 : D) :
  dev_read [] 6 (device b)
    = (true, s0 :: firstn 6 (wire_frame len lcs tfi dcs post data), d1) ->
  (u8 (len + lcs) =? 0) && (tfi =? 0xD5) = false ->
  read_response_ command data0 b = (Ret (false, data0), mkBus d1 (written b)).
Proof.
  intros Hprobe Hbad. unfold read_response_.
  erewrite bind_run by (erewrite probe_on_frame by eassumption; rewrite Hbad; reflexivity).
  reflexivity.
Qed.

Lemma read_response_on_frame (command lcs dcs post s0 s1 : Z)
    (payload data0 : list Z) (b : bus D) (d1 d2 : D) :
  let data := command + 1 :: payload in
  let len := size payload + 2 in
  let wire := wire_frame len lcs 0xD5 dcs post data in
  let checksum := fold_left (fun checksum dat => u8 (checksum + dat)) data 0xD5 in
  size payload <= 253 ->
  u8 (len + lcs) = 0 ->
  dev_read [] 6 (device b) = (true, s0 :: firstn 6 wire, d1) ->
  dev_read data0 (6 + (size payload + 1) + 2) (dev_write nack_frame d1)
    = (true, s1 :: wire, d2) ->
  read_response_ command data0 b =
    (Ret (if (dcs =? u8 (Z.lnot checksum + 1)) && (post =? 0x00)
          then (true, payload)
          else (false, 0xD5 :: data ++ [dcs; post])),
     mkBus d2 (written b ++ [nack_frame])).
Proof.
  intros data len wire checksum Hsize Hlcs Hprobe Hfull.
  pose proof (size_nonneg payload) as Hn.
  unfold read_response_.
  erewrite bind_run by (erewrite probe_on_frame by eassumption; rewrite Hlcs; reflexivity).
  replace (len =? 0) with false by (symmetry; apply Z.eqb_neq; subst len; lia).
  replace (u8 (len - 1)) with (size payload + 1) by (subst len; mod_lia).
  replace (size payload + 1 =? 0) with false by (symmetry; apply Z.eqb_neq; lia).
  erewrite bind_run by (apply read_data_run; cbn [device]; apply Hfull).
  cbn [negb]. cbv beta iota. subst wire. unfold wire_frame. cbn [app].
  subst data. cbn [app]. unfold invalid_preamble. at_known.
  cbn [bind lift ret Z.eqb Pos.eqb negb]. rewrite Hlcs.
  cbn [bind lift ret Z.eqb Pos.eqb negb]. rewrite Z.eqb_refl.
  cbn [bind lift ret Z.eqb Pos.eqb negb].
  rewrite erase_6.
  cbn [bind lift ret Z.eqb Pos.eqb negb device written].
  set (stripped := 0xD5 :: command + 1 :: payload).
  change (0xD5 :: command + 1 :: payload ++ [dcs; post]) with (stripped ++ [dcs; post]).
  assert (Hstripped : size stripped = size payload + 2)
    by (subst stripped; rewrite !size_cons; lia).
  replace (Z.to_nat (size payload + 1 + 1)) with (length stripped)
    by (rewrite <- (Nat2Z.id (length stripped)); fold (size stripped); f_equal; lia).
  rewrite checksum_loop_prefix.
  change (fold_left (fun checksum dat => u8 (checksum + dat)) stripped 0) with checksum.
  rewrite (at_tail_0 stripped) by lia.
  destruct (dcs =? u8 (Z.lnot checksum + 1)); cbn [negb andb]; [|reflexivity].
  rewrite (at_tail_1 stripped) by lia.
  cbn [bind lift ret negb].
  destruct (post =? 0x00); cbn [negb]; [|reflexivity].
  subst stripped. cbn [app]. rewrite erase_2.
  cbn [bind lift ret].
  rewrite (erase_back payload [dcs; post])
    by (rewrite size_app, !size_cons, size_nil; lia).
  reflexivity.
Qed.
End ResponseParser.

(** ** Round trip through the response parser *)

Lemma response_frame_fields (data : list Z) :
  response_frame data
  = wire_frame (u8 (size data + 1)) (u8 (Z.lnot (u8 (size data + 1)) + 1)) 0xD5
      (u8 (Z.lnot (fold_left (fun checksum dat => u8 (checksum + dat)) data 0xD5) + 1))
      0x00 data.
Proof. reflexivity. Qed.

Lemma command_frame_fields (data : list Z) :
  command_frame data
  = wire_frame (u8 (size data + 1)) (u8 (Z.lnot (u8 (size data + 1)) + 1)) 0xD4
      (u8 (Z.lnot (fold_left (fun checksum dat => u8 (checksum + dat)) data 0xD4) + 1))
      0x00 data.
Proof. reflexivity. Qed.

Lemma mutate_LEN (len lcs tfi dcs post v : Z) (data : list Z) :
  mutate (wire_frame len lcs tfi dcs post data) LEN_field v
  = wire_frame v lcs tfi dcs post data.
Proof. reflexivity. Qed.

Lemma mutate_LCS (len lcs tfi dcs post v : Z) (data : list Z) :
  mutate (wire_frame len lcs tfi dcs post data) LCS_field v
  = wire_frame len v tfi dcs post data.
Proof. reflexivity. Qed.

Lemma mutate_middle (l1 l2 : list Z) (x v : Z) :
  mutate (l1 ++ x :: l2) (length l1) v = l1 ++ v :: l2.
Proof.
  unfold mutate. rewrite firstn_app, firstn_all, Nat.sub_diag, app_nil_r.
  f_equal. f_equal.
  induction l1 as [|a l1 IH]; [reflexivity | exact IH].
Qed.

Lemma mutate_DCS (len lcs tfi dcs post v : Z) (data : list Z) :
  mutate (wire_frame len lcs tfi dcs post data) (DCS_field data) v
  = wire_frame len lcs tfi v post data.
Proof.
  unfold wire_frame, DCS_field. rewrite !app_assoc.
  change (6 + length data)%nat with (length ([0x00; 0x00; 0xFF; len; lcs; tfi] ++ data)).
  apply mutate_middle.
Qed.

Lemma mutate_postamble (len lcs tfi dcs post v : Z) (data : list Z) :
  mutate (wire_frame len lcs tfi dcs post data) (postamble_field data) v
  = wire_frame len lcs tfi dcs v data.
Proof.
  unfold wire_frame, postamble_field.
  replace ([0x00; 0x00; 0xFF; len; lcs; tfi] ++ data ++ [dcs; post])
    with (([0x00; 0x00; 0xFF; len; lcs; tfi] ++ data ++ [dcs]) ++ [post])
    by (now rewrite <- !app_assoc).
  replace (7 + length data)%nat
    with (length ([0x00; 0x00; 0xFF; len; lcs; tfi] ++ data ++ [dcs]))
    by (rewrite !length_app; simpl; lia).
  rewrite mutate_middle. now rewrite <- !app_assoc.
Qed.

Lemma nth_DCS (len lcs tfi dcs post : Z) (data : list Z) :
  nth (DCS_field data) (wire_frame len lcs tfi dcs post data) 0 = dcs.
Proof.
  unfold wire_frame, DCS_field. cbn [Nat.add nth app].
  now rewrite (nth_middle data [post]).
Qed.

Lemma nth_postamble (len lcs tfi dcs post : Z) (data : list Z) :
  nth (postamble_field data) (wire_frame len lcs tfi dcs post data) 0 = post.
Proof.
  unfold wire_frame, postamble_field. cbn [Nat.add nth app].
  replace (data ++ [dcs; post]) with ((data ++ [dcs]) ++ [post]) by now rewrite <- app_assoc.
  replace (S (length data)) with (length (data ++ [dcs]))
    by (rewrite length_app; simpl; lia).
  now rewrite nth_middle.
Qed.

Section RoundTrip.
Context {D : Type} `{Transport D}.

(** The frame builder and the response parser are not inverse to each
    other: the builder marks its frames with the direction byte 0xD4,
    and the parser refuses every frame whose direction byte is not
    0xD5. *)
Lemma command_frames_are_refused (command s0 : Z) (payload data0 : list Z)
    (b : bus D) (d1 : D) :
  dev_read [] 6 (device b) = (true, s0 :: firstn 6 (command_frame payload), d1) ->
  read_response_ command data0 b = (Ret (false, data0), mkBus d1 (written b)).
Proof.
  intros Hprobe. rewrite command_frame_fields in Hprobe.
  eapply read_response_bad_header; [exact Hprobe|].
  now rewrite andb_false_r.
Qed.

(** C3, as amended: for every response frame, that is a frame laid out
    as the frame builder lays out its frames but with the direction byte
    0xD5 and the echo [command + 1] in front of at most 253 payload
    bytes, [read_response_] returns exactly the payload; and when one of
    the bytes length, length checksum, data checksum or postamble of the
    frame is replaced by another byte, [read_response_] returns failure.
    The device delivers the bytes on the wire to the length probe and,
    after the retransmit request, to the full read. *)
Theorem read_response_round_trip (command : Z) (payload data0 wire : list Z)
    (b : bus D) (s0 s1 : Z) (d1 d2 : D) :
  size payload <= 253 ->
  dev_read [] 6 (device b) = (true, s0 :: firstn 6 wire, d1) ->
  dev_read data0 (6 + (size payload + 1) + 2) (dev_write nack_frame d1)
    = (true, s1 :: wire, d2) ->
  (wire = response_frame (command + 1 :: payload) ->
   read_response_ command data0 b
     = (Ret (true, payload), mkBus d2 (written b ++ [nack_frame])))
  /\ (forall (k : nat) (v : Z),
        In k [LEN_field; LCS_field; DCS_field (command + 1 :: payload);
              postamble_field (command + 1 :: payload)] ->
        0 <= v < 256 ->
        v <> nth k (response_frame (command + 1 :: payload)) 0 ->
        wire = mutate (response_frame (command + 1 :: payload)) k v ->
        exists data' b', read_response_ command data0 b = (Ret (false, data'), b')).
Proof.
  intros Hsize Hprobe Hfull.
  pose proof (size_nonneg payload) as Hn.
  assert (Hlen : u8 (size (command + 1 :: payload) + 1) = size payload + 2)
    by (rewrite size_cons; mod_lia).
  split.
  - intros ->. rewrite response_frame_fields, Hlen in Hprobe, Hfull.
    erewrite read_response_on_frame; [| exact Hsize | | exact Hprobe | exact Hfull].
    + now rewrite !Z.eqb_refl.
    + mod_lia.
  - intros k v Hk Hv Hdiff ->. rewrite response_frame_fields, Hlen in *.
    destruct Hk as [<- | [<- | [<- | [<- | []]]]].
    + rewrite mutate_LEN in Hprobe. do 2 eexists.
      eapply read_response_bad_header; [exact Hprobe|].
      apply andb_false_intro1, Z.eqb_neq.
      change (v <> size payload + 2) in Hdiff. mod_lia.
    + rewrite mutate_LCS in Hprobe. do 2 eexists.
      eapply read_response_bad_header; [exact Hprobe|].
      apply andb_false_intro1, Z.eqb_neq.
      change (v <> u8 (Z.lnot (size payload + 2) + 1)) in Hdiff. mod_lia.
    + rewrite mutate_DCS in Hprobe, Hfull. rewrite nth_DCS in Hdiff.
      do 2 eexists.
      erewrite read_response_on_frame; [| exact Hsize | | exact Hprobe | exact Hfull].
      * apply Z.eqb_neq in Hdiff. rewrite Hdiff. reflexivity.
      * mod_lia.
    + rewrite mutate_postamble in Hprobe, Hfull. rewrite nth_postamble in Hdiff.
      do 2 eexists.
      erewrite read_response_on_frame; [| exact Hsize | | exact Hprobe | exact Hfull].
      * apply Z.eqb_neq in Hdiff. rewrite Hdiff, andb_false_r. reflexivity.
      * mod_lia.
Qed.

End RoundTrip.

(** C3, an instance: the response to InListPassiveTarget is recovered, and
    the same response with a data checksum that is off by one is refused. *)
Lemma read_response_round_trip_witness :
  let response := response_frame one_target_response in
  let damaged := mutate response (DCS_field one_target_response) 0xF0 in
  read_response_ 0x4A [] (fresh_bus [delivered response; delivered response])
    = (Ret (true, tl one_target_response), mkBus [] [nack_frame])
  /\ exists data' b',
       read_response_ 0x4A [] (fresh_bus [delivered damaged; delivered damaged])
         = (Ret (false, data'), b').
Proof.
  intros response damaged. split.
  - refine (proj1 (read_response_round_trip 0x4A (tl one_target_response) []
                     response _ 0x01 0x01 _ _ _ _ _) eq_refl);
      solve [vm_compute; congruence | reflexivity].
  - refine (proj2 (read_response_round_trip 0x4A (tl one_target_response) []
                     damaged _ 0x01 0x01 _ _ _ _ _)
                  (DCS_field one_target_response) 0xF0 _ _ _ eq_refl).
    + vm_compute; congruence.
    + reflexivity.
    + reflexivity.
    + simpl. tauto.
    + lia.
    + vm_compute. congruence.
Defined.

(** C3, counterexample: the frame that the frame builder makes of the
    payload 4B 01 is not parsed back to that payload; the response parser
    refuses it at the direction byte. *)
Lemma read_response_refuses_command_frame :
  read_response_ 0x4A []
    (fresh_bus [delivered (command_frame [0x4B; 0x01]);
                delivered (command_frame [0x4B; 0x01])])
  = (Ret (false, []), fresh_bus [delivered (command_frame [0x4B; 0x01])]).
Proof. vm_compute. reflexivity. Qed.

(** ** The preamble check *)

Section Preamble.
Context {D : Type}.

(** The check refuses a buffer only when all three of preamble and start
    code are wrong. *)
Lemma invalid_preamble_eq (s p c1 c2 : Z) (rest : list Z) (b : bus D) :
  invalid_preamble (s :: p :: c1 :: c2 :: rest) b
  = (Ret (negb (p =? 0x00) && negb (c1 =? 0x00) && negb (c2 =? 0xFF)), b).
Proof.
  unfold invalid_preamble. at_known. cbn [bind lift].
  destruct (p =? 0x00); [reflexivity|]. cbn [bind lift].
  destruct (c1 =? 0x00); reflexivity.
Qed.

End Preamble.

(** C5: [read_response_] and [read_response_length_], evaluated on frames
    whose preamble or start code deviates in one byte.  The response to
    InListPassiveTarget is accepted and its payload returned with the
    preamble 0x55, with the first start-code byte 0x55, and with the second
    start-code byte 0x55; the length probe returns the length 11 in each
    case. *)
Theorem bad_preamble_is_accepted :
  let response := response_frame one_target_response in
  let accepted frame :=
    read_response_ 0x4A [] (fresh_bus [delivered frame; delivered frame])
      = (Ret (true, tl one_target_response), mkBus [] [nack_frame])
    /\ fst (read_response_length_ (fresh_bus [delivered frame])) = Ret 11 in
  nth 0 response 0 = 0x00 /\ nth 1 response 0 = 0x00 /\ nth 2 response 0 = 0xFF
  /\ accepted (mutate response 0 0x55)
  /\ accepted (mutate response 1 0x55)
  /\ accepted (mutate response 2 0x55).
Proof. repeat split; vm_compute; reflexivity. Qed.

(** ** Debouncing *)



(** Two empty UIDs do not count as the same UID. *)
Lemma same_uid_loop_empty : same_uid_loop [] [] false = false.
Proof. reflexivity. Qed.

(** ** The block loops *)

Lemma bind_ext {S A B} (c : M S A) (k k' : A -> M S B) (s : S) :
  (forall a s', k a s' = k' a s') -> bind c k s = bind c k' s.
Proof. intros E. unfold bind. destruct (c s) as [[a|] s']; auto. Qed.

Section Loops.
Context {D : Type} `{Transport D} `{Declarations}.

(** The loops leave by their condition, not by their fuel: when
    [buffer_size - index <= fuel], more fuel changes nothing. *)
Lemma read_mifare_classic_loop_fuel (fuel fuel' : nat) (uid : list Z)
    (buffer_size index current_block : Z) (buffer : list Z) (b : bus D) :
  buffer_size - index <= Z.of_nat fuel ->
  buffer_size - index <= Z.of_nat fuel' ->
  read_mifare_classic_loop fuel uid buffer_size index current_block buffer b
  = read_mifare_classic_loop fuel' uid buffer_size index current_block buffer b.
Proof.
  revert fuel' index current_block buffer b.
  induction fuel as [|fuel IH]; intros [|fuel'] index current_block buffer b Hf Hf';
    simpl; try reflexivity.
  - replace (index <? buffer_size) with false by (symmetry; apply Z.ltb_ge; lia).
    reflexivity.
  - replace (index <? buffer_size) with false by (symmetry; apply Z.ltb_ge; lia).
    reflexivity.
  - destruct (index <? buffer_size); simpl; [|reflexivity].
    apply bind_ext. intros _ b1. apply bind_ext. intros [ok data] b2.
    apply IH; unfold nfc.MIFARE_CLASSIC_BLOCK_SIZE; lia.
Qed.

Lemma read_tag_loop_fuel (fuel fuel' : nat) (uid : list Z)
    (buffer_size index current_block : Z) (buffer : list Z) (b : bus D) :
  buffer_size - index <= Z.of_nat fuel ->
  buffer_size - index <= Z.of_nat fuel' ->
  read_tag_loop fuel uid buffer_size index current_block buffer b
  = read_tag_loop fuel' uid buffer_size index current_block buffer b.
Proof.
  revert fuel' index current_block buffer b.
  induction fuel as [|fuel IH]; intros [|fuel'] index current_block buffer b Hf Hf';
    simpl; try reflexivity.
  - replace (index <? buffer_size) with false by (symmetry; apply Z.ltb_ge; lia).
    reflexivity.
  - replace (index <? buffer_size) with false by (symmetry; apply Z.ltb_ge; lia).
    reflexivity.
  - destruct (index <? buffer_size); simpl; [|reflexivity].
    apply bind_ext. intros _ b1. apply bind_ext. intros data b2.
    apply IH; unfold nfc.BLOCK_SIZE; lia.
Qed.

Lemma write_mifare_classic_loop_fuel (fuel fuel' : nat) (uid encoded : list Z)
    (buffer_length index current_block : Z) (b : bus D) :
  buffer_length - index <= Z.of_nat fuel ->
  buffer_length - index <= Z.of_nat fuel' ->
  write_mifare_classic_loop fuel uid encoded buffer_length index current_block b
  = write_mifare_classic_loop fuel' uid encoded buffer_length index current_block b.
Proof.
  revert fuel' index current_block b.
  induction fuel as [|fuel IH]; intros [|fuel'] index current_block b Hf Hf';
    simpl; try reflexivity.
  - replace (index <? buffer_length) with false by (symmetry; apply Z.ltb_ge; lia).
    reflexivity.
  - replace (index <? buffer_length) with false by (symmetry; apply Z.ltb_ge; lia).
    reflexivity.
  - destruct (index <? buffer_length); simpl; [|reflexivity].
    apply bind_ext. intros authenticated b1.
    destruct (negb authenticated); [reflexivity|].
    apply bind_ext. intros data b1'. apply bind_ext. intros ok b2.
    destruct (negb ok); [reflexivity|].
    apply IH; unfold nfc.MIFARE_CLASSIC_BLOCK_SIZE; lia.
Qed.

Lemma write_tag_loop_fuel (fuel fuel' : nat) (uid encoded : list Z)
    (index current_block : Z) (b : bus D) :
  size encoded - index <= Z.of_nat fuel ->
  size encoded - index <= Z.of_nat fuel' ->
  write_tag_loop fuel uid encoded index current_block b
  = write_tag_loop fuel' uid encoded index current_block b.
Proof.
  revert fuel' index current_block b.
  induction fuel as [|fuel IH]; intros [|fuel'] index current_block b Hf Hf';
    simpl; try reflexivity.
  - replace (index <? size encoded) with false by (symmetry; apply Z.ltb_ge; lia).
    reflexivity.
  - replace (index <? size encoded) with false by (symmetry; apply Z.ltb_ge; lia).
    reflexivity.
  - destruct (index <? size encoded); simpl; [|reflexivity].
    apply bind_ext. intros authenticated b1.
    destruct (negb authenticated); [reflexivity|].
    apply bind_ext. intros data b1'. apply bind_ext. intros ok b2.
    destruct (negb ok); [reflexivity|].
    apply IH; unfold nfc.BLOCK_SIZE; lia.
Qed.

End Loops.

(** ** Failures inside the block loops *)

Section LoopFailures.
Context {D : Type} `{Transport D} `{Declarations}.

(** One round of the read loop: whether or not the block read succeeds,
    the loop goes on with the next block; a failed read leaves the buffer
    as it is. *)
Lemma read_mifare_classic_loop_round (fuel : nat) (uid : list Z)
    (buffer_size index current_block : Z) (buffer block_data : list Z)
    (ok : bool) (b b1 b2 : bus D) :
  index < buffer_size ->
  (if nfc.mifare_classic_is_first_block current_block
   then _ <- auth_mifare_classic_block_ uid current_block MIFARE_CMD_AUTH_A NDEF_KEY ;;
        ret tt
   else ret tt) b = (Ret tt, b1) ->
  read_mifare_classic_block_ current_block [] b1 = (Ret (ok, block_data), b2) ->
  read_mifare_classic_loop (S fuel) uid buffer_size index current_block buffer b
  = read_mifare_classic_loop fuel uid buffer_size (index + 16)
      (next_block current_block) (if ok then buffer ++ block_data else buffer) b2.
Proof.
  intros Hi Hauth Hread. simpl.
  replace (index <? buffer_size) with true by (symmetry; apply Z.ltb_lt; lia).
  simpl. erewrite bind_run by exact Hauth. erewrite bind_run by exact Hread.
  reflexivity.
Qed.

(** A failed authentication ends the write loop at once: the result is
    failure, and the bus is left as the authentication left it. *)
Lemma write_mifare_classic_loop_auth_failure (fuel : nat) (uid encoded : list Z)
    (buffer_length index current_block : Z) (b b1 : bus D) :
  index < buffer_length ->
  nfc.mifare_classic_is_first_block current_block = true ->
  auth_mifare_classic_block_ uid current_block MIFARE_CMD_AUTH_A NDEF_KEY b
    = (Ret false, b1) ->
  write_mifare_classic_loop (S fuel) uid encoded buffer_length index current_block b
  = (Ret false, b1).
Proof.
  intros Hi Hfirst Hauth. simpl.
  replace (index <? buffer_length) with true by (symmetry; apply Z.ltb_lt; lia).
  simpl. rewrite Hfirst. erewrite bind_run by exact Hauth. reflexivity.
Qed.

(** A failed block write ends the write loop at once: the result is
    failure, and the bus is left as the failed write left it. *)
Lemma write_mifare_classic_loop_write_failure (fuel : nat) (uid encoded data : list Z)
    (buffer_length index current_block : Z) (b b1 b2 : bus D) :
  index < buffer_length ->
  (if nfc.mifare_classic_is_first_block current_block
   then auth_mifare_classic_block_ uid current_block MIFARE_CMD_AUTH_A NDEF_KEY
   else ret true) b = (Ret true, b1) ->
  range encoded index (index + 16) = Ret data ->
  write_mifare_classic_block_ current_block data b1 = (Ret false, b2) ->
  write_mifare_classic_loop (S fuel) uid encoded buffer_length index current_block b
  = (Ret false, b2).
Proof.
  intros Hi Hauth Hrange Hwrite. simpl.
  replace (index <? buffer_length) with true by (symmetry; apply Z.ltb_lt; lia).
  simpl. erewrite bind_run by exact Hauth. simpl.
  unfold nfc.MIFARE_CLASSIC_BLOCK_SIZE. rewrite Hrange.
  erewrite bind_run by reflexivity.
  erewrite bind_run by exact Hwrite. reflexivity.
Qed.

(** [read_mifare_classic_tag_] after a good read of block 4: the block
    is not parsed, and the tag has no payload. *)
Lemma read_mifare_classic_tag_good_read (uid data : list Z) (b b1 b2 : bus D) :
  auth_mifare_classic_block_ uid 4 MIFARE_CMD_AUTH_A NDEF_KEY b = (Ret true, b1) ->
  read_mifare_classic_block_ 4 [] b1 = (Ret (true, data), b2) ->
  read_mifare_classic_tag_ uid b = (Ret (nfc.mkTag uid nfc.MIFARE_CLASSIC None), b2).
Proof.
  intros Hauth Hread. unfold read_mifare_classic_tag_.
  erewrite bind_run by exact Hauth. simpl.
  erewrite bind_run by exact Hread. reflexivity.
Qed.

(** [read_tag_] of pn532.cpp after a good read of block 4 that the TLV
    locator refuses: the tag is an error tag. *)
Lemma read_tag_bad_tlv (uid data : list Z) (b b1 b2 : bus D) :
  guess_tag_type (size uid) = TAG_TYPE_MIFARE_CLASSIC ->
  auth_mifare_classic_block_ uid 4 MIFARE_CMD_AUTH_A NDEF_KEY b = (Ret true, b1) ->
  read_mifare_classic_block_vec 4 b1 = (Ret data, b2) ->
  empty data = false ->
  decode_mifare_classic_tlv data = None ->
  read_tag_ uid b = (Ret (nfc.mkTag uid nfc.ERROR None), b2).
Proof.
  intros Htype Hauth Hread Hdata Htlv. unfold read_tag_.
  rewrite Htype, Z.eqb_refl.
  erewrite bind_run by exact Hauth. simpl.
  erewrite bind_run by exact Hread. rewrite Hdata, Htlv. reflexivity.
Qed.

(** [read_tag_] of pn532.cpp when the authentication of block 4 fails:
    a MIFARE Classic tag without payload. *)
Lemma read_tag_not_authenticated (uid : list Z) (b b1 : bus D) :
  guess_tag_type (size uid) = TAG_TYPE_MIFARE_CLASSIC ->
  auth_mifare_classic_block_ uid 4 MIFARE_CMD_AUTH_A NDEF_KEY b = (Ret false, b1) ->
  read_tag_ uid b = (Ret (nfc.mkTag uid nfc.MIFARE_CLASSIC None), b1).
Proof.
  intros Htype Hauth. unfold read_tag_. rewrite Htype, Z.eqb_refl.
  erewrite bind_run by exact Hauth. reflexivity.
Qed.

End LoopFailures.

(** ** Block commands on the wire *)

Section BlockCommands.
Context `{Declarations}.

(** [io_block] recognises the frames of [read_mifare_classic_block_] and
    of [write_mifare_classic_block_]. *)
Lemma io_block_read (block_num : Z) :
  io_block (command_frame [PN532_COMMAND_INDATAEXCHANGE; 0x01; MIFARE_CMD_READ; block_num])
  = Some block_num.
Proof.
  unfold command_frame, io_block. cbn [app].
  now rewrite !Z.eqb_refl.
Qed.

Lemma io_block_write (block_num : Z) (data : list Z) :
  io_block (command_frame
              ([PN532_COMMAND_INDATAEXCHANGE; 0x01; MIFARE_CMD_WRITE; block_num] ++ data))
  = Some block_num.
Proof.
  unfold command_frame, io_block. cbn [app].
  destruct data as [|x [|y data]]; cbn [app];
    now rewrite !Z.eqb_refl, orb_true_r.
Qed.

(** A block read that addresses a trailer block does not pass
    [spares_trailers]. *)
Lemma trailer_read_is_noticed (block_num : Z) :
  block_num mod 4 = 3 ->
  ~ spares_trailers
      (command_frame [PN532_COMMAND_INDATAEXCHANGE; 0x01; MIFARE_CMD_READ; block_num]).
Proof. intros Hb Hs. exact (Hs block_num (io_block_read block_num) Hb). Qed.

End BlockCommands.

(** ** Accesses without a bounds check *)

Section UncheckedAccesses.
Context {D : Type} `{Transport D} `{Declarations}.

(** The UID bytes are copied out of the response before the size of the
    response is looked at: a response that announces more UID bytes than
    it carries is read outside its bounds.  [current_uid_] is not
    touched. *)
Lemma loop_reads_short_response (this : PN532 D) (read : list Z) (b' : bus D)
    (nfcid_length : Z) :
  requested_read_ this = true ->
  read_response_ PN532_COMMAND_INLISTPASSIVETARGET [] (link this)
    = (Ret (true, read), b') ->
  at_ read 0 = Ret 1 ->
  at_ read 5 = Ret nfcid_length ->
  size read < 6 + nfcid_length ->
  fst (loop this) = OutOfRange
  /\ current_uid_ (snd (loop this)) = current_uid_ this.
Proof.
  intros Hreq Hresp Hcount Hlength Hshort.
  assert (Hrange : range read 6 (6 + nfcid_length) = OutOfRange).
  { unfold range.
    replace (6 + nfcid_length <=? size read) with false
      by (symmetry; apply Z.leb_gt; lia).
    now rewrite andb_false_r. }
  unfold loop, bind, get, on_link, set_requested_read_, lift.
  rewrite Hreq. cbn [negb]. rewrite Hresp. cbn [negb].
  rewrite Hcount. cbn [Z.eqb Pos.eqb negb]. rewrite Hlength, Hrange.
  split; reflexivity.
Qed.

(** The trim of [read_tag_]: when the block loop leaves fewer bytes
    than the message start index in the buffer, the trim is outside the
    bounds of the buffer; otherwise the tag carries the buffer from the
    message start index on. *)
Lemma read_tag_trim (uid data buffer : list Z) (message_length message_start_index : Z)
    (b b1 b2 b3 : bus D) :
  guess_tag_type (size uid) = TAG_TYPE_MIFARE_CLASSIC ->
  auth_mifare_classic_block_ uid 4 MIFARE_CMD_AUTH_A NDEF_KEY b = (Ret true, b1) ->
  read_mifare_classic_block_vec 4 b1 = (Ret data, b2) ->
  empty data = false ->
  decode_mifare_classic_tlv data = Some (message_length, message_start_index) ->
  0 <= message_start_index ->
  read_tag_loop (Z.to_nat (nfc.get_buffer_size message_length)) uid
    (nfc.get_buffer_size message_length) 0 4 [] b2 = (Ret buffer, b3) ->
  read_tag_ uid b
  = (if message_start_index <=? size buffer
     then Ret (nfc.mkTag uid nfc.MIFARE_CLASSIC
                 (Some (skipn (Z.to_nat message_start_index) buffer)))
     else OutOfRange, b3).
Proof.
  intros Htype Hauth Hread Hdata Htlv Hstart Hloop. unfold read_tag_.
  rewrite Htype, Z.eqb_refl.
  erewrite bind_run by exact Hauth. cbn [negb].
  erewrite bind_run by exact Hread. rewrite Hdata, Htlv. cbn [negb].
  erewrite bind_run by exact Hloop.
  unfold bind, lift, erase.
  replace (0 <=? 0) with true by reflexivity.
  replace (0 <=? message_start_index) with true by (symmetry; apply Z.leb_le; lia).
  cbn [andb]. destruct (message_start_index <=? size buffer); reflexivity.
Qed.

(** The same trim in [read_mifare_classic_tag_], whose block loop runs
    after a failed read of block 4. *)
Lemma read_mifare_classic_tag_trim (uid data buffer : list Z)
    (message_length message_start_index : Z) (b b1 b2 b3 : bus D) :
  auth_mifare_classic_block_ uid 4 MIFARE_CMD_AUTH_A NDEF_KEY b = (Ret true, b1) ->
  read_mifare_classic_block_ 4 [] b1 = (Ret (false, data), b2) ->
  decode_mifare_classic_tlv data = Some (message_length, message_start_index) ->
  0 <= message_start_index ->
  read_mifare_classic_loop
    (Z.to_nat (nfc.get_mifare_classic_buffer_size message_length)) uid
    (nfc.get_mifare_classic_buffer_size message_length) 0 4 [] b2 = (Ret buffer, b3) ->
  read_mifare_classic_tag_ uid b
  = (if message_start_index <=? size buffer
     then Ret (nfc.mkTag uid nfc.MIFARE_CLASSIC
                 (Some (skipn (Z.to_nat message_start_index) buffer)))
     else OutOfRange, b3).
Proof.
  intros Hauth Hread Htlv Hstart Hloop. unfold read_mifare_classic_tag_.
  erewrite bind_run by exact Hauth. cbn [negb].
  erewrite bind_run by exact Hread. cbv beta iota. cbn [negb]. rewrite Htlv.
  erewrite bind_run by exact Hloop.
  unfold bind, lift, erase.
  replace (0 <=? 0) with true by reflexivity.
  replace (0 <=? message_start_index) with true by (symmetry; apply Z.leb_le; lia).
  cbn [andb]. destruct (message_start_index <=? size buffer); reflexivity.
Qed.

End UncheckedAccesses.

(** ** The driver on the scripted transport *)

#[local] Existing Instance pn532_h.

(** C2: [loop], evaluated.  With the last UID 04 01 02 03, a tag with the
    UID 04 AA BB CC, which has the same length and differs in three
    bytes, is suppressed: [current_uid_] stays, no trigger fires, and
    nothing but the retransmit request is written.  A tag with the UID
    05 AA BB CC, which differs in every byte, is processed. *)
Theorem uid_sharing_a_byte_is_suppressed :
  let similar := target_frame [0x04; 0xAA; 0xBB; 0xCC] in
  let distinct := target_frame [0x05; 0xAA; 0xBB; 0xCC] in
  loop (awaiting [delivered similar; delivered similar] uid_04010203)
    = (Ret tt, mkPN532 (mkBus [] [nack_frame]) false uid_04010203 READ false None []
                 [mkTrigger []])
  /\ (let after := snd (loop (awaiting [delivered distinct; delivered distinct]
                               uid_04010203)) in
      current_uid_ after = [0x05; 0xAA; 0xBB; 0xCC]
      /\ triggers_ after
         = [mkTrigger [nfc.mkTag [0x05; 0xAA; 0xBB; 0xCC] nfc.MIFARE_CLASSIC None]]).
Proof. repeat split; vm_compute; reflexivity. Qed.

(** C4: [read_mifare_classic_tag_], evaluated.  After a good
    authentication and a good read of block 4 it returns a tag without
    payload and does not look at the TLV header, which is well formed;
    after a good authentication and a failed read of block 4 it runs the
    TLV locator on what the failed read left and returns an error tag.
    [read_tag_] of pn532.cpp, on the same reads, returns the payload in the
    first case and a tag without payload in the second. *)
Theorem read_mifare_classic_tag_inverted_test :
  let failed_read := exchange (data_exchange_response 0x01 []) in
  fst (read_mifare_classic_tag_ uid_04010203 (fresh_bus (authenticated ++ block_4_read)))
    = Ret (nfc.mkTag uid_04010203 nfc.MIFARE_CLASSIC None)
  /\ decode_mifare_classic_tlv empty_ndef_message = Some (3, 2)
  /\ fst (read_tag_ uid_04010203
            (fresh_bus (authenticated ++ block_4_read ++ authenticated ++ block_4_read)))
     = Ret (nfc.mkTag uid_04010203 nfc.MIFARE_CLASSIC
              (Some [0xD0; 0x00; 0x00; 0xFE; 0; 0; 0; 0; 0; 0; 0; 0; 0; 0]))
  /\ fst (read_mifare_classic_tag_ uid_04010203 (fresh_bus (authenticated ++ failed_read)))
     = Ret (nfc.mkTag uid_04010203 nfc.ERROR None)
  /\ fst (read_tag_ uid_04010203 (fresh_bus (authenticated ++ failed_read)))
     = Ret (nfc.mkTag uid_04010203 nfc.MIFARE_CLASSIC None).
Proof. repeat split; vm_compute; reflexivity. Qed.

(** C8: [read_mifare_classic_tag_] and [write_mifare_classic_tag_],
    evaluated.  The block loop of the read is entered with a message start
    index of 2.  When its only block read fails, the loop ends with an
    empty buffer and the read ends in the trim of that buffer, outside its
    bounds, instead of returning a tag.  When the first of two block reads
    succeeds and the second fails, the read returns a tag with the bytes
    of the first block.  A write whose first block write fails returns
    failure and writes no further block. *)
Theorem failed_block_reads_and_writes :
  let enters_loop len := exchange (data_exchange_response 0x03 [len]) in
  let block := exchange (data_exchange_response 0x00 (repeat 0x11 16)) in
  let message := repeat 0x22 20 in
  fst (read_mifare_classic_tag_ uid_04010203
         (fresh_bus (authenticated ++ enters_loop 0 ++ authenticated ++ no_ack)))
    = OutOfRange
  /\ fst (read_mifare_classic_tag_ uid_04010203
            (fresh_bus (authenticated ++ enters_loop 20 ++ authenticated ++ block ++ no_ack)))
     = Ret (nfc.mkTag uid_04010203 nfc.MIFARE_CLASSIC (Some (repeat 0x11 14)))
  /\ (let '(result, after) :=
        write_mifare_classic_tag_ uid_04010203 message
          (fresh_bus (authenticated ++ no_ack ++ block ++ block)) in
      result = Ret false
      /\ size (write_mifare_classic_tag_buffer message) = 32
      /\ map io_block (written after) = [None; None; Some 4]
      /\ device after = block ++ block).
Proof. repeat split; vm_compute; reflexivity. Qed.

(** C9: [loop], evaluated.  A response that announces a UID of 4 bytes
    and carries only one is read at the indices 6 to 9 of a vector of 7
    bytes, before its size is compared; a response with an empty payload
    is read at index 0. *)
Theorem short_response_is_read_out_of_range :
  let short := target_frame [0xAA] in
  let bare := response_frame [0x4B] in
  read_response_ 0x4A [] (fresh_bus [delivered short; delivered short])
    = (Ret (true, [0x01; 0x01; 0x00; 0x04; 0x08; 0x04; 0xAA]), mkBus [] [nack_frame])
  /\ range [0x01; 0x01; 0x00; 0x04; 0x08; 0x04; 0xAA] 6 (6 + 4) = OutOfRange
  /\ fst (loop (awaiting [delivered short; delivered short] uid_04010203)) = OutOfRange
  /\ read_response_ 0x4A [] (fresh_bus [delivered bare; delivered bare])
     = (Ret (true, []), mkBus [] [nack_frame])
  /\ fst (loop (awaiting [delivered bare; delivered bare] uid_04010203)) = OutOfRange.
Proof. repeat split; vm_compute; reflexivity. Qed.

(** C10: [read_tag_] and [read_mifare_classic_tag_], evaluated.  Block 4
    is read and its TLV header puts the message start index at 2; the
    block read of the loop fails, the loop ends with an empty buffer, and
    the trim of 2 bytes is outside the bounds of that buffer. *)
Theorem trim_is_out_of_range_after_failed_reads :
  let enters_loop := exchange (data_exchange_response 0x03 [0x00]) in
  decode_mifare_classic_tlv empty_ndef_message = Some (3, 2)
  /\ fst (read_tag_loop 16 uid_04010203 16 0 4 [] (fresh_bus (authenticated ++ no_ack)))
     = Ret []
  /\ erase [] 0 2 = OutOfRange
  /\ fst (read_tag_ uid_04010203
            (fresh_bus (authenticated ++ block_4_read ++ authenticated ++ no_ack)))
     = OutOfRange
  /\ fst (read_tag_ uid_04010203 (fresh_bus (authenticated ++ block_4_read)))
     = OutOfRange
  /\ fst (read_mifare_classic_tag_ uid_04010203
            (fresh_bus (authenticated ++ enters_loop)))
     = OutOfRange.
Proof. repeat split; vm_compute; reflexivity. Qed.

(** [write_tag_] on the wire: a message of 13 bytes goes out in one block
    whose length byte is 14. *)
Lemma write_tag_on_the_wire :
  let message := repeat 0x22 13 in
  let written_block := exchange (data_exchange_response 0x00 []) in
  let '(result, after) :=
    write_tag_ uid_04010203 message (fresh_bus (authenticated ++ written_block)) in
  result = Ret true
  /\ nth 2 (written after) []
     = command_frame ([0x40; 0x01; 0xA0; 0x04] ++ [0x03; 14] ++ message ++ [0xFE]).
Proof. split; vm_compute; reflexivity. Qed.

(** [write_mifare_classic_tag_] on the wire: a message of 60 bytes goes
    out in the blocks 4, 5, 6 and 8. *)
Lemma write_mifare_classic_tag_blocks :
  let written_block := exchange (data_exchange_response 0x00 []) in
  let reads :=
    authenticated ++ written_block ++ written_block ++ written_block
      ++ authenticated ++ written_block in
  let '(result, after) :=
    write_mifare_classic_tag_ uid_04010203 (repeat 0x22 60) (fresh_bus reads) in
  result = Ret true
  /\ filter (fun o => match o with Some _ => true | None => false end)
       (map io_block (written after))
     = [Some 4; Some 5; Some 6; Some 8].
Proof. split; vm_compute; reflexivity. Qed.

(** * Further properties *)

(** ** What the frame layer writes *)

Lemma emits_nothing {D A : Type} (c : M (bus D) A) :
  emits (fun _ => False) c -> silent c.
Proof.
  intros Hc b. destruct (Hc b) as (frames & E & F).
  destruct frames as [|f frames]; [now rewrite E, app_nil_r|].
  inversion F; contradiction.
Qed.

Section FrameWrites.
Context {D : Type} `{Transport D}.

Lemma read_ack_silent : silent (D := D) read_ack_.
Proof.
  apply emits_nothing. unfold read_ack_. repeat emits_step.
Qed.

Lemma write_command_wire (data : list Z) (b : bus D) :
  written (snd (write_command_ data b)) = written b ++ [command_frame data].
Proof.
  unfold write_command_, bind, write_data.
  pose proof (read_ack_silent
                (mkBus (dev_write (command_frame data) (device b))
                       (written b ++ [command_frame data]))) as Hs.
  destruct (read_ack_ _) as [[r|] b']; exact Hs.
Qed.

(** X1: [write_command_] puts the command frame on the wire, once, and
    nothing else, whatever the device does and whether or not the
    command is acknowledged. *)
Theorem write_command_writes_one_frame (data : list Z) (b : bus D) :
  written (snd (write_command_ data b)) = written b ++ [command_frame data].
Proof. apply write_command_wire. Qed.

Lemma write_command_result (data f : list Z) (s : Z) (b : bus D) (d' : D) :
  dev_read [] 6 (dev_write (command_frame data) (device b)) = (true, s :: f, d') ->
  length f = 6%nat ->
  exists r,
    write_command_ data b = (Ret r, mkBus d' (written b ++ [command_frame data]))
    /\ (r = true <-> f = ack_frame).
Proof.
  intros Hread Hlen.
  destruct f as [|a1 [|a2 [|a3 [|a4 [|a5 [|a6 [|]]]]]]]; try discriminate Hlen.
  unfold write_command_, write_data.
  erewrite bind_run by reflexivity.
  unfold read_ack_.
  erewrite bind_run by (apply read_data_run; cbn [device]; exact Hread).
  cbn [negb written]. cbv beta iota. at_known. cbn [bind lift].
  unfold ack_frame.
  destruct (Z.eqb_spec a1 0x00) as [->|N1]; cbn [negb];
    [|eexists; split; [reflexivity | split; [discriminate | intros [= E]; contradiction]]].
  cbn [bind lift].
  destruct (Z.eqb_spec a2 0x00) as [->|N2]; cbn [negb];
    [|eexists; split; [reflexivity | split; [discriminate | intros [= E]; contradiction]]].
  cbn [bind lift].
  destruct (Z.eqb_spec a3 0xFF) as [->|N3]; cbn [negb];
    [|eexists; split; [reflexivity | split; [discriminate | intros [= E]; contradiction]]].
  cbn [bind lift].
  destruct (Z.eqb_spec a4 0x00) as [->|N4]; cbn [negb];
    [|eexists; split; [reflexivity | split; [discriminate | intros [= E]; contradiction]]].
  cbn [bind lift].
  destruct (Z.eqb_spec a5 0xFF) as [->|N5]; cbn [negb];
    [|eexists; split; [reflexivity | split; [discriminate | intros [= E]; contradiction]]].
  cbn [bind lift].
  eexists; split; [reflexivity|].
  destruct (Z.eqb_spec a6 0x00) as [->|N6]; split; auto; try discriminate.
  intros [= E]; contradiction.
Qed.

(** X2: [write_command_] reports success exactly when the six bytes
    behind the status byte are the acknowledgement frame
    00 00 FF 00 FF 00. *)
Theorem write_command_acknowledged (data f : list Z) (s : Z) (b : bus D) (d' : D) :
  dev_read [] 6 (dev_write (command_frame data) (device b)) = (true, s :: f, d') ->
  length f = 6%nat ->
  exists r,
    write_command_ data b = (Ret r, mkBus d' (written b ++ [command_frame data]))
    /\ (r = true <-> f = ack_frame).
Proof. apply write_command_result. Qed.

End FrameWrites.

(** ** The response parser: retransmit requests, echo, corruption *)

Ltac destruct_matches :=
  repeat (cbv beta iota;
          match goal with
          | |- context [match ?x with _ => _ end] =>
              lazymatch x with
              | context [match _ with _ => _ end] => fail
              | _ => destruct x eqn:?
              end
          end).

Section ParserEdges.
Context {D : Type} `{Transport D}.

Lemma read_response_length_writes (b : bus D) :
  match read_response_length_ b with
  | (Ret len, b') =>
      (len <> 0 -> written b' = written b ++ [nack_frame])
      /\ (written b' = written b \/ written b' = written b ++ [nack_frame])
  | (OutOfRange, b') => written b' = written b
  end.
Proof.
  unfold read_response_length_, invalid_preamble, nack_frame.
  unfold bind, read_data, lift, ret, write_data.
  destruct (dev_read [] 6 (device b)) as [[ok data] d'].
  destruct ok; cbn [negb]; [|split; [congruence | now left]].
  destruct_matches; cbv beta iota; cbn [written negb];
    try reflexivity;
    try (split; [congruence | now left]);
    try (split; [intros; reflexivity | now right]).
Qed.

Lemma after_probe_silent (command len : Z) (data : list Z) :
  silent (D := D)
    (if len =? 0 then ret (false, data) else
     '(ok, data) <- read_data data (6 + len + 2) ;;
     if negb ok then ret (false, data) else
     bad <- invalid_preamble data ;;
     if bad then ret (false, data) else
     d4 <- lift (at_ data 4) ;;
     d5 <- lift (at_ data 5) ;;
     valid_header <-
       (if negb (u8 (d4 + d5) =? 0) then ret false else
        d6 <- lift (at_ data 6) ;;
        if negb (d6 =? 0xD5) then ret false else
        d7 <- lift (at_ data 7) ;;
        ret (d7 =? command + 1)) ;;
     if negb valid_header then ret (false, data) else
     data <- lift (erase data 0 6) ;;
     checksum <- lift (checksum_loop data (Z.to_nat (len + 1)) 0 0) ;;
     let checksum := u8 (Z.lnot checksum + 1) in
     dcs <- lift (at_ data (len + 1)) ;;
     if negb (dcs =? checksum) then ret (false, data) else
     post <- lift (at_ data (len + 2)) ;;
     if negb (post =? 0x00) then ret (false, data) else
     data <- lift (erase data 0 2) ;;
     data <- lift (erase data (size data - 2) (size data)) ;;
     ret (true, data)).
Proof.
  apply emits_nothing.
  repeat (first [apply emits_invalid_preamble | emits_step | progress cbv zeta]).
Qed.

Lemma read_response_wire (command : Z) (data : list Z) (b : bus D) :
  (written (snd (read_response_ command data b)) = written b
   \/ written (snd (read_response_ command data b)) = written b ++ [nack_frame])
  /\ forall payload,
       fst (read_response_ command data b) = Ret (true, payload) ->
       written (snd (read_response_ command data b)) = written b ++ [nack_frame].
Proof.
  unfold read_response_.
  match goal with |- context [bind read_response_length_ ?k0] => set (k := k0) end.
  assert (Hk : forall len, silent (k len))
    by (intros len; subst k; apply after_probe_silent).
  unfold bind.
  pose proof (read_response_length_writes b) as Hp.
  destruct (read_response_length_ b) as [[len|] b1].
  - destruct Hp as [Hnz Hany]. rewrite (Hk len b1). split; [exact Hany|].
    intros payload Hok. apply Hnz. intros ->.
    subst k. cbn in Hok. discriminate Hok.
  - cbn [fst snd]. split; [now left | discriminate].
Qed.

(** X3: [read_response_] writes at most one frame, the retransmit
    request 00 00 FF FF 00 00, and it has written it whenever it returns
    a payload. *)
Theorem read_response_retransmit_request (command : Z) (data : list Z) (b : bus D) :
  (written (snd (read_response_ command data b)) = written b
   \/ written (snd (read_response_ command data b)) = written b ++ [nack_frame])
  /\ forall payload,
       fst (read_response_ command data b) = Ret (true, payload) ->
       written (snd (read_response_ command data b)) = written b ++ [nack_frame].
Proof. apply read_response_wire. Qed.

(** X4: the length probe on a frame with a good preamble.  It returns
    the declared length minus 1 and asks for retransmission exactly
    when length and length checksum cancel and the direction byte is
    0xD5; a declared length of 0 gives 0; in every other case it
    returns 0 and writes nothing. *)
Theorem length_probe_result (len lcs tfi dcs post s0 : Z) (data : list Z)
    (b : bus D) (d1 : D) :
  dev_read [] 6 (device b)
    = (true, s0 :: firstn 6 (wire_frame len lcs tfi dcs post data), d1) ->
  read_response_length_ b =
    if (u8 (len + lcs) =? 0) && (tfi =? 0xD5)
    then (Ret (if len =? 0 then 0 else u8 (len - 1)),
          mkBus (dev_write nack_frame d1) (written b ++ [nack_frame]))
    else (Ret 0, mkBus d1 (written b)).
Proof. apply probe_on_frame. Qed.

(** X5: a response that is well formed but echoes another command than
    [command + 1] is refused, and the vector is left holding the raw
    frame. *)
Theorem wrong_echo_is_refused (command echo s0 s1 : Z) (payload data0 : list Z)
    (b : bus D) (d1 d2 : D) :
  size payload <= 253 ->
  echo <> command + 1 ->
  dev_read [] 6 (device b)
    = (true, s0 :: firstn 6 (response_frame (echo :: payload)), d1) ->
  dev_read data0 (6 + (size payload + 1) + 2) (dev_write nack_frame d1)
    = (true, s1 :: response_frame (echo :: payload), d2) ->
  read_response_ command data0 b
  = (Ret (false, s1 :: response_frame (echo :: payload)),
     mkBus d2 (written b ++ [nack_frame])).
Proof.
  intros Hsize Hecho Hprobe Hfull.
  pose proof (size_nonneg payload) as Hn.
  assert (Hlen : u8 (size (echo :: payload) + 1) = size payload + 2)
    by (rewrite size_cons; mod_lia).
  rewrite response_frame_fields, Hlen in *.
  set (lcs := u8 (Z.lnot (size payload + 2) + 1)) in *.
  assert (Hlcs : u8 (size payload + 2 + lcs) = 0) by (subst lcs; mod_lia).
  unfold read_response_.
  erewrite bind_run
    by (erewrite probe_on_frame by eassumption; rewrite Hlcs; reflexivity).
  replace (size payload + 2 =? 0) with false by (symmetry; apply Z.eqb_neq; lia).
  replace (u8 (size payload + 2 - 1)) with (size payload + 1) by mod_lia.
  replace (size payload + 1 =? 0) with false by (symmetry; apply Z.eqb_neq; lia).
  erewrite bind_run by (apply read_data_run; cbn [device]; apply Hfull).
  cbn [negb]. cbv beta iota. unfold wire_frame. cbn [app].
  unfold invalid_preamble. at_known.
  cbn [bind lift ret Z.eqb Pos.eqb negb]. rewrite Hlcs.
  cbn [bind lift ret Z.eqb Pos.eqb negb].
  replace (echo =? command + 1) with false by (symmetry; apply Z.eqb_neq; exact Hecho).
  reflexivity.
Qed.

End ParserEdges.

Lemma mutate_cons (x v : Z) (l : list Z) (k : nat) :
  mutate (x :: l) (S k) v = x :: mutate l k v.
Proof. reflexivity. Qed.

Lemma mutate_app_l (l t : list Z) (k : nat) (v : Z) :
  (k < length l)%nat -> mutate (l ++ t) k v = mutate l k v ++ t.
Proof.
  intros Hk. unfold mutate.
  rewrite firstn_app, skipn_app.
  replace (k - length l)%nat with 0%nat by lia.
  replace (S k - length l)%nat with 0%nat by lia.
  simpl. now rewrite app_nil_r, <- app_assoc.
Qed.

Lemma mutate_length (l : list Z) (k : nat) (v : Z) :
  (k < length l)%nat -> length (mutate l k v) = length l.
Proof.
  intros Hk. unfold mutate. rewrite length_app, length_firstn. cbn [length].
  rewrite length_skipn. lia.
Qed.

Lemma byte_sum_app (l t : list Z) : byte_sum (l ++ t) = byte_sum l + byte_sum t.
Proof. induction l as [|x l IH]; simpl; lia. Qed.

Lemma byte_sum_mutate (l : list Z) (k : nat) (v : Z) :
  (k < length l)%nat -> byte_sum (mutate l k v) = byte_sum l - nth k l 0 + v.
Proof.
  revert k. induction l as [|x l IH]; intros k Hk; simpl in Hk; [lia|].
  destruct k as [|k].
  - unfold mutate. simpl. lia.
  - rewrite mutate_cons. simpl. rewrite IH by lia. lia.
Qed.

Lemma response_frame_checksum (data : list Z) :
  fold_left (fun checksum dat => u8 (checksum + dat)) data 0xD5
  = u8 (0xD5 + byte_sum data).
Proof. exact (checksum_fold data 0xD5). Qed.

Section Corruption.
Context {D : Type} `{Transport D}.

(** X6: the data checksum catches every change of one payload byte: a
    response frame in which one byte of the payload is replaced by
    another byte is refused. *)
Theorem payload_corruption_is_detected (command v s0 s1 : Z) (payload data0 : list Z)
    (i : nat) (b : bus D) (d1 d2 : D) :
  size payload <= 253 ->
  (i < length payload)%nat ->
  0 <= nth i payload 0 < 256 ->
  0 <= v < 256 ->
  v <> nth i payload 0 ->
  dev_read [] 6 (device b)
    = (true, s0 :: firstn 6 (mutate (response_frame (command + 1 :: payload)) (7 + i) v),
       d1) ->
  dev_read data0 (6 + (size payload + 1) + 2) (dev_write nack_frame d1)
    = (true, s1 :: mutate (response_frame (command + 1 :: payload)) (7 + i) v, d2) ->
  exists data',
    read_response_ command data0 b
    = (Ret (false, data'), mkBus d2 (written b ++ [nack_frame])).
Proof.
  intros Hsize Hi Hold Hv Hdiff Hprobe Hfull.
  pose proof (size_nonneg payload) as Hn.
  assert (Hlen : u8 (size (command + 1 :: payload) + 1) = size payload + 2)
    by (rewrite size_cons; mod_lia).
  rewrite response_frame_fields, Hlen in Hprobe, Hfull.
  set (damaged := mutate payload i v) in *.
  assert (Hwire : forall lcs dcs,
             mutate (wire_frame (size payload + 2) lcs 0xD5 dcs 0x00
                       (command + 1 :: payload)) (7 + i) v
             = wire_frame (size damaged + 2) lcs 0xD5 dcs 0x00 (command + 1 :: damaged)).
  { intros lcs dcs. unfold wire_frame. cbn [app Nat.add].
    rewrite !mutate_cons, mutate_app_l by exact Hi.
    unfold size. subst damaged. rewrite mutate_length by exact Hi. reflexivity. }
  rewrite Hwire in Hprobe, Hfull.
  assert (Hsame : size damaged = size payload)
    by (unfold size; subst damaged; rewrite mutate_length by exact Hi; reflexivity).
  assert (Hsum : byte_sum damaged = byte_sum payload - nth i payload 0 + v)
    by (subst damaged; apply byte_sum_mutate; exact Hi).
  clearbody damaged. rewrite <- Hsame in Hfull at 1.
  eexists.
  erewrite read_response_on_frame; [| | | exact Hprobe | exact Hfull].
  - rewrite !response_frame_checksum. unfold byte_sum in *. cbn [fold_right].
    rewrite Hsum.
    replace (_ =? _) with false; [reflexivity|].
    symmetry. apply Z.eqb_neq. mod_lia.
  - lia.
  - rewrite Hsame. mod_lia.
Qed.

End Corruption.

(** ** One exchange with the tag *)

Section Exchange.
Context {D : Type} `{Transport D} `{Declarations}.

Lemma exchange_run (command payload : list Z) (code : Z) (b : bus D) (d' : D) :
  answers command (code + 1 :: payload) (device b) d' ->
  size payload <= 253 ->
  exists b1,
    write_command_ command b = (Ret true, b1)
    /\ forall data0,
         read_response_ code data0 b1
         = (Ret (true, payload),
            mkBus d' (written b ++ [command_frame command; nack_frame])).
Proof.
  intros (s0 & s1 & s2 & d1 & d2 & Hack & Hprobe & Hfull) Hsize.
  pose proof (size_nonneg payload) as Hn.
  eexists. split.
  - unfold write_command_, write_data. erewrite bind_run by reflexivity.
    unfold read_ack_.
    erewrite bind_run by (apply read_data_run; cbn [device]; exact Hack).
    cbn [negb]. cbv beta iota. unfold ack_frame. at_known. reflexivity.
  - intros data0. specialize (Hfull data0).
    assert (Hlen : u8 (size (code + 1 :: payload) + 1) = size payload + 2)
      by (rewrite size_cons; mod_lia).
    rewrite response_frame_fields, Hlen in Hprobe, Hfull.
    rewrite size_cons in Hfull.
    erewrite read_response_on_frame;
      [| | | cbn [device]; exact Hprobe | exact Hfull].
    + rewrite !Z.eqb_refl. cbn [andb written]. rewrite <- app_assoc. reflexivity.
    + exact Hsize.
    + mod_lia.
Qed.

(** X7: a block read that the tag answers with the status 0x00 returns
    the bytes behind the status; with any other status it fails and
    leaves the status and the bytes behind it in [data]. *)
Theorem read_block_result (block_num status : Z) (contents data0 : list Z)
    (b : bus D) (d' : D) :
  answers [PN532_COMMAND_INDATAEXCHANGE; 0x01; MIFARE_CMD_READ; block_num]
          (PN532_COMMAND_INDATAEXCHANGE + 1 :: status :: contents) (device b) d' ->
  size contents <= 252 ->
  read_mifare_classic_block_ block_num data0 b
  = (Ret (if status =? 0x00 then (true, contents) else (false, status :: contents)),
     mkBus d' (written b
                 ++ [command_frame [PN532_COMMAND_INDATAEXCHANGE; 0x01;
                                    MIFARE_CMD_READ; block_num];
                     nack_frame])).
Proof.
  intros Hans Hsize.
  destruct (exchange_run _ (status :: contents) _ b d' Hans) as (b1 & Hw & Hr);
    [rewrite size_cons; lia|].
  unfold read_mifare_classic_block_.
  erewrite bind_run by exact Hw. cbn [negb].
  erewrite bind_run by apply Hr. cbn [negb]. cbv beta iota. at_known.
  cbn [bind lift]. destruct (status =? 0x00); cbn [negb]; [|reflexivity].
  rewrite erase_1. reflexivity.
Qed.

(** X8: an authentication succeeds exactly when the tag answers with
    the status 0x00. *)
Theorem auth_result (uid key rest : list Z) (block_num key_num status : Z)
    (b : bus D) (d' : D) :
  answers ([PN532_COMMAND_INDATAEXCHANGE; 0x01; key_num; block_num]
             ++ firstn 6 key ++ uid)
          (PN532_COMMAND_INDATAEXCHANGE + 1 :: status :: rest) (device b) d' ->
  size rest <= 252 ->
  auth_mifare_classic_block_ uid block_num key_num key b
  = (Ret (status =? 0x00),
     mkBus d' (written b
                 ++ [command_frame ([PN532_COMMAND_INDATAEXCHANGE; 0x01; key_num;
                                     block_num] ++ firstn 6 key ++ uid);
                     nack_frame])).
Proof.
  intros Hans Hsize.
  destruct (exchange_run _ (status :: rest) _ b d' Hans) as (b1 & Hw & Hr);
    [rewrite size_cons; lia|].
  unfold auth_mifare_classic_block_. cbv zeta. rewrite <- app_assoc.
  erewrite bind_run by exact Hw. cbn [negb].
  erewrite bind_run by apply Hr. cbn [negb]. cbv beta iota. at_known.
  cbn [bind lift]. destruct (status =? 0x00); reflexivity.
Qed.

(** X9: a block write succeeds as soon as the tag answers at all; the
    status byte of the answer is not looked at. *)
Theorem write_block_ignores_status (block_num : Z) (data answer : list Z)
    (b : bus D) (d' : D) :
  answers ([PN532_COMMAND_INDATAEXCHANGE; 0x01; MIFARE_CMD_WRITE; block_num] ++ data)
          (PN532_COMMAND_INDATAEXCHANGE + 1 :: answer) (device b) d' ->
  size answer <= 253 ->
  write_mifare_classic_block_ block_num data b
  = (Ret true,
     mkBus d' (written b
                 ++ [command_frame ([PN532_COMMAND_INDATAEXCHANGE; 0x01;
                                     MIFARE_CMD_WRITE; block_num] ++ data);
                     nack_frame])).
Proof.
  intros Hans Hsize.
  destruct (exchange_run _ answer _ b d' Hans Hsize) as (b1 & Hw & Hr).
  unfold write_mifare_classic_block_. cbv zeta.
  erewrite bind_run by exact Hw. cbn [negb].
  erewrite bind_run by apply Hr. reflexivity.
Qed.

(** X10: the status byte of an answer is read without a look at the
    size of the answer.  When the tag answers with a well-formed frame
    that carries nothing behind the command echo, the block read and
    the authentication read the status outside the bounds of the
    vector. *)
Theorem empty_answer_is_read_out_of_range (uid key data0 : list Z)
    (block_num key_num : Z) (b b' : bus D) (d1 d2 : D) :
  answers [PN532_COMMAND_INDATAEXCHANGE; 0x01; MIFARE_CMD_READ; block_num]
          [PN532_COMMAND_INDATAEXCHANGE + 1] (device b) d1 ->
  answers ([PN532_COMMAND_INDATAEXCHANGE; 0x01; key_num; block_num]
             ++ firstn 6 key ++ uid)
          [PN532_COMMAND_INDATAEXCHANGE + 1] (device b') d2 ->
  fst (read_mifare_classic_block_ block_num data0 b) = OutOfRange
  /\ fst (auth_mifare_classic_block_ uid block_num key_num key b') = OutOfRange.
Proof.
  intros Hread Hauth. split.
  - destruct (exchange_run _ [] _ b d1 Hread) as (b1 & Hw & Hr);
      [rewrite size_nil; lia|].
    unfold read_mifare_classic_block_.
    erewrite bind_run by exact Hw. cbn [negb].
    erewrite bind_run by apply Hr. reflexivity.
  - destruct (exchange_run _ [] _ b' d2 Hauth) as (b1 & Hw & Hr);
      [rewrite size_nil; lia|].
    unfold auth_mifare_classic_block_. cbv zeta. rewrite <- app_assoc.
    erewrite bind_run by exact Hw. cbn [negb].
    erewrite bind_run by apply Hr. reflexivity.
Qed.

End Exchange.

(** ** Formatting *)

Section Formatting.
Context {D : Type} `{Transport D} `{Declarations}.

Lemma emits_for_each {A S : Type} (P : list Z -> Prop) (l : list A) (acc : S)
    (body : A -> S -> M (bus D) S) :
  (forall x acc, In x l -> emits P (body x acc)) ->
  emits P (for_each l acc body).
Proof.
  revert acc. induction l as [|x l IH]; intros acc Hbody; simpl.
  - apply emits_ret.
  - apply emits_bind; [apply Hbody; now left|].
    intros acc'. apply IH. intros y acc'' Hy. apply Hbody. now right.
Qed.

(** The frames that do not write block 0 or a block beyond 63. *)
Let on_the_tag (frame : list Z) : Prop :=
  forall block_num, written_block frame = Some block_num -> 1 <= block_num <= 63.

Lemma on_the_tag_nack : on_the_tag [0x00; 0x00; 0xFF; 0xFF; 0x00; 0x00].
Proof. intros block_num E. discriminate E. Qed.

Lemma on_the_tag_command (command one mifare_cmd block_num : Z) (rest : list Z) :
  (mifare_cmd = MIFARE_CMD_WRITE -> 1 <= block_num <= 63) ->
  on_the_tag (command_frame ([command; one; mifare_cmd; block_num] ++ rest)).
Proof.
  intros Hb blk. unfold command_frame, written_block. cbn [app].
  destruct rest as [|r [|r' rest]]; cbn [app];
    (destruct (command =? _); cbn [andb]; [|discriminate]);
    (destruct (Z.eqb_spec mifare_cmd MIFARE_CMD_WRITE) as [E|]; [|discriminate]);
    intros [= <-]; auto.
Qed.

Lemma emits_auth_on_the_tag (uid key : list Z) (block_num key_num : Z) :
  (key_num = MIFARE_CMD_WRITE -> 1 <= block_num <= 63) ->
  emits on_the_tag (auth_mifare_classic_block_ uid block_num key_num key).
Proof.
  intros Hb. apply emits_auth_mifare_classic_block_.
  - apply on_the_tag_nack.
  - now apply on_the_tag_command.
Qed.

Lemma emits_write_on_the_tag (block_num : Z) (data : list Z) :
  1 <= block_num <= 63 ->
  emits on_the_tag (write_mifare_classic_block_ block_num data).
Proof.
  intros Hb. apply emits_write_mifare_classic_block_.
  - apply on_the_tag_nack.
  - now apply on_the_tag_command.
Qed.

Lemma emits_write_or_flag (block_num : Z) (data : list Z) (error : bool) :
  1 <= block_num <= 63 ->
  emits on_the_tag (write_or_flag block_num data error).
Proof.
  intros Hb. unfold write_or_flag.
  apply emits_bind; [now apply emits_write_on_the_tag | intros; apply emits_ret].
Qed.

Lemma in_sector_indices (idx : Z) : In idx (map Z.of_nat (seq 0 16)) -> 0 <= idx < 16.
Proof.
  intros (k & <- & Hk%in_seq)%in_map_iff. lia.
Qed.

Lemma in_sector_starts (i : Z) :
  In i (map (fun k => 4 + 4 * Z.of_nat k) (seq 0 15)) -> 4 <= i <= 60.
Proof.
  intros (k & <- & Hk%in_seq)%in_map_iff. lia.
Qed.

Lemma emits_format_mifare_classic_mifare_ (uid : list Z) :
  emits on_the_tag (format_mifare_classic_mifare_ uid).
Proof.
  unfold format_mifare_classic_mifare_.
  apply emits_bind; [|intros; apply emits_ret].
  apply emits_for_each. intros idx error Hidx%in_sector_indices.
  apply emits_bind; [apply emits_auth_on_the_tag; lia|].
  intros authenticated. destruct (negb authenticated); [apply emits_ret|].
  apply emits_bind.
  - destruct (Z.eqb_spec idx 0) as [->|Hnz].
    + apply emits_write_or_flag; lia.
    + apply emits_bind; [apply emits_write_or_flag; lia|].
      intros. apply emits_write_or_flag; lia.
  - intros error'. apply emits_bind; [apply emits_write_or_flag; lia|].
    intros. apply emits_write_or_flag; lia.
Qed.

Lemma emits_format_mifare_classic_ndef_ (uid : list Z) :
  MIFARE_CMD_AUTH_B <> MIFARE_CMD_WRITE ->
  emits on_the_tag (format_mifare_classic_ndef_ uid).
Proof.
  intros Hcodes. unfold format_mifare_classic_ndef_.
  apply emits_bind; [apply emits_auth_on_the_tag; intros; contradiction|].
  intros authenticated. destruct (negb authenticated); [apply emits_ret|].
  apply emits_bind; [apply emits_write_on_the_tag; lia|].
  intros ok1. destruct (negb ok1); [apply emits_ret|].
  apply emits_bind; [apply emits_write_on_the_tag; lia|].
  intros ok2. destruct (negb ok2); [apply emits_ret|].
  apply emits_bind; [apply emits_write_on_the_tag; lia|].
  intros ok3. destruct (negb ok3); [apply emits_ret|].
  apply emits_bind; [|intros; apply emits_ret].
  apply emits_for_each. intros i [] Hi%in_sector_starts.
  apply emits_bind; [apply emits_auth_on_the_tag; intros; contradiction|].
  intros authenticated'. destruct (negb authenticated'); [apply emits_ret|].
  apply emits_bind.
  - destruct (i =? 4); apply emits_write_on_the_tag; lia.
  - intros _. apply emits_bind; [apply emits_write_on_the_tag; lia|].
    intros _. apply emits_bind; [apply emits_write_on_the_tag; lia|].
    intros _. apply emits_bind; [apply emits_write_on_the_tag; lia|].
    intros _. apply emits_ret.
Qed.

(** X11: cleaning and formatting never write block 0, the manufacturer
    block, and never address a block beyond 63: every block write that
    [clean_tag_] and [format_tag_] put on the wire, from any state of the
    bus, is for a block from 1 to 63.  The code of the authentication
    with key B is not the code of the block write. *)
Theorem format_stays_on_the_tag (uid : list Z) :
  MIFARE_CMD_AUTH_B <> MIFARE_CMD_WRITE ->
  emits (D := D)
    (fun frame => forall block_num,
         written_block frame = Some block_num -> 1 <= block_num <= 63)
    (clean_tag_ uid)
  /\ emits (D := D)
       (fun frame => forall block_num,
            written_block frame = Some block_num -> 1 <= block_num <= 63)
       (format_tag_ uid).
Proof.
  intros Hcodes. split.
  - unfold clean_tag_. cbv zeta. destruct (_ =? _).
    + apply emits_format_mifare_classic_mifare_.
    + apply emits_ret.
  - unfold format_tag_. cbv zeta. destruct (_ =? _).
    + now apply emits_format_mifare_classic_ndef_.
    + apply emits_ret.
Qed.

End Formatting.

Section WrittenBlock.
Context `{Declarations}.

(** [written_block] recognises the frames of
    [write_mifare_classic_block_]. *)
Lemma written_block_write (block_num : Z) (data : list Z) :
  written_block
    (command_frame ([PN532_COMMAND_INDATAEXCHANGE; 0x01; MIFARE_CMD_WRITE; block_num]
                      ++ data))
  = Some block_num.
Proof.
  unfold command_frame, written_block. cbn [app].
  destruct data as [|x [|y data]]; cbn [app]; now rewrite !Z.eqb_refl.
Qed.

End WrittenBlock.

(** ** A bus that does not answer *)

Section Unresponsive.
Context {D : Type} `{Transport D} `{Declarations}.
Hypothesis no_answer : unresponsive D.

Lemma read_data_fails (data : list Z) (len : Z) (b : bus D) :
  exists data' d', read_data data len b = (Ret (false, data'), mkBus d' (written b)).
Proof.
  unfold read_data. pose proof (no_answer data len (device b)) as Hn.
  destruct (dev_read data len (device b)) as [[ok data'] d']. cbn in Hn. subst ok.
  now exists data', d'.
Qed.

Lemma write_command_fails (data : list Z) (b : bus D) :
  exists d', write_command_ data b
             = (Ret false, mkBus d' (written b ++ [command_frame data])).
Proof.
  unfold write_command_, write_data. erewrite bind_run by reflexivity.
  unfold read_ack_.
  destruct (read_data_fails [] 6
              (mkBus (dev_write (command_frame data) (device b))
                     (written b ++ [command_frame data]))) as (data' & d' & E).
  erewrite bind_run by exact E. now exists d'.
Qed.

Lemma read_response_length_fails (b : bus D) :
  exists d', read_response_length_ b = (Ret 0, mkBus d' (written b)).
Proof.
  unfold read_response_length_.
  destruct (read_data_fails [] 6 b) as (data' & d' & E).
  erewrite bind_run by exact E. now exists d'.
Qed.

Lemma read_response_fails (command : Z) (data : list Z) (b : bus D) :
  exists d', read_response_ command data b = (Ret (false, data), mkBus d' (written b)).
Proof.
  unfold read_response_.
  destruct (read_response_length_fails b) as (d' & E).
  erewrite bind_run by exact E. now exists d'.
Qed.

(** X12: on a bus on which no read succeeds, a command is written and
    reported as not acknowledged, the length probe returns 0, and
    [read_response_] fails and leaves the caller's vector alone; neither
    of the two writes a retransmit request. *)
Theorem frame_layer_without_answer (command : Z) (data : list Z) (b : bus D) :
  fst (write_command_ data b) = Ret false
  /\ fst (read_response_length_ b) = Ret 0
  /\ written (snd (read_response_length_ b)) = written b
  /\ fst (read_response_ command data b) = Ret (false, data)
  /\ written (snd (read_response_ command data b)) = written b.
Proof.
  destruct (write_command_fails data b) as (d1 & E1).
  destruct (read_response_length_fails b) as (d2 & E2).
  destruct (read_response_fails command data b) as (d3 & E3).
  rewrite E1, E2, E3. repeat split.
Qed.

Lemma auth_fails (uid key : list Z) (block_num key_num : Z) (b : bus D) :
  fst (auth_mifare_classic_block_ uid block_num key_num key b) = Ret false.
Proof.
  unfold auth_mifare_classic_block_. cbv zeta.
  destruct (write_command_fails
              (([PN532_COMMAND_INDATAEXCHANGE; 0x01; key_num; block_num]
                  ++ firstn 6 key) ++ uid) b) as (d' & E).
  erewrite bind_run by exact E. reflexivity.
Qed.

End Unresponsive.

Section Cleaning.
Context {D : Type} `{Transport D} `{Declarations}.

Lemma for_each_skipped {A S : Type} (l : list A) (acc : S)
    (body : A -> S -> M (bus D) S) (b : bus D) :
  (forall x b', fst (body x acc b') = Ret acc) ->
  fst (for_each l acc body b) = Ret acc.
Proof.
  intros Hbody. revert b. induction l as [|x l IH]; intros b; simpl; [reflexivity|].
  unfold bind. specialize (Hbody x b).
  destruct (body x acc b) as [[acc'|] b']; cbn in Hbody; [|discriminate].
  injection Hbody as ->. apply IH.
Qed.

(** X13: [clean_tag_] reports success for a MIFARE Classic tag on which
    it could not authenticate a single sector: a failed authentication
    skips the sector without marking an error. *)
Theorem clean_succeeds_without_access (uid : list Z) (b : bus D) :
  guess_tag_type (size uid) = TAG_TYPE_MIFARE_CLASSIC ->
  (forall block_num b',
      fst (auth_mifare_classic_block_ uid block_num MIFARE_CMD_AUTH_B DEFAULT_KEY b')
      = Ret false) ->
  fst (clean_tag_ uid b) = Ret true.
Proof.
  intros Htype Hauth. unfold clean_tag_. rewrite Htype, Z.eqb_refl.
  unfold format_mifare_classic_mifare_. unfold bind at 1.
  match goal with
  | |- context [for_each ?l false ?body b] =>
      assert (Hbody : forall idx b0, fst (body idx false b0) = Ret false);
      [|pose proof (for_each_skipped l false body b Hbody) as Hskip]
  end.
  - intros idx b0. unfold bind at 1.
    specialize (Hauth (4 * idx + 3) b0).
    destruct (auth_mifare_classic_block_ _ _ _ _ b0) as [[a|] b1];
      cbn in Hauth; [|discriminate].
    injection Hauth as ->. reflexivity.
  - destruct (for_each _ false _ b) as [[error|] b']; cbn in Hskip;
      [|discriminate].
    injection Hskip as ->. reflexivity.
Qed.

End Cleaning.

(** ** Writing *)

Section Writing.
Context {D : Type} `{Transport D} `{Declarations}.

Lemma range_in_bounds (v data : list Z) (first last : Z) :
  range v first last = Ret data -> 0 <= first <= last /\ last <= size v.
Proof.
  unfold range. intros E.
  destruct (0 <=? first) eqn:E1; [|discriminate].
  destruct (first <=? last) eqn:E2; [|discriminate].
  destruct (last <=? size v) eqn:E3; [|discriminate].
  apply Z.leb_le in E1, E2, E3. lia.
Qed.

Lemma write_tag_loop_never_ends (fuel : nat) (uid encoded : list Z)
    (index current_block : Z) (b : bus D) :
  size encoded mod 16 <> 0 ->
  index mod 16 = 0 ->
  0 <= index <= size encoded ->
  size encoded - index <= Z.of_nat fuel ->
  fst (write_tag_loop fuel uid encoded index current_block b) <> Ret true.
Proof.
  intros Hsize. revert index current_block b.
  induction fuel as [|fuel IH]; intros index current_block b Hmod Hindex Hfuel.
  - exfalso. assert (index = size encoded) by lia. subst index. contradiction.
  - simpl.
    replace (index <? size encoded) with true
      by (symmetry; apply Z.ltb_lt;
          assert (index <> size encoded) by (intros ->; contradiction); lia).
    cbn [negb]. unfold bind at 1.
    destruct ((if nfc.mifare_classic_is_first_block current_block
               then auth_mifare_classic_block_ uid current_block MIFARE_CMD_AUTH_A
                      NDEF_KEY
               else ret true) b) as [[authenticated|] b1]; [|discriminate].
    destruct authenticated; cbn [negb]; [|discriminate].
    unfold bind at 1, lift at 1.
    destruct (range encoded index (index + nfc.BLOCK_SIZE)) as [data|] eqn:Hrange;
      [|discriminate].
    apply range_in_bounds in Hrange. unfold nfc.BLOCK_SIZE in *.
    unfold bind at 1.
    destruct (write_mifare_classic_block_ current_block data b1) as [[ok|] b2];
      [|discriminate].
    destruct ok; cbn [negb]; [|discriminate].
    apply IH; [mod_lia | lia | lia].
Qed.

(** X14: [write_tag_] of pn532.cpp cuts 16 bytes for every block out of a
    buffer that it does not fill up to a block boundary.  Whenever the
    message with its TLV header and terminator is not a multiple of 16
    bytes long, the write cannot return success on any device: it
    returns failure, or the cut for the last block lies outside the
    bounds of the buffer. *)
Theorem write_tag_needs_whole_blocks (uid message : list Z) (b : bus D) :
  size (write_tag_buffer message) mod 16 <> 0 ->
  fst (write_tag_ uid message b) <> Ret true.
Proof.
  intros Hsize. unfold write_tag_.
  pose proof (size_nonneg (write_tag_buffer message)).
  apply write_tag_loop_never_ends; [exact Hsize | reflexivity | lia | lia].
Qed.

(** X15: [write_mifare_classic_tag_] fills its buffer with zeros up to a
    block boundary: the buffer is a whole number of blocks long, and
    every cut of 16 bytes that the block loop makes from it lies inside
    it. *)
Theorem write_mifare_classic_tag_whole_blocks (message : list Z) (index : Z) :
  size message < 4294967296 ->
  let encoded := write_mifare_classic_tag_buffer message in
  size encoded = nfc.get_mifare_classic_buffer_size (size message)
  /\ size encoded mod 16 = 0
  /\ (0 <= index < size encoded -> index mod 16 = 0 ->
      exists data,
        range encoded index (index + nfc.MIFARE_CLASSIC_BLOCK_SIZE) = Ret data
        /\ size data = 16).
Proof.
  intros Hmsg encoded. pose proof (size_nonneg message) as Hn.
  assert (Hsize : size encoded = nfc.get_mifare_classic_buffer_size (size message)).
  { subst encoded. unfold write_mifare_classic_tag_buffer.
    replace (u32 (size message)) with (size message) by mod_lia.
    set (n := nfc.get_mifare_classic_buffer_size (size message)).
    assert (0 <= n) by (subst n; unfold nfc.get_mifare_classic_buffer_size;
                        destruct (size message <? 255); mod_lia).
    unfold resize, size. rewrite length_app, length_firstn, repeat_length. lia. }
  assert (Hmod : size encoded mod 16 = 0).
  { rewrite Hsize. unfold nfc.get_mifare_classic_buffer_size.
    apply Z.mod_mul. lia. }
  split; [exact Hsize|]. split; [exact Hmod|].
  intros Hindex Hindex16. unfold nfc.MIFARE_CLASSIC_BLOCK_SIZE, range.
  replace (0 <=? index) with true by (symmetry; apply Z.leb_le; lia).
  replace (index <=? index + 16) with true by (symmetry; apply Z.leb_le; lia).
  replace (index + 16 <=? size encoded) with true
    by (symmetry; apply Z.leb_le; mod_lia).
  cbn [andb]. eexists. split; [reflexivity|].
  unfold size. rewrite length_firstn, length_skipn.
  assert (index + 16 <= size encoded) by mod_lia.
  unfold size in *. lia.
Qed.

(** X16: once sector 0 is set up, [format_mifare_classic_ndef_] does not
    report a failure any more, whatever happens in the sectors 1 to
    15. *)
Theorem format_ndef_best_effort (uid : list Z) (b b1 b2 b3 b4 : bus D) :
  auth_mifare_classic_block_ uid 0 MIFARE_CMD_AUTH_B DEFAULT_KEY b = (Ret true, b1) ->
  write_mifare_classic_block_ 1 sector_buffer_1 b1 = (Ret true, b2) ->
  write_mifare_classic_block_ 2 sector_buffer_2 b2 = (Ret true, b3) ->
  write_mifare_classic_block_ 3 sector_buffer_3 b3 = (Ret true, b4) ->
  forall ok, fst (format_mifare_classic_ndef_ uid b) = Ret ok -> ok = true.
Proof.
  intros H0' H1 H2 H3 ok. unfold format_mifare_classic_ndef_.
  erewrite bind_run by exact H0'. cbn [negb].
  erewrite bind_run by exact H1. cbn [negb].
  erewrite bind_run by exact H2. cbn [negb].
  erewrite bind_run by exact H3. cbn [negb].
  unfold bind at 1. destruct (for_each _ tt _ b4) as [[[]|] b5]; cbn.
  - now intros [= <-].
  - discriminate.
Qed.

End Writing.

(** ** Binary sensors and debouncing *)

Lemma process_loop_true (data uid : list Z) :
  length data = length uid ->
  (process_loop data uid = true <-> data = uid).
Proof.
  revert uid. induction data as [|x data IH]; intros [|y uid] Hlen;
    try discriminate Hlen; simpl.
  - tauto.
  - destruct (Z.eqb_spec x y) as [->|Hxy]; cbn [negb].
    + rewrite IH by (simpl in Hlen; lia). split; [now intros -> | now intros [= ->]].
    + split; [discriminate | intros [= E _]; contradiction].
Qed.

Lemma sensor_process_eq (sensor : PN532BinarySensor) (data : list Z) :
  (fst (PN532BinarySensor_process sensor data) = true <-> data = uid_ sensor)
  /\ snd (PN532BinarySensor_process sensor data)
     = if fst (PN532BinarySensor_process sensor data)
       then mkSensor (uid_ sensor) true (published sensor ++ [true])
       else sensor.
Proof.
  unfold PN532BinarySensor_process, size.
  destruct (Z.eqb_spec (Z.of_nat (length data)) (Z.of_nat (length (uid_ sensor))))
    as [Hlen|Hlen]; cbn [negb].
  - apply Nat2Z.inj in Hlen.
    pose proof (process_loop_true data (uid_ sensor) Hlen) as Hp.
    destruct (process_loop data (uid_ sensor)); cbn [negb fst snd].
    + split; [tauto | reflexivity].
    + split; [|reflexivity]. split; [discriminate|].
      intros E. apply Hp in E. discriminate E.
  - cbn [fst snd]. split; [|reflexivity]. split; [discriminate|].
    intros ->. contradiction.
Qed.



Lemma process_sensors_uids (sensors : list PN532BinarySensor) (nfcid : list Z)
    (report : bool) :
  map uid_ (snd (process_sensors sensors nfcid report)) = map uid_ sensors.
Proof.
  revert report. induction sensors as [|sensor sensors IH]; intros report; simpl;
    [reflexivity|].
  pose proof (sensor_process_eq sensor nfcid) as [_ Hs].
  destruct (PN532BinarySensor_process sensor nfcid) as [hit sensor'].
  cbn [fst snd] in Hs.
  specialize (IH (if hit then false else report)).
  destruct (process_sensors sensors nfcid (if hit then false else report))
    as [report' sensors'].
  cbn [snd] in IH |- *. cbn [map]. rewrite IH. f_equal.
  rewrite Hs. now destruct hit.
Qed.




(** ** The detection loop, path by path *)

Section LoopPaths.
Context {D : Type} `{Transport D} `{Declarations}.

Lemma on_link_run {A} (c : M (bus D) A) (this : PN532 D) (r : outcome A) (b' : bus D) :
  c (link this) = (r, b') ->
  on_link c this
  = (r, mkPN532 b' (requested_read_ this) (current_uid_ this) (next_task_ this)
          (next_task_continuous_ this) (next_task_message_to_write_ this)
          (binary_sensors_ this) (triggers_ this)).
Proof. intros E. unfold on_link. now rewrite E. Qed.

Lemma turn_off_rf_writes (b : bus D) :
  written (snd (turn_off_rf_ b))
  = written b ++ [command_frame [PN532_COMMAND_RFCONFIGURATION; 0x01; 0x00]].
Proof.
  unfold turn_off_rf_, bind.
  pose proof (write_command_wire
                [PN532_COMMAND_RFCONFIGURATION; 0x01; 0x00] b) as Hw.
  destruct (write_command_ _ b) as [[ok|] b']; exact Hw.
Qed.

(** X20: a cycle without a tag.  When the response cannot be read, or
    reports another number of targets than 1, [loop] forgets the last
    UID, so that the next tag is processed even if it is the same one;
    it keeps the pending task, and writes the command that turns the RF
    field off. *)
Theorem loop_without_tag (this : PN532 D) (success : bool) (read : list Z)
    (b1 : bus D) :
  requested_read_ this = true ->
  read_response_ PN532_COMMAND_INLISTPASSIVETARGET [] (link this)
    = (Ret (success, read), b1) ->
  (success = false \/ exists n, at_ read 0 = Ret n /\ n <> 1) ->
  loop this
  = (fst (turn_off_rf_ b1),
     mkPN532 (snd (turn_off_rf_ b1)) false [] (next_task_ this)
       (next_task_continuous_ this) (next_task_message_to_write_ this)
       (binary_sensors_ this) (triggers_ this))
  /\ written (snd (turn_off_rf_ b1))
     = written b1 ++ [command_frame [PN532_COMMAND_RFCONFIGURATION; 0x01; 0x00]].
Proof.
  intros Hreq Hresp Hnone. split; [|apply turn_off_rf_writes].
  unfold loop. unfold bind at 1, get. rewrite Hreq. cbn [negb].
  erewrite bind_run by (apply on_link_run; exact Hresp).
  unfold bind at 1, set_requested_read_. cbn [link requested_read_ current_uid_
    next_task_ next_task_continuous_ next_task_message_to_write_ binary_sensors_
    triggers_].
  destruct success; cbn [negb].
  - destruct Hnone as [Hf | (n & Hn & Hne)]; [discriminate Hf|].
    unfold bind at 1, lift at 1. rewrite Hn.
    replace (n =? 1) with false by (symmetry; apply Z.eqb_neq; exact Hne).
    cbn [negb]. unfold bind at 1, set_current_uid_.
    unfold on_link. cbn [link requested_read_ current_uid_ next_task_
      next_task_continuous_ next_task_message_to_write_ binary_sensors_ triggers_].
    destruct (turn_off_rf_ b1) as [r b2]. reflexivity.
  - unfold bind at 1, set_current_uid_.
    unfold on_link. cbn [link requested_read_ current_uid_ next_task_
      next_task_continuous_ next_task_message_to_write_ binary_sensors_ triggers_].
    destruct (turn_off_rf_ b1) as [r b2]. reflexivity.
Qed.

Lemma loop_detects (this : PN532 D) (read nfcid : list Z) (nfcid_length : Z)
    (b1 : bus D) :
  requested_read_ this = true ->
  read_response_ PN532_COMMAND_INLISTPASSIVETARGET [] (link this)
    = (Ret (true, read), b1) ->
  at_ read 0 = Ret 1 ->
  at_ read 5 = Ret nfcid_length ->
  range read 6 (6 + nfcid_length) = Ret nfcid ->
  loop this
  = (let sensors := snd (process_sensors (binary_sensors_ this) nfcid true) in
     if (size nfcid =? size (current_uid_ this))
        && same_uid_loop nfcid (current_uid_ this) false
     then (Ret tt,
           mkPN532 b1 false (current_uid_ this) (next_task_ this)
             (next_task_continuous_ this) (next_task_message_to_write_ this)
             sensors (triggers_ this))
     else (tag <- on_link (read_tag_ nfcid) ;;
           returned <- run_task nfcid tag ;;
           if returned then ret tt else
           next_task_continuous <- get next_task_continuous_ ;;
           (if negb next_task_continuous then set_next_task_ READ else ret tt) ;;
           on_link turn_off_rf_)
            (mkPN532 b1 false nfcid (next_task_ this)
               (next_task_continuous_ this) (next_task_message_to_write_ this)
               sensors (triggers_ this))).
Proof.
  intros Hreq Hresp Hcount Hlength Hrange.
  pose proof (range_in_bounds _ _ _ _ Hrange) as Hbounds.
  unfold loop. unfold bind at 1, get. rewrite Hreq. cbn [negb].
  erewrite bind_run by (apply on_link_run; exact Hresp).
  unfold bind at 1, set_requested_read_. cbn [negb link requested_read_ current_uid_
    next_task_ next_task_continuous_ next_task_message_to_write_ binary_sensors_
    triggers_].
  unfold bind at 1, lift at 1. rewrite Hcount. cbn [Z.eqb Pos.eqb negb].
  unfold bind at 1, lift at 1. rewrite Hlength.
  unfold bind at 1, lift at 1. rewrite Hrange.
  replace (size read <? 6 + nfcid_length) with false
    by (symmetry; apply Z.ltb_ge; lia).
  unfold bind at 1. cbn [binary_sensors_].
  destruct (process_sensors (binary_sensors_ this) nfcid true) as [report sensors].
  cbn [snd]. cbv zeta.
  unfold bind at 1, set_binary_sensors_. cbn [link requested_read_ current_uid_
    next_task_ next_task_continuous_ next_task_message_to_write_ binary_sensors_
    triggers_].
  unfold bind at 1. cbn [current_uid_].
  destruct ((size nfcid =? size (current_uid_ this))
            && same_uid_loop nfcid (current_uid_ this) false); [reflexivity|].
  unfold bind at 1, set_current_uid_. cbn [link requested_read_ current_uid_
    next_task_ next_task_continuous_ next_task_message_to_write_ binary_sensors_
    triggers_].
  reflexivity.
Qed.

Lemma run_task_read (nfcid : list Z) (tag : nfc.NfcTag) (s : PN532 D) :
  next_task_ s = READ ->
  run_task nfcid tag s
  = (Ret false,
     mkPN532 (link s) (requested_read_ s) (current_uid_ s) (next_task_ s)
       (next_task_continuous_ s) (next_task_message_to_write_ s) (binary_sensors_ s)
       (map (fun trigger => PN532Trigger_process trigger tag) (triggers_ s))).
Proof.
  intros Htask. destruct s as [l r c t nc m bs ts]. cbn [link requested_read_ current_uid_ next_task_ next_task_continuous_
    next_task_message_to_write_ binary_sensors_ triggers_] in *.
  subst t. reflexivity.
Qed.

Lemma run_task_operation (nfcid : list Z) (tag : nfc.NfcTag) (s : PN532 D)
    (ok : bool) (b3 : bus D) :
  (next_task_ s = CLEAN /\ clean_tag_ nfcid (link s) = (Ret ok, b3)
   \/ next_task_ s = FORMAT /\ format_tag_ nfcid (link s) = (Ret ok, b3)
   \/ next_task_ s = ERASE /\ erase_tag_ nfcid (link s) = (Ret ok, b3)) ->
  run_task nfcid tag s
  = (Ret false,
     mkPN532 b3 (requested_read_ s) (current_uid_ s) (next_task_ s)
       (next_task_continuous_ s) (next_task_message_to_write_ s) (binary_sensors_ s)
       (triggers_ s)).
Proof.
  intros Htask. destruct s as [l r c t nc m bs ts]. cbn [link requested_read_ current_uid_ next_task_ next_task_continuous_
    next_task_message_to_write_ binary_sensors_ triggers_] in *.
  unfold run_task. unfold bind at 1, get at 1. cbn [next_task_].
  destruct Htask as [[-> Hop] | [[-> Hop] | [-> Hop]]];
    (erewrite bind_run by (apply on_link_run; exact Hop)); reflexivity.
Qed.

Lemma run_task_write_unformatted (nfcid message : list Z) (tag : nfc.NfcTag)
    (s : PN532 D) (b3 : bus D) :
  next_task_ s = WRITE ->
  next_task_message_to_write_ s = Some message ->
  nfc.has_ndef_message tag = false ->
  format_tag_ nfcid (link s) = (Ret false, b3) ->
  run_task nfcid tag s
  = (match fst (turn_off_rf_ b3) with Ret _ => Ret true | OutOfRange => OutOfRange end,
     mkPN532 (snd (turn_off_rf_ b3)) (requested_read_ s) (current_uid_ s) (next_task_ s)
       (next_task_continuous_ s) (next_task_message_to_write_ s) (binary_sensors_ s)
       (triggers_ s)).
Proof.
  intros Htask Hmsg Hndef Hformat.
  destruct s as [l r c t nc m bs ts]. cbn [link requested_read_ current_uid_ next_task_ next_task_continuous_
    next_task_message_to_write_ binary_sensors_ triggers_] in *.
  subst t m. unfold run_task.
  unfold bind at 1, get at 1. cbn [next_task_].
  unfold bind at 1, get at 1. cbn [next_task_message_to_write_].
  rewrite Hndef.
  erewrite bind_run by (apply on_link_run; exact Hformat). cbn [negb].
  unfold bind, on_link, ret. cbn [link requested_read_ current_uid_ next_task_
    next_task_continuous_ next_task_message_to_write_ binary_sensors_ triggers_].
  destruct (turn_off_rf_ b3) as [[[]|] b4]; reflexivity.
Qed.

Lemma loop_tail (s : PN532 D) :
  (next_task_continuous <- get next_task_continuous_ ;;
   (if negb next_task_continuous then set_next_task_ READ else ret tt) ;;
   on_link turn_off_rf_) s
  = (fst (turn_off_rf_ (link s)),
     mkPN532 (snd (turn_off_rf_ (link s))) (requested_read_ s) (current_uid_ s)
       (if next_task_continuous_ s then next_task_ s else READ)
       (next_task_continuous_ s) (next_task_message_to_write_ s) (binary_sensors_ s)
       (triggers_ s)).
Proof.
  destruct s as [l r c t nc m bs ts].
  unfold bind, get, set_next_task_, ret, on_link.
  cbn [negb link requested_read_ current_uid_ next_task_ next_task_continuous_
       next_task_message_to_write_ binary_sensors_ triggers_].
  destruct nc;
    cbn [negb link requested_read_ current_uid_ next_task_ next_task_continuous_
         next_task_message_to_write_ binary_sensors_ triggers_];
    destruct (turn_off_rf_ l) as [r' b']; reflexivity.
Qed.

(** X21: a suppressed tag.  When the UID passes the suppression test,
    [loop] ends at once: the tag is not read, no trigger fires, the last
    UID and the pending task stay, and nothing is written after the
    retransmit request of the response; in particular the RF field is
    not turned off.  The binary sensors have seen the UID. *)
Theorem loop_suppressed_tag (this : PN532 D) (read nfcid : list Z) (nfcid_length : Z)
    (b1 : bus D) :
  requested_read_ this = true ->
  read_response_ PN532_COMMAND_INLISTPASSIVETARGET [] (link this)
    = (Ret (true, read), b1) ->
  at_ read 0 = Ret 1 ->
  at_ read 5 = Ret nfcid_length ->
  range read 6 (6 + nfcid_length) = Ret nfcid ->
  (size nfcid =? size (current_uid_ this))
    && same_uid_loop nfcid (current_uid_ this) false = true ->
  loop this
  = (Ret tt,
     mkPN532 b1 false (current_uid_ this) (next_task_ this)
       (next_task_continuous_ this) (next_task_message_to_write_ this)
       (snd (process_sensors (binary_sensors_ this) nfcid true)) (triggers_ this)).
Proof.
  intros Hreq Hresp Hcount Hlength Hrange Htest.
  rewrite (loop_detects this read nfcid nfcid_length b1) by assumption.
  cbv zeta. rewrite Htest. reflexivity.
Qed.

(** X22: a new tag with the task READ.  Every trigger fires once, with
    the tag that [read_tag_] returned; the UID becomes the last UID; the
    task stays READ; the RF field is turned off. *)
Theorem loop_reads_new_tag (this : PN532 D) (read nfcid : list Z) (nfcid_length : Z)
    (tag : nfc.NfcTag) (b1 b2 : bus D) :
  requested_read_ this = true ->
  read_response_ PN532_COMMAND_INLISTPASSIVETARGET [] (link this)
    = (Ret (true, read), b1) ->
  at_ read 0 = Ret 1 ->
  at_ read 5 = Ret nfcid_length ->
  range read 6 (6 + nfcid_length) = Ret nfcid ->
  (size nfcid =? size (current_uid_ this))
    && same_uid_loop nfcid (current_uid_ this) false = false ->
  next_task_ this = READ ->
  read_tag_ nfcid b1 = (Ret tag, b2) ->
  loop this
  = (fst (turn_off_rf_ b2),
     mkPN532 (snd (turn_off_rf_ b2)) false nfcid READ
       (next_task_continuous_ this) (next_task_message_to_write_ this)
       (snd (process_sensors (binary_sensors_ this) nfcid true))
       (map (fun trigger => PN532Trigger_process trigger tag) (triggers_ this))).
Proof.
  intros Hreq Hresp Hcount Hlength Hrange Htest Htask Htag.
  rewrite (loop_detects this read nfcid nfcid_length b1) by assumption.
  cbv zeta. rewrite Htest.
  erewrite bind_run by (apply on_link_run; cbn [link]; exact Htag).
  erewrite bind_run by (apply run_task_read; cbn [next_task_]; exact Htask).
  rewrite loop_tail.
  cbn [link requested_read_ current_uid_ next_task_ next_task_continuous_
       next_task_message_to_write_ binary_sensors_ triggers_].
  rewrite Htask. now destruct (next_task_continuous_ this).
Qed.

(** X23: a one-shot CLEAN, FORMAT or ERASE is consumed by the first new
    tag, whether or not the operation succeeded: afterwards the task is
    READ, unless the continuous flag is set, and no trigger has fired. *)
Theorem loop_consumes_one_shot_task (this : PN532 D) (read nfcid : list Z)
    (nfcid_length : Z) (tag : nfc.NfcTag) (ok : bool) (b1 b2 b3 : bus D) :
  requested_read_ this = true ->
  read_response_ PN532_COMMAND_INLISTPASSIVETARGET [] (link this)
    = (Ret (true, read), b1) ->
  at_ read 0 = Ret 1 ->
  at_ read 5 = Ret nfcid_length ->
  range read 6 (6 + nfcid_length) = Ret nfcid ->
  (size nfcid =? size (current_uid_ this))
    && same_uid_loop nfcid (current_uid_ this) false = false ->
  read_tag_ nfcid b1 = (Ret tag, b2) ->
  (next_task_ this = CLEAN /\ clean_tag_ nfcid b2 = (Ret ok, b3)
   \/ next_task_ this = FORMAT /\ format_tag_ nfcid b2 = (Ret ok, b3)
   \/ next_task_ this = ERASE /\ erase_tag_ nfcid b2 = (Ret ok, b3)) ->
  loop this
  = (fst (turn_off_rf_ b3),
     mkPN532 (snd (turn_off_rf_ b3)) false nfcid
       (if next_task_continuous_ this then next_task_ this else READ)
       (next_task_continuous_ this) (next_task_message_to_write_ this)
       (snd (process_sensors (binary_sensors_ this) nfcid true))
       (triggers_ this)).
Proof.
  intros Hreq Hresp Hcount Hlength Hrange Htest Htag Htask.
  rewrite (loop_detects this read nfcid nfcid_length b1) by assumption.
  cbv zeta. rewrite Htest.
  erewrite bind_run by (apply on_link_run; cbn [link]; exact Htag).
  erewrite bind_run
    by (apply (run_task_operation nfcid tag _ ok b3); cbn [next_task_ link];
        exact Htask).
  rewrite loop_tail. reflexivity.
Qed.

(** X24: a WRITE for a tag without an NDEF message formats the tag
    first.  When the formatting fails, the message is not written, the
    RF field is turned off, and the task stays WRITE with its message,
    also when it is a one-shot task. *)
Theorem loop_keeps_write_after_failed_format (this : PN532 D)
    (read nfcid message : list Z) (nfcid_length : Z) (tag : nfc.NfcTag)
    (b1 b2 b3 : bus D) :
  requested_read_ this = true ->
  read_response_ PN532_COMMAND_INLISTPASSIVETARGET [] (link this)
    = (Ret (true, read), b1) ->
  at_ read 0 = Ret 1 ->
  at_ read 5 = Ret nfcid_length ->
  range read 6 (6 + nfcid_length) = Ret nfcid ->
  (size nfcid =? size (current_uid_ this))
    && same_uid_loop nfcid (current_uid_ this) false = false ->
  read_tag_ nfcid b1 = (Ret tag, b2) ->
  nfc.has_ndef_message tag = false ->
  next_task_ this = WRITE ->
  next_task_message_to_write_ this = Some message ->
  format_tag_ nfcid b2 = (Ret false, b3) ->
  loop this
  = (fst (turn_off_rf_ b3),
     mkPN532 (snd (turn_off_rf_ b3)) false nfcid WRITE
       (next_task_continuous_ this) (Some message)
       (snd (process_sensors (binary_sensors_ this) nfcid true))
       (triggers_ this))
  /\ written (snd (turn_off_rf_ b3))
     = written b3 ++ [command_frame [PN532_COMMAND_RFCONFIGURATION; 0x01; 0x00]].
Proof.
  intros Hreq Hresp Hcount Hlength Hrange Htest Htag Hndef Htask Hmsg Hformat.
  split; [|apply turn_off_rf_writes].
  rewrite (loop_detects this read nfcid nfcid_length b1) by assumption.
  cbv zeta. rewrite Htest.
  erewrite bind_run by (apply on_link_run; cbn [link]; exact Htag).
  unfold bind at 1.
  rewrite (run_task_write_unformatted nfcid message tag _ b3)
    by (cbn [next_task_ next_task_message_to_write_ link]; assumption).
  cbn [link requested_read_ current_uid_ next_task_ next_task_continuous_
       next_task_message_to_write_ binary_sensors_ triggers_].
  rewrite Htask, Hmsg.
  destruct (turn_off_rf_ b3) as [[[]|] b4]; reflexivity.
Qed.

End LoopPaths.

(** ** What the detection loop leaves alone *)

Section LoopFrame.
Context {D : Type} `{Transport D} `{Declarations}.

Lemma loop_frame_refl (s : PN532 D) : loop_frame s s.
Proof. unfold loop_frame. repeat split; auto. Qed.

Lemma loop_frame_trans (s1 s2 s3 : PN532 D) :
  loop_frame s1 s2 -> loop_frame s2 s3 -> loop_frame s1 s3.
Proof.
  unfold loop_frame.
  intros (C1 & M1 & U1 & T1 & K1) (C2 & M2 & U2 & T2 & K2).
  repeat split; try congruence.
  destruct K2 as [K2 | [K2 C]]; destruct K1 as [K1 | [K1 C']].
  - left. congruence.
  - right. split; congruence.
  - right. split; congruence.
  - right. split; congruence.
Qed.

Lemma keeps_ret {A} (a : A) : keeps (S := PN532 D) loop_frame (ret a).
Proof. intros s. apply loop_frame_refl. Qed.

Lemma keeps_lift {A} (o : outcome A) : keeps (S := PN532 D) loop_frame (lift o).
Proof. intros s. apply loop_frame_refl. Qed.

Lemma keeps_get {A} (field : PN532 D -> A) : keeps loop_frame (get field).
Proof. intros s. apply loop_frame_refl. Qed.

Lemma keeps_on_link {A} (c : M (bus D) A) : keeps loop_frame (on_link c).
Proof.
  intros s. unfold on_link. destruct (c (link s)) as [r b].
  unfold loop_frame. cbn. repeat split; auto.
Qed.

Lemma keeps_set_requested_read_ (v : bool) : keeps (S := PN532 D) loop_frame (set_requested_read_ v).
Proof. intros s. unfold loop_frame. cbn. repeat split; auto. Qed.

Lemma keeps_set_current_uid_ (v : list Z) : keeps (S := PN532 D) loop_frame (set_current_uid_ v).
Proof. intros s. unfold loop_frame. cbn. repeat split; auto. Qed.

Lemma keeps_bind {A B} (c : M (PN532 D) A) (k : A -> M (PN532 D) B) :
  keeps loop_frame c -> (forall a, keeps loop_frame (k a)) ->
  keeps loop_frame (bind c k).
Proof.
  intros Hc Hk s. unfold bind. specialize (Hc s).
  destruct (c s) as [[a|] s1]; cbn [snd] in Hc |- *; [|exact Hc].
  eapply loop_frame_trans; [exact Hc | apply Hk].
Qed.

Lemma keeps_run_task (nfcid : list Z) (tag : nfc.NfcTag) :
  keeps loop_frame (run_task nfcid tag).
Proof.
  unfold run_task. apply keeps_bind; [apply keeps_get|]. intros [| | | |].
  - intros s. unfold bind, get, set_triggers_, ret. cbn.
    unfold loop_frame. cbn. rewrite length_map. repeat split; auto.
  - apply keeps_bind; [apply keeps_on_link | intros; apply keeps_ret].
  - apply keeps_bind; [apply keeps_on_link | intros; apply keeps_ret].
  - apply keeps_bind; [apply keeps_on_link | intros; apply keeps_ret].
  - apply keeps_bind; [apply keeps_get|]. intros [message|]; [|apply keeps_ret].
    apply keeps_bind.
    + destruct (nfc.has_ndef_message tag); [apply keeps_ret | apply keeps_on_link].
    + intros formatted. destruct (negb formatted);
        (apply keeps_bind; [apply keeps_on_link | intros; apply keeps_ret]).
Qed.

Lemma keeps_loop_tail :
  keeps (S := PN532 D) loop_frame
    (next_task_continuous <- get next_task_continuous_ ;;
     (if negb next_task_continuous then set_next_task_ READ else ret tt) ;;
     on_link turn_off_rf_).
Proof.
  intros s. rewrite loop_tail. unfold loop_frame. cbn.
  repeat split; auto.
  destruct (next_task_continuous_ s); [now left | right; now split].
Qed.

(** X25: what [loop] never touches.  Whatever the device does, and
    also when [loop] ends in a fault, the continuous flag and the
    message to write are as before, as many sensors are registered with
    the same UIDs and as many triggers, and the task is either as
    before or it is READ; it is as before when the continuous flag is
    set. *)
Theorem loop_keeps_its_frame (this : PN532 D) :
  next_task_continuous_ (snd (loop this)) = next_task_continuous_ this
  /\ next_task_message_to_write_ (snd (loop this)) = next_task_message_to_write_ this
  /\ map uid_ (binary_sensors_ (snd (loop this))) = map uid_ (binary_sensors_ this)
  /\ length (triggers_ (snd (loop this))) = length (triggers_ this)
  /\ (next_task_ (snd (loop this)) = next_task_ this
      \/ (next_task_ (snd (loop this)) = READ /\ next_task_continuous_ this = false)).
Proof.
  change (loop_frame this (snd (loop this))). revert this.
  change (keeps loop_frame (loop (D := D))). unfold loop.
  apply keeps_bind; [apply keeps_get|]. intros requested_read.
  destruct (negb requested_read); [apply keeps_ret|].
  apply keeps_bind; [apply keeps_on_link|]. intros [success read].
  apply keeps_bind; [apply keeps_set_requested_read_|]. intros _.
  destruct (negb success).
  { apply keeps_bind; [apply keeps_set_current_uid_ | intros; apply keeps_on_link]. }
  apply keeps_bind; [apply keeps_lift|]. intros num_targets.
  destruct (negb (num_targets =? 1)).
  { apply keeps_bind; [apply keeps_set_current_uid_ | intros; apply keeps_on_link]. }
  apply keeps_bind; [apply keeps_lift|]. intros nfcid_length.
  apply keeps_bind; [apply keeps_lift|]. intros nfcid.
  destruct (size read <? 6 + nfcid_length); [apply keeps_ret|].
  intros s. unfold bind at 1, get at 1.
  pose proof (process_sensors_uids (binary_sensors_ s) nfcid true) as Huids.
  destruct (process_sensors (binary_sensors_ s) nfcid true) as [report sensors].
  cbn [snd] in Huids.
  match goal with
  | |- loop_frame s (snd (bind (set_binary_sensors_ sensors) ?k s)) =>
      assert (Hk : forall a, keeps loop_frame (k a))
  end.
  { intros _. apply keeps_bind; [apply keeps_get|]. intros current_uid.
    destruct (_ && _); [apply keeps_ret|].
    apply keeps_bind; [apply keeps_set_current_uid_|]. intros _.
    apply keeps_bind; [apply keeps_on_link|]. intros tag.
    apply keeps_bind; [apply keeps_run_task|]. intros returned.
    destruct returned; [apply keeps_ret | apply keeps_loop_tail]. }
  unfold bind at 1, set_binary_sensors_ at 1.
  eapply loop_frame_trans; [|apply (Hk tt)].
  unfold loop_frame. cbn. repeat split; auto.
Qed.

End LoopFrame.

(** ** Requests *)

Lemma issue_frame {D : Type} (r : request) (this : PN532 D) :
  next_task_ (snd (issue r this)) = request_task r
  /\ next_task_continuous_ (snd (issue r this)) = request_continuous r
  /\ link (snd (issue r this)) = link this
  /\ requested_read_ (snd (issue r this)) = requested_read_ this
  /\ current_uid_ (snd (issue r this)) = current_uid_ this
  /\ binary_sensors_ (snd (issue r this)) = binary_sensors_ this
  /\ triggers_ (snd (issue r this)) = triggers_ this.
Proof. destruct r; cbn; repeat split. Qed.

(** X26: the pending task is a single slot: after any sequence of
    requests the task and the continuous flag are those of the last
    request, and the requests touch neither the bus nor the last UID nor
    the sensors and triggers. *)
Theorem last_request_wins {D : Type} (rs : list request) (r : request) (this : PN532 D) :
  let after := issue_all (rs ++ [r]) this in
  next_task_ after = request_task r
  /\ next_task_continuous_ after = request_continuous r
  /\ link after = link this
  /\ requested_read_ after = requested_read_ this
  /\ current_uid_ after = current_uid_ this
  /\ binary_sensors_ after = binary_sensors_ this
  /\ triggers_ after = triggers_ this.
Proof.
  cbv zeta. unfold issue_all. rewrite fold_left_app. cbn [fold_left].
  set (before := fold_left _ rs this).
  assert (Hb : link before = link this
               /\ requested_read_ before = requested_read_ this
               /\ current_uid_ before = current_uid_ this
               /\ binary_sensors_ before = binary_sensors_ this
               /\ triggers_ before = triggers_ this).
  { subst before. revert this. induction rs as [|r' rs IH]; intros this; cbn [fold_left].
    - repeat split.
    - destruct (IH (snd (issue r' this))) as (L & Q & C & B & T).
      destruct (issue_frame r' this) as (_ & _ & L' & Q' & C' & B' & T').
      repeat split; congruence. }
  destruct Hb as (L & Q & C & B & T).
  destruct (issue_frame r before) as (T1 & T2 & L' & Q' & C' & B' & T').
  repeat split; congruence.
Qed.
(** ** Setup and update *)

Lemma bind_lift_ret {S A B} (a : A) (k : A -> M S B) (s : S) :
  bind (lift (Ret a)) k s = k a s.
Proof. reflexivity. Qed.

Lemma bind_lift_fault {S A B} (k : A -> M S B) (s : S) :
  bind (lift OutOfRange) k s = (OutOfRange, s).
Proof. reflexivity. Qed.

Lemma sam_timeout_eq (update_interval : Z) :
  sam_timeout update_interval = Z.min 255 (u32 update_interval / 50).
Proof. unfold sam_timeout. mod_lia. Qed.

Section LifecycleFacts.
Context {D : Type} `{Transport D} `{Declarations}.
Variable PN532_COMMAND_VERSION_DATA : Z.
Variable PN532_COMMAND_SAMCONFIGURATION : Z.
Variable on_scan_end : PN532BinarySensor -> PN532BinarySensor.
Variable update_interval_ : Z.

Lemma step_link {A} (c : M (bus D) A) (this : Component D) (r : outcome A)
    (b' : bus D) :
  c (link (pn532 this)) = (r, b') ->
  on_pn532 (on_link c) this
  = (r, mkComponent
          (mkPN532 b' (requested_read_ (pn532 this)) (current_uid_ (pn532 this))
             (next_task_ (pn532 this)) (next_task_continuous_ (pn532 this))
             (next_task_message_to_write_ (pn532 this))
             (binary_sensors_ (pn532 this)) (triggers_ (pn532 this)))
          (status_warning this) (failed this) (error_code_ this)).
Proof. intros E. unfold on_pn532, on_link. now rewrite E. Qed.

(** X27: [update] lets every sensor end its scan and sends one
    list-passive-target command.  When the command is acknowledged the
    warning is cleared and a read is requested; when it is not, the
    warning is set and the request flag is left as it was.  The failed
    mark and the error code are not touched. *)
Theorem update_requests_a_read (this : Component D) (ok : bool) (b1 : bus D) :
  write_command_ [PN532_COMMAND_INLISTPASSIVETARGET; 0x01; 0x00] (link (pn532 this))
    = (Ret ok, b1) ->
  update on_scan_end this
  = (Ret tt,
     mkComponent
       (mkPN532 b1 (if ok then true else requested_read_ (pn532 this))
          (current_uid_ (pn532 this)) (next_task_ (pn532 this))
          (next_task_continuous_ (pn532 this))
          (next_task_message_to_write_ (pn532 this))
          (map on_scan_end (binary_sensors_ (pn532 this)))
          (triggers_ (pn532 this)))
       (negb ok) (failed this) (error_code_ this))
  /\ written b1
     = written (link (pn532 this))
         ++ [command_frame [PN532_COMMAND_INLISTPASSIVETARGET; 0x01; 0x00]].
Proof.
  intros E. split.
  - destruct this as [[l r u t c m bs ts] w f e]. cbn [pn532 link] in E.
    unfold update, bind, on_pn532, get, set_binary_sensors_, on_link.
    cbn [pn532 link requested_read_ current_uid_ next_task_ next_task_continuous_
         next_task_message_to_write_ binary_sensors_ triggers_ status_warning
         failed error_code_].
    rewrite E. destruct ok; reflexivity.
  - pose proof (write_command_wire
                  [PN532_COMMAND_INLISTPASSIVETARGET; 0x01; 0x00]
                  (link (pn532 this))) as W.
    rewrite E in W. exact W.
Qed.

Ltac component_fields H :=
  cbn [pn532 link requested_read_ current_uid_ next_task_ next_task_continuous_
       next_task_message_to_write_ binary_sensors_ triggers_ status_warning
       failed error_code_] in H.

Ltac stop_at n :=
  match goal with
  | E : _ = (_, _) |- _ =>
      cbv beta iota delta [bind mark_failed set_error_code_] in E;
      component_fields E;
      injection E as <- <-
  end;
  exists n;
  cbn [pn532 link failed error_code_ fst snd];
  split; [lia|];
  split; [unfold setup_frames; cbn [firstn];
          repeat match goal with W : written _ = _ |- _ => rewrite W; clear W end;
          rewrite <- ?app_assoc; reflexivity|];
  split; [intros; first [lia | split; reflexivity]
         |intros; first [lia | discriminate | reflexivity]].

Ltac write_step E W E1 ok b n :=
  match type of E with
  | bind (on_pn532 (on_link (write_command_ ?data))) _ ?st = _ =>
      pose proof (write_command_wire data (link (pn532 st))) as W;
      destruct (write_command_ data (link (pn532 st))) as [[ok|] b] eqn:E1;
      cbn [snd] in W; component_fields W; component_fields E1;
      [erewrite bind_run in E by (apply step_link; exact E1)
      |erewrite bind_fault in E by (apply step_link; exact E1); stop_at n];
      component_fields E;
      destruct ok; cbn [negb] in E; [|stop_at n]
  end.

Ltac read_step E W E1 data b n :=
  match type of E with
  | bind (on_pn532 (on_link (read_response_ ?command ?data0))) _ ?st = _ =>
      let W' := fresh "W" in
      let ok := fresh "ok" in
      pose proof (read_response_wire command data0 (link (pn532 st))) as [W W'];
      destruct (read_response_ command data0 (link (pn532 st)))
        as [[[ok data]|] b] eqn:E1;
      cbn [fst snd] in W, W'; component_fields W; component_fields W';
      component_fields E1;
      [erewrite bind_run in E by (apply step_link; exact E1)
      |erewrite bind_fault in E by (apply step_link; exact E1);
       destruct W as [W|W]; [stop_at (pred n) | stop_at n]];
      cbv beta iota in E; component_fields E;
      destruct ok; cbn [negb] in E;
      [specialize (W' data eq_refl); clear W
      |destruct W as [W|W]; [stop_at (pred n) | stop_at n]]
  end.

Ltac index_step E n :=
  match type of E with
  | bind (lift (at_ ?v ?i)) _ _ = _ =>
      destruct (at_ v i);
      [rewrite bind_lift_ret in E | rewrite bind_lift_fault in E; stop_at n]
  end.

Let frames : list (list Z) :=
  setup_frames PN532_COMMAND_VERSION_DATA PN532_COMMAND_SAMCONFIGURATION
    update_interval_.

(** The wire of [setup]: a prefix of the seven frames; the whole of
    them only when no step has failed, and then the failed mark and the
    error code are as before; less than the whole of them only when the
    component is marked failed or [setup] ends in a fault. *)
Lemma setup_wire (this : Component D) :
  let result :=
    setup PN532_COMMAND_VERSION_DATA PN532_COMMAND_SAMCONFIGURATION
      update_interval_ this in
  exists n,
    (1 <= n <= 7)%nat
    /\ written (link (pn532 (snd result)))
       = written (link (pn532 this)) ++ firstn n frames
    /\ (n = 7%nat ->
        failed (snd result) = failed this
        /\ error_code_ (snd result) = error_code_ this)
    /\ ((n < 7)%nat -> fst result = Ret tt -> failed (snd result) = true).
Proof.
  cbv zeta.
  destruct (setup _ _ _ this) as [res after] eqn:E.
  destruct this as [[l r u t c m bs ts] w f e].
  cbn [pn532 link failed error_code_ fst snd].
  unfold setup in E. rewrite sam_timeout_eq in E.
  write_step E W1 E1 ok1 b1 1%nat.
  read_step E W2 E2 version_data b2 2%nat.
  index_step E 2%nat. index_step E 2%nat. index_step E 2%nat.
  write_step E W3 E3 ok3 b3 3%nat.
  read_step E W4 E4 wakeup_result b4 4%nat.
  write_step E W5 E5 ok5 b5 5%nat.
  read_step E W6 E6 sam_result b6 6%nat.
  pose proof (turn_off_rf_writes b6) as W7.
  destruct (turn_off_rf_ b6) as [r7 b7] eqn:E7. cbn [snd] in W7.
  match type of E with
  | on_pn532 (on_link _) ?st = _ => rewrite (step_link _ st _ _ E7) in E
  end.
  component_fields E.
  stop_at 7%nat.
Qed.

(** X28: a [setup] that returns without marking the component failed
    has sent the version command, the two SAM configurations and the
    RF-off command, each of the first three followed by the retransmit
    request of the response parser, in this order and nothing else.
    The timeout byte of the second SAM configuration is the update
    interval in units of 50 ms, capped at 255.  The error code is as
    before. *)
Theorem setup_sends_seven_frames (this : Component D) :
  let result :=
    setup PN532_COMMAND_VERSION_DATA PN532_COMMAND_SAMCONFIGURATION
      update_interval_ this in
  fst result = Ret tt ->
  failed (snd result) = false ->
  written (link (pn532 (snd result)))
  = written (link (pn532 this))
      ++ setup_frames PN532_COMMAND_VERSION_DATA PN532_COMMAND_SAMCONFIGURATION
           update_interval_
  /\ error_code_ (snd result) = error_code_ this
  /\ failed this = false.
Proof.
  cbv zeta. intros Hret Hfailed.
  destruct (setup_wire this) as (n & Hn & Hw & Hall & Hpart). cbv zeta in *.
  assert (n = 7%nat) as ->.
  { destruct (Nat.eq_dec n 7) as [E|E]; [exact E|].
    assert (Hlt : (n < 7)%nat) by lia.
    specialize (Hpart Hlt Hret). congruence. }
  destruct (Hall eq_refl) as [Hf He].
  repeat split; [exact Hw | exact He | congruence].
Qed.

(** X29: a [setup] that marks the component failed has stopped at the
    failing step: what it has sent is a proper prefix of the seven
    frames, and the RF-off command is not among it. *)
Theorem setup_stops_at_the_first_failure (this : Component D) :
  let result :=
    setup PN532_COMMAND_VERSION_DATA PN532_COMMAND_SAMCONFIGURATION
      update_interval_ this in
  failed this = false ->
  failed (snd result) = true ->
  exists n,
    (1 <= n < 7)%nat
    /\ written (link (pn532 (snd result)))
       = written (link (pn532 this))
           ++ firstn n (setup_frames PN532_COMMAND_VERSION_DATA
                          PN532_COMMAND_SAMCONFIGURATION update_interval_).
Proof.
  cbv zeta. intros Hbefore Hafter.
  destruct (setup_wire this) as (n & Hn & Hw & Hall & Hpart). cbv zeta in *.
  exists n. split; [|exact Hw].
  destruct (Nat.eq_dec n 7) as [E|E]; [|lia].
  destruct (Hall E) as [Hf He]. congruence.
Qed.

End LifecycleFacts.

(** ** The read request *)

Section Request.
Context {D : Type} `{Transport D} `{Declarations}.

Lemma same_request_bind {A B} (c : M (PN532 D) A) (k : A -> M (PN532 D) B) :
  keeps same_request c -> (forall a, keeps same_request (k a)) ->
  keeps same_request (bind c k).
Proof.
  intros Hc Hk s. unfold bind. specialize (Hc s).
  destruct (c s) as [[a|] s1]; cbn [snd] in Hc |- *; [|exact Hc].
  unfold same_request in *. rewrite <- Hc. apply Hk.
Qed.

Lemma same_request_on_link {A} (c : M (bus D) A) : keeps same_request (on_link c).
Proof. intros s. unfold on_link. destruct (c (link s)). reflexivity. Qed.

Ltac request_kept :=
  repeat first
    [ apply same_request_on_link
    | apply same_request_bind; [|intros ?]
    | (intros ?; reflexivity)
    | match goal with
      | |- keeps _ (if ?c then _ else _) => destruct c
      | |- keeps _ (match ?x with Some _ => _ | None => _ end) => destruct x
      | |- keeps _ (match ?x with (_, _) => _ end) => destruct x
      | |- keeps _ (match ?x with READ => _ | _ => _ end) => destruct x
      end ].

(** X30: a read request is used once.  Unless the response parser
    ends in a fault, [loop] leaves no request pending, whatever it
    finds and whatever happens to the tag operation it runs. *)
Theorem loop_consumes_the_request (this : PN532 D) :
  fst (read_response_ PN532_COMMAND_INLISTPASSIVETARGET [] (link this)) <> OutOfRange ->
  requested_read_ (snd (loop this)) = false.
Proof.
  intros Hparser. unfold loop. unfold bind at 1, get at 1.
  destruct (requested_read_ this) eqn:R; cbn [negb]; [|exact R].
  destruct (read_response_ PN532_COMMAND_INLISTPASSIVETARGET [] (link this))
    as [[[success read]|] b1] eqn:E; [|now elim Hparser].
  erewrite bind_run by (apply on_link_run; exact E). cbv beta iota.
  erewrite bind_run by reflexivity.
  match goal with
  | |- requested_read_ (snd (?K ?st)) = false =>
      assert (HK : keeps same_request K); [|exact (HK st)]
  end.
  request_kept.
Qed.

End Request.
(** ** The statements at concrete inputs *)

Ltac answered :=
  unfold answers; exists 1, 1, 1; eexists; eexists;
  split; [reflexivity | split; [reflexivity | intros; reflexivity]].

Ltac evaluated := vm_compute; first [reflexivity | discriminate | lia].

Lemma write_command_acknowledged_witness :
  exists r,
    write_command_ [0x4A; 0x01; 0x00] (fresh_bus [delivered ack_frame])
    = (Ret r, mkBus [] [command_frame [0x4A; 0x01; 0x00]])
    /\ (r = true <-> ack_frame = ack_frame).
Proof.
  apply (write_command_acknowledged [0x4A; 0x01; 0x00] ack_frame 1
           (fresh_bus [delivered ack_frame]) []); reflexivity.
Defined.

Lemma length_probe_result_witness :
  read_response_length_
    (fresh_bus [delivered (wire_frame 2 0xFE 0xD5 0xE0 0x00 [0x4B])])
  = (Ret 1, mkBus [] [nack_frame]).
Proof.
  exact (length_probe_result 2 0xFE 0xD5 0xE0 0x00 1 [0x4B]
           (fresh_bus [delivered (wire_frame 2 0xFE 0xD5 0xE0 0x00 [0x4B])]) []
           eq_refl).
Defined.

Lemma wrong_echo_is_refused_witness :
  read_response_ 0x4A []
    (fresh_bus [delivered (response_frame [0x41; 0x00]);
                delivered (response_frame [0x41; 0x00])])
  = (Ret (false, 0x01 :: response_frame [0x41; 0x00]), mkBus [] [nack_frame]).
Proof.
  refine (wrong_echo_is_refused 0x4A 0x41 1 1 [0x00] []
            (fresh_bus [delivered (response_frame [0x41; 0x00]);
                        delivered (response_frame [0x41; 0x00])])
            [delivered (response_frame [0x41; 0x00])] [] _ _ eq_refl eq_refl);
    evaluated.
Defined.

Lemma payload_corruption_is_detected_witness :
  exists data',
    read_response_ 0x40 []
      (fresh_bus [delivered (mutate (response_frame [0x41; 0x00; 0x11]) 8 0x12);
                  delivered (mutate (response_frame [0x41; 0x00; 0x11]) 8 0x12)])
    = (Ret (false, data'), mkBus [] [nack_frame]).
Proof.
  refine (payload_corruption_is_detected 0x40 0x12 1 1 [0x00; 0x11] [] 1
            (fresh_bus [delivered (mutate (response_frame [0x41; 0x00; 0x11]) 8 0x12);
                        delivered (mutate (response_frame [0x41; 0x00; 0x11]) 8 0x12)])
            [delivered (mutate (response_frame [0x41; 0x00; 0x11]) 8 0x12)] []
            _ _ _ _ _ eq_refl eq_refl);
    try evaluated; simpl; lia.
Defined.

Lemma read_block_result_witness :
  read_mifare_classic_block_ 4 [] (fresh_bus block_4_read)
  = (Ret (true, empty_ndef_message),
     mkBus [] [command_frame [0x40; 0x01; 0x30; 4]; nack_frame]).
Proof.
  refine (read_block_result 4 0x00 empty_ndef_message [] (fresh_bus block_4_read) []
            _ _); [answered | evaluated].
Defined.

Lemma auth_result_witness :
  auth_mifare_classic_block_ uid_04010203 4 0x60 NDEF_KEY (fresh_bus authenticated)
  = (Ret true,
     mkBus [] [command_frame ([0x40; 0x01; 0x60; 4] ++ NDEF_KEY ++ uid_04010203);
               nack_frame]).
Proof.
  refine (auth_result uid_04010203 NDEF_KEY [] 4 0x60 0x00 (fresh_bus authenticated) []
            _ _); [answered | evaluated].
Defined.

Lemma write_block_ignores_status_witness :
  write_mifare_classic_block_ 4 blank_buffer
    (fresh_bus (exchange (data_exchange_response 0x01 [])))
  = (Ret true,
     mkBus [] [command_frame ([0x40; 0x01; 0xA0; 4] ++ blank_buffer); nack_frame]).
Proof.
  refine (write_block_ignores_status 4 blank_buffer [0x01]
            (fresh_bus (exchange (data_exchange_response 0x01 []))) [] _ _);
    [answered | evaluated].
Defined.

Lemma empty_answer_is_read_out_of_range_witness :
  fst (read_mifare_classic_block_ 4 [] (fresh_bus (exchange [0x41]))) = OutOfRange
  /\ fst (auth_mifare_classic_block_ uid_04010203 4 0x60 NDEF_KEY
            (fresh_bus (exchange [0x41]))) = OutOfRange.
Proof.
  refine (empty_answer_is_read_out_of_range uid_04010203 NDEF_KEY [] 4 0x60
            (fresh_bus (exchange [0x41])) (fresh_bus (exchange [0x41])) [] [] _ _);
    answered.
Defined.

Lemma format_stays_on_the_tag_witness :
  emits (D := script)
    (fun frame => forall block_num,
         written_block frame = Some block_num -> 1 <= block_num <= 63)
    (clean_tag_ uid_04010203)
  /\ emits (D := script)
       (fun frame => forall block_num,
            written_block frame = Some block_num -> 1 <= block_num <= 63)
       (format_tag_ uid_04010203).
Proof.
  refine (format_stays_on_the_tag (D := script) uid_04010203 _). evaluated.
Defined.

Lemma frame_layer_without_answer_witness :
  fst (write_command_ [0x4A; 0x01; 0x00] (mkBus tt [])) = Ret false
  /\ fst (read_response_length_ (mkBus tt [])) = Ret 0
  /\ written (snd (read_response_length_ (mkBus tt []))) = []
  /\ fst (read_response_ 0x4A [0x4A; 0x01; 0x00] (mkBus tt []))
     = Ret (false, [0x4A; 0x01; 0x00])
  /\ written (snd (read_response_ 0x4A [0x4A; 0x01; 0x00] (mkBus tt []))) = [].
Proof.
  refine (frame_layer_without_answer (D := unit) _ 0x4A [0x4A; 0x01; 0x00] (mkBus tt [])).
  intros data len d. reflexivity.
Defined.

Lemma clean_succeeds_without_access_witness :
  fst (clean_tag_ uid_04010203 (mkBus tt [])) = Ret true.
Proof.
  refine (clean_succeeds_without_access (D := unit) uid_04010203 (mkBus tt [])
            eq_refl _).
  intros block_num b'. reflexivity.
Defined.

Lemma write_tag_needs_whole_blocks_witness :
  size (write_tag_buffer [0xD0; 0x00; 0x00]) mod 16 <> 0
  /\ fst (write_tag_ uid_04010203 [0xD0; 0x00; 0x00] (fresh_bus [])) <> Ret true.
Proof.
  assert (Hsize : size (write_tag_buffer [0xD0; 0x00; 0x00]) mod 16 <> 0)
    by evaluated.
  split; [exact Hsize|].
  exact (write_tag_needs_whole_blocks uid_04010203 [0xD0; 0x00; 0x00] (fresh_bus [])
           Hsize).
Defined.

Lemma write_mifare_classic_tag_whole_blocks_witness :
  size (write_mifare_classic_tag_buffer [0xD0; 0x00; 0x00]) = 16
  /\ exists data,
       range (write_mifare_classic_tag_buffer [0xD0; 0x00; 0x00]) 0 16 = Ret data
       /\ size data = 16.
Proof.
  assert (Hsize : size [0xD0; 0x00; 0x00] < 4294967296) by evaluated.
  destruct (write_mifare_classic_tag_whole_blocks [0xD0; 0x00; 0x00] 0 Hsize)
    as (Hbuffer & Hblocks & Hrange).
  split; [exact Hbuffer|].
  apply Hrange; [vm_compute; split; [discriminate | reflexivity] | reflexivity].
Defined.

Lemma format_ndef_best_effort_witness :
  exists ok,
    fst (format_mifare_classic_ndef_ uid_04010203
           (fresh_bus (authenticated ++ authenticated ++ authenticated ++ authenticated)))
    = Ret ok
    /\ ok = true.
Proof.
  set (b := fresh_bus (authenticated ++ authenticated ++ authenticated ++ authenticated)).
  destruct (fst (format_mifare_classic_ndef_ uid_04010203 b)) as [ok|] eqn:E;
    [|vm_compute in E; discriminate E].
  exists ok. split; [reflexivity|].
  pose (b1 := snd (auth_mifare_classic_block_ uid_04010203 0 0x61 DEFAULT_KEY b)).
  pose (b2 := snd (write_mifare_classic_block_ 1 sector_buffer_1 b1)).
  pose (b3 := snd (write_mifare_classic_block_ 2 sector_buffer_2 b2)).
  pose (b4 := snd (write_mifare_classic_block_ 3 sector_buffer_3 b3)).
  refine (format_ndef_best_effort uid_04010203 b b1 b2 b3 b4 _ _ _ _ ok E).
  all: vm_compute; reflexivity.
Defined.

Lemma loop_without_tag_witness :
  loop (awaiting no_ack uid_04010203)
  = (Ret tt,
     mkPN532 (mkBus [] [command_frame [0x32; 0x01; 0x00]]) false [] READ false None
       [] [mkTrigger []])
  /\ written (snd (turn_off_rf_ (mkBus [] [])))
     = [] ++ [command_frame [0x32; 0x01; 0x00]].
Proof.
  refine (loop_without_tag (awaiting no_ack uid_04010203) false [] (mkBus [] [])
            eq_refl eq_refl _).
  left. reflexivity.
Defined.

Lemma loop_suppressed_tag_witness :
  loop (awaiting (detected []) uid_04010203)
  = (Ret tt,
     mkPN532 (mkBus [] [nack_frame]) false uid_04010203 READ false None
       [] [mkTrigger []]).
Proof.
  exact (loop_suppressed_tag (awaiting (detected []) uid_04010203)
           (tl one_target_response) uid_04010203 4 (mkBus [] [nack_frame])
           eq_refl eq_refl eq_refl eq_refl eq_refl eq_refl).
Defined.

Lemma loop_reads_new_tag_witness :
  fst (loop (awaiting (detected []) [])) = Ret tt
  /\ current_uid_ (snd (loop (awaiting (detected []) []))) = uid_04010203
  /\ triggers_ (snd (loop (awaiting (detected []) [])))
     = [mkTrigger [nfc.mkTag uid_04010203 nfc.MIFARE_CLASSIC None]].
Proof.
  pose (b1 := mkBus ([] : script) [nack_frame]).
  rewrite (loop_reads_new_tag (awaiting (detected []) [])
             (tl one_target_response) uid_04010203 4
             (nfc.mkTag uid_04010203 nfc.MIFARE_CLASSIC None)
             b1 (snd (read_tag_ uid_04010203 b1)));
    [repeat split | evaluated ..].
Defined.

Lemma loop_consumes_one_shot_task_witness :
  fst (loop (armed CLEAN None (detected []) [])) = Ret tt
  /\ next_task_ (snd (loop (armed CLEAN None (detected []) []))) = READ
  /\ current_uid_ (snd (loop (armed CLEAN None (detected []) []))) = uid_04010203.
Proof.
  pose (b1 := mkBus ([] : script) [nack_frame]).
  pose (b2 := snd (read_tag_ uid_04010203 b1)).
  rewrite (loop_consumes_one_shot_task (armed CLEAN None (detected []) [])
             (tl one_target_response) uid_04010203 4
             (nfc.mkTag uid_04010203 nfc.MIFARE_CLASSIC None) true
             b1 b2 (snd (clean_tag_ uid_04010203 b2)));
    [repeat split | try evaluated ..].
  left. split; evaluated.
Defined.

Lemma loop_keeps_write_after_failed_format_witness :
  fst (loop (armed WRITE (Some [0xD0; 0x00; 0x00]) (detected []) [])) = Ret tt
  /\ next_task_ (snd (loop (armed WRITE (Some [0xD0; 0x00; 0x00]) (detected []) [])))
     = WRITE.
Proof.
  pose (b1 := mkBus ([] : script) [nack_frame]).
  pose (b2 := snd (read_tag_ uid_04010203 b1)).
  assert (Hloop := loop_keeps_write_after_failed_format
                     (armed WRITE (Some [0xD0; 0x00; 0x00]) (detected []) [])
                     (tl one_target_response) uid_04010203 [0xD0; 0x00; 0x00] 4
                     (nfc.mkTag uid_04010203 nfc.MIFARE_CLASSIC None)
                     b1 b2 (snd (format_tag_ uid_04010203 b2))).
  destruct Hloop as [Hloop _]; [evaluated ..|].
  rewrite Hloop. repeat split.
Defined.

Lemma update_requests_a_read_witness :
  update (fun sensor => sensor) (installed [delivered ack_frame])
  = (Ret tt,
     mkComponent
       (mkPN532 (mkBus [] [command_frame [0x4A; 0x01; 0x00]]) true [] READ false None
          [] [])
       false false NONE)
  /\ written (mkBus ([] : script) [command_frame [0x4A; 0x01; 0x00]])
     = [] ++ [command_frame [0x4A; 0x01; 0x00]].
Proof.
  exact (update_requests_a_read (fun sensor => sensor)
           (installed [delivered ack_frame]) true
           (mkBus [] [command_frame [0x4A; 0x01; 0x00]]) eq_refl).
Defined.

Lemma setup_sends_seven_frames_witness :
  written (link (pn532 (snd (setup 0x02 0x14 1000
                               (installed (exchange version_response
                                             ++ exchange sam_response
                                             ++ exchange sam_response
                                             ++ [delivered ack_frame]))))))
  = [] ++ setup_frames 0x02 0x14 1000
  /\ error_code_ (snd (setup 0x02 0x14 1000
                         (installed (exchange version_response
                                       ++ exchange sam_response
                                       ++ exchange sam_response
                                       ++ [delivered ack_frame]))))
     = NONE
  /\ failed (installed (exchange version_response ++ exchange sam_response
                          ++ exchange sam_response ++ [delivered ack_frame]))
     = false.
Proof.
  refine (setup_sends_seven_frames 0x02 0x14 1000
            (installed (exchange version_response ++ exchange sam_response
                          ++ exchange sam_response ++ [delivered ack_frame]))
            _ _); vm_compute; reflexivity.
Defined.

Lemma setup_stops_at_the_first_failure_witness :
  exists n,
    (1 <= n < 7)%nat
    /\ written (link (pn532 (snd (setup 0x02 0x14 1000 (installed no_ack)))))
       = [] ++ firstn n (setup_frames 0x02 0x14 1000).
Proof.
  refine (setup_stops_at_the_first_failure 0x02 0x14 1000 (installed no_ack) _ _);
    vm_compute; reflexivity.
Defined.

Lemma loop_consumes_the_request_witness :
  requested_read_ (snd (loop (awaiting no_ack []))) = false.
Proof.
  refine (loop_consumes_the_request (awaiting no_ack []) _).
  vm_compute. discriminate.
Defined.
